(** * CCudaFilteredBackProjectionAlgorithm (FBP_CUDA)

    A shallow embedding of [src/CudaFilteredBackProjectionAlgorithm.cpp] of
    the ASTRA Toolbox: the filter catalog ([_convertStringToFilter]), the two
    [initialize] entry points, [check] and [initCUDAAlgorithm], followed by
    the properties of the orchestration layer.

    Conventions.
    - A C [int] is a [Z]; where the source multiplies two of them the
      product wraps around modulo [2^32], as it does in the compiled code.  A [size_t] is a [Z] reduced modulo
      [2^64].
    - A [float] is the [Z] of its IEEE-754 binary32 bit pattern, so that
      [memcpy] moves exactly the stored bits.
    - A nullable pointer is an [option]; the owned filter buffer is an
      address into a heap of [float] arrays, so that allocation and release
      can be counted.
    - A member function is a computation in the monad [M]: it threads the
      [World] (the instance, the heap, the log) and either returns or stops
      with a [Fault]. *)

From Stdlib Require Import ZArith Ascii String List Bool Lia.
From stdpp Require Import gmap strings list.

Import ListNotations.
Local Open Scope string_scope.
Local Open Scope list_scope.
Local Open Scope Z_scope.

(** ** Filter kinds *)

(** The enumerators of [E_FBPFILTER] that the source file names; the
    enumeration itself is declared in the engine's header. *)
Inductive E_FBPFILTER : Set :=
| FILTER_NONE
| FILTER_RAMLAK
| FILTER_SHEPPLOGAN
| FILTER_COSINE
| FILTER_HAMMING
| FILTER_HANN
| FILTER_TUKEY
| FILTER_LANCZOS
| FILTER_TRIANGULAR
| FILTER_GAUSSIAN
| FILTER_BARTLETTHANN
| FILTER_BLACKMAN
| FILTER_NUTTALL
| FILTER_BLACKMANHARRIS
| FILTER_BLACKMANNUTTALL
| FILTER_FLATTOP
| FILTER_KAISER
| FILTER_PARZEN
| FILTER_PROJECTION
| FILTER_SINOGRAM
| FILTER_RPROJECTION
| FILTER_RSINOGRAM.

Definition E_FBPFILTER_eqb (a b : E_FBPFILTER) : bool :=
  match a, b with
  | FILTER_NONE, FILTER_NONE
  | FILTER_RAMLAK, FILTER_RAMLAK
  | FILTER_SHEPPLOGAN, FILTER_SHEPPLOGAN
  | FILTER_COSINE, FILTER_COSINE
  | FILTER_HAMMING, FILTER_HAMMING
  | FILTER_HANN, FILTER_HANN
  | FILTER_TUKEY, FILTER_TUKEY
  | FILTER_LANCZOS, FILTER_LANCZOS
  | FILTER_TRIANGULAR, FILTER_TRIANGULAR
  | FILTER_GAUSSIAN, FILTER_GAUSSIAN
  | FILTER_BARTLETTHANN, FILTER_BARTLETTHANN
  | FILTER_BLACKMAN, FILTER_BLACKMAN
  | FILTER_NUTTALL, FILTER_NUTTALL
  | FILTER_BLACKMANHARRIS, FILTER_BLACKMANHARRIS
  | FILTER_BLACKMANNUTTALL, FILTER_BLACKMANNUTTALL
  | FILTER_FLATTOP, FILTER_FLATTOP
  | FILTER_KAISER, FILTER_KAISER
  | FILTER_PARZEN, FILTER_PARZEN
  | FILTER_PROJECTION, FILTER_PROJECTION
  | FILTER_SINOGRAM, FILTER_SINOGRAM
  | FILTER_RPROJECTION, FILTER_RPROJECTION
  | FILTER_RSINOGRAM, FILTER_RSINOGRAM => true
  | _, _ => false
  end.

(** The two categories of the data model.  The custom-data kinds need a
    coefficient buffer; the analytic kinds are closed-form windows. *)
Inductive custom_data_kind : E_FBPFILTER -> Prop :=
| custom_projection : custom_data_kind FILTER_PROJECTION
| custom_sinogram : custom_data_kind FILTER_SINOGRAM
| custom_rprojection : custom_data_kind FILTER_RPROJECTION
| custom_rsinogram : custom_data_kind FILTER_RSINOGRAM.

Definition analytic_kind (f : E_FBPFILTER) : Prop := ~ custom_data_kind f.

(** The per-angle-indexed kinds. *)
Definition per_angle_kind (f : E_FBPFILTER) : Prop :=
  f = FILTER_SINOGRAM \/ f = FILTER_RSINOGRAM.

(** ** Logging *)

Inductive LogLevel : Set := LOG_ERROR.

(** One record of the logger: [ASTRA_ERROR] writes at level error. *)
Definition LogEntry : Type := (LogLevel * string)%type.

Definition dquote : string := String (ascii_of_nat 34) EmptyString.

(** ** Case-insensitive comparison *)

Definition char_code (c : ascii) : Z := Z.of_N (N_of_ascii c).

(** [tolower] of the C locale on an [unsigned char] value. *)
Definition tolower (c : Z) : Z :=
  if (65 <=? c) && (c <=? 90) then c + 32 else c.

(** [strcasecmp]: the difference of the first pair of lowered characters
    that differ, 0 when both strings end together.  The end of the Rocq
    string is the terminator; a NUL character inside it terminates too. *)
Fixpoint strcasecmp (a b : string) : Z :=
  match a, b with
  | EmptyString, EmptyString => 0
  | String c _, EmptyString => tolower (char_code c)
  | EmptyString, String d _ => - tolower (char_code d)
  | String c a', String d b' =>
      let x := tolower (char_code c) in
      let y := tolower (char_code d) in
      if x =? y then (if x =? 0 then 0 else strcasecmp a' b') else x - y
  end.

Definition stringCompareLowerCase (_stringA _stringB : string) : bool :=
  let iCmpReturn := strcasecmp _stringA _stringB in
  iCmpReturn =? 0.

(** ** The filter catalog *)

Definition convert_failure (_filterType : string) : LogEntry :=
  (LOG_ERROR, "Failed to convert " +:+ dquote +:+ _filterType +:+ dquote +:+ " into a filter.").

(** [_convertStringToFilter]: the kind, and what the call writes to the
    log. *)
Definition _convertStringToFilter (_filterType : string) : E_FBPFILTER * list LogEntry :=
  let output := FILTER_NONE in
  if stringCompareLowerCase _filterType "ram-lak" then (FILTER_RAMLAK, [])
  else if stringCompareLowerCase _filterType "shepp-logan" then (FILTER_SHEPPLOGAN, [])
  else if stringCompareLowerCase _filterType "cosine" then (FILTER_COSINE, [])
  else if stringCompareLowerCase _filterType "hamming" then (FILTER_HAMMING, [])
  else if stringCompareLowerCase _filterType "hann" then (FILTER_HANN, [])
  else if stringCompareLowerCase _filterType "none" then (FILTER_NONE, [])
  else if stringCompareLowerCase _filterType "tukey" then (FILTER_TUKEY, [])
  else if stringCompareLowerCase _filterType "lanczos" then (FILTER_LANCZOS, [])
  else if stringCompareLowerCase _filterType "triangular" then (FILTER_TRIANGULAR, [])
  else if stringCompareLowerCase _filterType "gaussian" then (FILTER_GAUSSIAN, [])
  else if stringCompareLowerCase _filterType "barlett-hann" then (FILTER_BARTLETTHANN, [])
  else if stringCompareLowerCase _filterType "blackman" then (FILTER_BLACKMAN, [])
  else if stringCompareLowerCase _filterType "nuttall" then (FILTER_NUTTALL, [])
  else if stringCompareLowerCase _filterType "blackman-harris" then (FILTER_BLACKMANHARRIS, [])
  else if stringCompareLowerCase _filterType "blackman-nuttall" then (FILTER_BLACKMANNUTTALL, [])
  else if stringCompareLowerCase _filterType "flat-top" then (FILTER_FLATTOP, [])
  else if stringCompareLowerCase _filterType "kaiser" then (FILTER_KAISER, [])
  else if stringCompareLowerCase _filterType "parzen" then (FILTER_PARZEN, [])
  else if stringCompareLowerCase _filterType "projection" then (FILTER_PROJECTION, [])
  else if stringCompareLowerCase _filterType "sinogram" then (FILTER_SINOGRAM, [])
  else if stringCompareLowerCase _filterType "rprojection" then (FILTER_RPROJECTION, [])
  else if stringCompareLowerCase _filterType "rsinogram" then (FILTER_RSINOGRAM, [])
  else (output, [convert_failure _filterType]).

(** The literals of the source, in the order they are tried. *)
Definition source_literals : list (string * E_FBPFILTER) :=
  [ ("ram-lak", FILTER_RAMLAK); ("shepp-logan", FILTER_SHEPPLOGAN);
    ("cosine", FILTER_COSINE); ("hamming", FILTER_HAMMING);
    ("hann", FILTER_HANN); ("none", FILTER_NONE); ("tukey", FILTER_TUKEY);
    ("lanczos", FILTER_LANCZOS); ("triangular", FILTER_TRIANGULAR);
    ("gaussian", FILTER_GAUSSIAN); ("barlett-hann", FILTER_BARTLETTHANN);
    ("blackman", FILTER_BLACKMAN); ("nuttall", FILTER_NUTTALL);
    ("blackman-harris", FILTER_BLACKMANHARRIS);
    ("blackman-nuttall", FILTER_BLACKMANNUTTALL); ("flat-top", FILTER_FLATTOP);
    ("kaiser", FILTER_KAISER); ("parzen", FILTER_PARZEN);
    ("projection", FILTER_PROJECTION); ("sinogram", FILTER_SINOGRAM);
    ("rprojection", FILTER_RPROJECTION); ("rsinogram", FILTER_RSINOGRAM) ].

(** The catalog as the interface description publishes it. *)
Definition published_catalog : list (string * E_FBPFILTER) :=
  [ ("ram-lak", FILTER_RAMLAK); ("shepp-logan", FILTER_SHEPPLOGAN);
    ("cosine", FILTER_COSINE); ("hamming", FILTER_HAMMING);
    ("hann", FILTER_HANN); ("none", FILTER_NONE); ("tukey", FILTER_TUKEY);
    ("lanczos", FILTER_LANCZOS); ("triangular", FILTER_TRIANGULAR);
    ("gaussian", FILTER_GAUSSIAN); ("bartlett-hann", FILTER_BARTLETTHANN);
    ("blackman", FILTER_BLACKMAN); ("nuttall", FILTER_NUTTALL);
    ("blackman-harris", FILTER_BLACKMANHARRIS);
    ("blackman-nuttall", FILTER_BLACKMANNUTTALL); ("flat-top", FILTER_FLATTOP);
    ("kaiser", FILTER_KAISER); ("parzen", FILTER_PARZEN);
    ("projection", FILTER_PROJECTION); ("sinogram", FILTER_SINOGRAM);
    ("rprojection", FILTER_RPROJECTION); ("rsinogram", FILTER_RSINOGRAM) ].

(** Case variants: the same characters up to the case of ASCII letters. *)
Definition swapcase (c : ascii) : ascii :=
  let n := char_code c in
  if (65 <=? n) && (n <=? 90) then ascii_of_N (Z.to_N (n + 32))
  else if (97 <=? n) && (n <=? 122) then ascii_of_N (Z.to_N (n - 32))
  else c.

Definition same_letter (c d : ascii) : bool :=
  Ascii.eqb c d || Ascii.eqb c (swapcase d).

Fixpoint case_variant (s name : string) : bool :=
  match s, name with
  | EmptyString, EmptyString => true
  | String c s', String d name' => same_letter c d && case_variant s' name'
  | _, _ => false
  end.

(** A string matches a catalog when it is a case variant of one of its
    names. *)
Definition matches_catalog (cat : list (string * E_FBPFILTER)) (s : string) : bool :=
  existsb (fun e => case_variant s (fst e)) cat.

(** ** Machine types *)

(** A [float] as the bit pattern of its binary32 encoding. *)
Abbreviation float := Z (only parsing).

(** An address in the heap of [float] arrays. *)
Abbreviation addr := positive (only parsing).

Definition float_minus_one : float := 3212836864.  (* -1.0f = 0xBF800000 *)
Definition float_one : float := 1065353216.        (* 1.0f = 0x3F800000 *)

Definition sizeof_float : Z := 4.

Definition INT_MIN : Z := -2147483648.
Definition INT_MAX : Z := 2147483647.

(** A mathematical integer reduced to the 32-bit two's complement [int]
    that holds it. *)
Definition wrap_int (z : Z) : Z := (z + 2 ^ 31) mod 2 ^ 32 - 2 ^ 31.

(** Conversion to, and multiplication in, a 64-bit [size_t]. *)
Definition to_size_t (x : Z) : Z := x mod 2 ^ 64.
Definition size_t_mul (x y : Z) : Z := (x * y) mod 2 ^ 64.

(** The four bytes of a [float] in memory, least significant first. *)
Definition float_bytes (x : float) : list Z :=
  [ Z.land x 255; Z.land (Z.shiftr x 8) 255;
    Z.land (Z.shiftr x 16) 255; Z.land (Z.shiftr x 24) 255 ].

Definition buffer_bytes (b : list float) : list Z := flat_map float_bytes b.

(** ** Collaborating objects *)

(** Modelled from the spec: the projection geometry classes, which are
    declared outside the source file.  The source asks of a geometry only
    whether its dynamic class is [CFanFlatProjectionGeometry2D] (fan-beam
    with a flat detector) and reads its two counts; a geometry is a tagged
    variant, and [dynamic_cast] to the fan-flat class succeeds on that tag
    only. *)
Inductive GeometryClass : Set :=
| ParallelProjectionGeometry2D
| FanFlatProjectionGeometry2D
| ParallelVecProjectionGeometry2D
| FanFlatVecProjectionGeometry2D
| SparseMatrixProjectionGeometry2D.

Record CProjectionGeometry2D : Type := {
  geometry_class : GeometryClass;
  getDetectorCount : Z;
  getProjectionAngleCount : Z
}.

Definition dynamic_cast_FanFlat (g : option CProjectionGeometry2D) : option CProjectionGeometry2D :=
  match g with
  | Some g' =>
      match geometry_class g' with
      | FanFlatProjectionGeometry2D => Some g'
      | _ => None
      end
  | None => None
  end.

(** Modelled from the spec: the dataset classes [CFloat32ProjectionData2D]
    and [CFloat32VolumeData2D], declared outside the source file, as records
    of what the accessors called by the source return.  [getGeometry] is a
    pointer and may be null. *)
Record CFloat32ProjectionData2D : Type := {
  proj_isInitialized : bool;
  getGeometry : option CProjectionGeometry2D;
  getAngleCount : Z;
  getDataConst : list float
}.

Record CFloat32VolumeData2D : Type := {
  vol_isInitialized : bool;
  vol_data : list float
}.

(** What [CData2DManager] stores: an object of either dynamic class. *)
Inductive CFloat32Data2D : Type :=
| ProjectionData (d : CFloat32ProjectionData2D)
| VolumeData (v : CFloat32VolumeData2D).

Definition dynamic_cast_ProjectionData (o : option CFloat32Data2D) : option CFloat32ProjectionData2D :=
  match o with
  | Some (ProjectionData d) => Some d
  | _ => None
  end.

(** Modelled from the spec: [CData2DManager::get], defined outside the
    source file: lookup by id among the registered objects, null when the id
    is not registered. *)
Definition CData2DManager_get (mgr : gmap Z CFloat32Data2D) (id : Z) : option CFloat32Data2D :=
  mgr !! id.

(** Modelled from the spec: the configuration node tree ([Config],
    [XMLNode]), declared outside the source file, as a record of optional
    named fields: the fields this class reads, already converted by the
    accessor the source uses on each ([getContent], [getContentInt],
    [getContentNumerical], [getOptionBool]), and the remaining nodes and
    options by name. *)
Record Config : Type := {
  FilterType : option string;
  FilterSinogramId : option Z;
  FilterParameter : option float;
  FilterD : option float;
  ShortScan : option bool;
  other_fields : list (string * string)
}.

Definition with_ShortScan (v : option bool) (c : Config) : Config :=
  {| FilterType := FilterType c; FilterSinogramId := FilterSinogramId c;
     FilterParameter := FilterParameter c; FilterD := FilterD c;
     ShortScan := v; other_fields := other_fields c |}.

(** [getOptionBool(name, default)]. *)
Definition getOptionBool (o : option bool) (dflt : bool) : bool :=
  match o with Some b => b | None => dflt end.

(** Modelled from the spec: what [ConfigStackCheck], declared outside the
    source file, is told to record as consumed. *)
Inductive Mark : Type :=
| NodeParsed (name : string)
| OptionParsed (name : string).

(** How a call can stop without returning. *)
Inductive Fault : Set :=
| NullDereference     (* a null pointer is dereferenced *)
| BadArrayLength      (* new[] of a negative length throws *)
| OutOfBounds         (* memcpy past the end of its source or target *)
| InvalidFree         (* delete[] of a block that is not live *)
| AssertionFailure.   (* ASTRA_ASSERT on a false condition *)

(** ** The instance *)

(** The types this file only holds and passes on: the engine object
    [astraCUDA::FBP], and the members of the base classes that this file
    never names (the projector and the like). *)
Class ExternalTypes : Type := {
  FBP : Type;
  BaseMembers : Type
}.

Section Instance.
Context {T : ExternalTypes}.

(** The members inherited from [CCudaReconstructionAlgorithm2D] and its
    bases that the source file reads or writes. *)
Record CCudaReconstructionAlgorithm2D : Type := {
  m_bIsInitialized : bool;
  m_pSinogram : option CFloat32ProjectionData2D;
  m_pReconstruction : option CFloat32VolumeData2D;
  m_iGPUIndex : Z;
  m_iPixelSuperSampling : Z;
  m_pAlgo : option FBP;
  m_bAlgoInit : bool;
  base_members : BaseMembers
}.

Definition set_m_bIsInitialized (v : bool) (b : CCudaReconstructionAlgorithm2D) :=
  {| m_bIsInitialized := v; m_pSinogram := m_pSinogram b;
     m_pReconstruction := m_pReconstruction b; m_iGPUIndex := m_iGPUIndex b;
     m_iPixelSuperSampling := m_iPixelSuperSampling b; m_pAlgo := m_pAlgo b;
     m_bAlgoInit := m_bAlgoInit b; base_members := base_members b |}.

Definition set_m_pSinogram (v : option CFloat32ProjectionData2D) (b : CCudaReconstructionAlgorithm2D) :=
  {| m_bIsInitialized := m_bIsInitialized b; m_pSinogram := v;
     m_pReconstruction := m_pReconstruction b; m_iGPUIndex := m_iGPUIndex b;
     m_iPixelSuperSampling := m_iPixelSuperSampling b; m_pAlgo := m_pAlgo b;
     m_bAlgoInit := m_bAlgoInit b; base_members := base_members b |}.

Definition set_m_pReconstruction (v : option CFloat32VolumeData2D) (b : CCudaReconstructionAlgorithm2D) :=
  {| m_bIsInitialized := m_bIsInitialized b; m_pSinogram := m_pSinogram b;
     m_pReconstruction := v; m_iGPUIndex := m_iGPUIndex b;
     m_iPixelSuperSampling := m_iPixelSuperSampling b; m_pAlgo := m_pAlgo b;
     m_bAlgoInit := m_bAlgoInit b; base_members := base_members b |}.

Definition set_m_iGPUIndex (v : Z) (b : CCudaReconstructionAlgorithm2D) :=
  {| m_bIsInitialized := m_bIsInitialized b; m_pSinogram := m_pSinogram b;
     m_pReconstruction := m_pReconstruction b; m_iGPUIndex := v;
     m_iPixelSuperSampling := m_iPixelSuperSampling b; m_pAlgo := m_pAlgo b;
     m_bAlgoInit := m_bAlgoInit b; base_members := base_members b |}.

Definition set_m_iPixelSuperSampling (v : Z) (b : CCudaReconstructionAlgorithm2D) :=
  {| m_bIsInitialized := m_bIsInitialized b; m_pSinogram := m_pSinogram b;
     m_pReconstruction := m_pReconstruction b; m_iGPUIndex := m_iGPUIndex b;
     m_iPixelSuperSampling := v; m_pAlgo := m_pAlgo b;
     m_bAlgoInit := m_bAlgoInit b; base_members := base_members b |}.

Definition set_m_pAlgo (v : option FBP) (b : CCudaReconstructionAlgorithm2D) :=
  {| m_bIsInitialized := m_bIsInitialized b; m_pSinogram := m_pSinogram b;
     m_pReconstruction := m_pReconstruction b; m_iGPUIndex := m_iGPUIndex b;
     m_iPixelSuperSampling := m_iPixelSuperSampling b; m_pAlgo := v;
     m_bAlgoInit := m_bAlgoInit b; base_members := base_members b |}.

Definition set_m_bAlgoInit (v : bool) (b : CCudaReconstructionAlgorithm2D) :=
  {| m_bIsInitialized := m_bIsInitialized b; m_pSinogram := m_pSinogram b;
     m_pReconstruction := m_pReconstruction b; m_iGPUIndex := m_iGPUIndex b;
     m_iPixelSuperSampling := m_iPixelSuperSampling b; m_pAlgo := m_pAlgo b;
     m_bAlgoInit := v; base_members := base_members b |}.

(** The object: the inherited part and the members the class adds. *)
Record CCudaFilteredBackProjectionAlgorithm : Type := {
  base : CCudaReconstructionAlgorithm2D;
  m_eFilter : E_FBPFILTER;
  m_pfFilter : option addr;
  m_iFilterWidth : Z;
  m_fFilterParameter : float;
  m_fFilterD : float;
  m_bShortScan : bool
}.

Definition set_base (v : CCudaReconstructionAlgorithm2D) (i : CCudaFilteredBackProjectionAlgorithm) :=
  {| base := v; m_eFilter := m_eFilter i; m_pfFilter := m_pfFilter i;
     m_iFilterWidth := m_iFilterWidth i; m_fFilterParameter := m_fFilterParameter i;
     m_fFilterD := m_fFilterD i; m_bShortScan := m_bShortScan i |}.

Definition set_m_eFilter (v : E_FBPFILTER) (i : CCudaFilteredBackProjectionAlgorithm) :=
  {| base := base i; m_eFilter := v; m_pfFilter := m_pfFilter i;
     m_iFilterWidth := m_iFilterWidth i; m_fFilterParameter := m_fFilterParameter i;
     m_fFilterD := m_fFilterD i; m_bShortScan := m_bShortScan i |}.

Definition set_m_pfFilter (v : option addr) (i : CCudaFilteredBackProjectionAlgorithm) :=
  {| base := base i; m_eFilter := m_eFilter i; m_pfFilter := v;
     m_iFilterWidth := m_iFilterWidth i; m_fFilterParameter := m_fFilterParameter i;
     m_fFilterD := m_fFilterD i; m_bShortScan := m_bShortScan i |}.

Definition set_m_iFilterWidth (v : Z) (i : CCudaFilteredBackProjectionAlgorithm) :=
  {| base := base i; m_eFilter := m_eFilter i; m_pfFilter := m_pfFilter i;
     m_iFilterWidth := v; m_fFilterParameter := m_fFilterParameter i;
     m_fFilterD := m_fFilterD i; m_bShortScan := m_bShortScan i |}.

Definition set_m_fFilterParameter (v : float) (i : CCudaFilteredBackProjectionAlgorithm) :=
  {| base := base i; m_eFilter := m_eFilter i; m_pfFilter := m_pfFilter i;
     m_iFilterWidth := m_iFilterWidth i; m_fFilterParameter := v;
     m_fFilterD := m_fFilterD i; m_bShortScan := m_bShortScan i |}.

Definition set_m_fFilterD (v : float) (i : CCudaFilteredBackProjectionAlgorithm) :=
  {| base := base i; m_eFilter := m_eFilter i; m_pfFilter := m_pfFilter i;
     m_iFilterWidth := m_iFilterWidth i; m_fFilterParameter := m_fFilterParameter i;
     m_fFilterD := v; m_bShortScan := m_bShortScan i |}.

Definition set_m_bShortScan (v : bool) (i : CCudaFilteredBackProjectionAlgorithm) :=
  {| base := base i; m_eFilter := m_eFilter i; m_pfFilter := m_pfFilter i;
     m_iFilterWidth := m_iFilterWidth i; m_fFilterParameter := m_fFilterParameter i;
     m_fFilterD := m_fFilterD i; m_bShortScan := v |}.

(** ** The world a member function runs in *)

Record World : Type := {
  this : CCudaFilteredBackProjectionAlgorithm;
  heap : gmap addr (list float);   (* the live blocks of new float[] *)
  log : list LogEntry;             (* what the logger has received, oldest first *)
  marks : list Mark                (* what ConfigStackCheck has been told, oldest first *)
}.

Definition set_this (v : CCudaFilteredBackProjectionAlgorithm) (w : World) : World :=
  {| this := v; heap := heap w; log := log w; marks := marks w |}.

Definition set_heap (v : gmap addr (list float)) (w : World) : World :=
  {| this := this w; heap := v; log := log w; marks := marks w |}.

Definition set_log (v : list LogEntry) (w : World) : World :=
  {| this := this w; heap := heap w; log := v; marks := marks w |}.

Definition set_marks (v : list Mark) (w : World) : World :=
  {| this := this w; heap := heap w; log := log w; marks := v |}.

(** The outcome of a call: a value and the world it leaves, or a fault and
    the world at the point where it occurred. *)
Inductive Result (A : Type) : Type :=
| Ok (a : A) (w : World)
| Crash (f : Fault) (w : World).

Definition M (A : Type) : Type := World -> Result A.

Definition ret {A : Type} (a : A) : M A := fun w => Ok A a w.

Definition bind {A B : Type} (m : M A) (k : A -> M B) : M B :=
  fun w =>
    match m w with
    | Ok _ a w' => k a w'
    | Crash _ f w' => Crash B f w'
    end.

Definition crash {A : Type} (f : Fault) : M A := fun w => Crash A f w.

Definition get_this : M CCudaFilteredBackProjectionAlgorithm :=
  fun w => Ok _ (this w) w.

Definition update_this (f : CCudaFilteredBackProjectionAlgorithm -> CCudaFilteredBackProjectionAlgorithm) : M unit :=
  fun w => Ok _ tt (set_this (f (this w)) w).

Definition update_base (f : CCudaReconstructionAlgorithm2D -> CCudaReconstructionAlgorithm2D) : M unit :=
  update_this (fun i => set_base (f (base i)) i).

(** A pointer used as a condition. *)
Definition non_null {A : Type} (p : option A) : bool :=
  match p with
  | Some _ => true
  | None => false
  end.

(** Dereference of a pointer: a fault on null. *)
Definition deref {A : Type} (p : option A) : M A :=
  match p with
  | Some x => ret x
  | None => crash NullDereference
  end.

End Instance.

Arguments Ok {T A} a w.
Arguments Crash {T A} f w.

Declare Scope fbp_scope.
Delimit Scope fbp_scope with fbp.
Notation "x <- c1 ;; c2" := (bind c1 (fun x => c2))
  (at level 100, c1 at next level, right associativity) : fbp_scope.
Notation "c1 ;; c2" := (bind c1 (fun _ => c2))
  (at level 100, right associativity) : fbp_scope.
Local Open Scope fbp_scope.

(** ** Collaborators outside the source file *)

(** The engine and the base-class lifecycle, as the functions of their
    arguments that this file calls.  The base-class functions work on the
    inherited members only: the members this class adds are private to it. *)
Class Collaborators {T : ExternalTypes} : Type := {
  (* new astraCUDA::FBP() *)
  FBP_new : FBP;
  (* astraCUDA::FBP::setFilter(kind, coefficients or null, width, D, parameter) *)
  FBP_setFilter : FBP -> E_FBPFILTER -> option (list float) -> Z -> float -> float -> bool * FBP;
  (* astraCUDA::FBP::setShortScan(flag) *)
  FBP_setShortScan : FBP -> bool -> bool * FBP;
  (* CCudaReconstructionAlgorithm2D::initialize(const Config&) *)
  CCudaReconstructionAlgorithm2D_initialize :
    Config -> CCudaReconstructionAlgorithm2D -> bool * CCudaReconstructionAlgorithm2D;
  (* CCudaReconstructionAlgorithm2D::initializeFromProjector() *)
  initializeFromProjector : CCudaReconstructionAlgorithm2D -> CCudaReconstructionAlgorithm2D;
  (* CCudaReconstructionAlgorithm2D::_clear() *)
  CCudaReconstructionAlgorithm2D_clear : CCudaReconstructionAlgorithm2D -> CCudaReconstructionAlgorithm2D;
  (* CCudaReconstructionAlgorithm2D::initCUDAAlgorithm() *)
  CCudaReconstructionAlgorithm2D_initCUDAAlgorithm :
    CCudaReconstructionAlgorithm2D -> CCudaReconstructionAlgorithm2D
}.

Section Algorithm.
Context {T : ExternalTypes} {C : Collaborators}.

(** ** Logging and assertion macros *)

(** Modelled from the spec: the macro [ASTRA_ERROR] of the logging header,
    which is not in the source file: one record at level error. *)
Definition ASTRA_ERROR (msg : string) : M unit :=
  fun w => Ok tt (set_log (log w ++ [(LOG_ERROR, msg)]) w).

(** Modelled from the spec: the macro [ASTRA_ASSERT], whose definition is
    not in the source file.  A failed assertion is fatal: the call does not
    return. *)
Definition ASTRA_ASSERT (cond : bool) : M unit :=
  if cond then ret tt else crash AssertionFailure.

Definition config_error (type msg : string) : LogEntry :=
  (LOG_ERROR, "Configuration Error in " +:+ type +:+ ": " +:+ msg).

(** Modelled from the spec: the macro [ASTRA_CONFIG_CHECK(value, type, msg)],
    whose definition is not in the source file.  When [value] is false it
    reports a configuration error that carries [msg] and makes the enclosing
    function return false; otherwise the function goes on with [rest]. *)
Definition ASTRA_CONFIG_CHECK (value : bool) (type msg : string) (rest : M bool) : M bool :=
  if value then rest
  else fun w => Ok false (set_log (log w ++ [config_error type msg]) w).

(** ** The heap of float arrays *)

(** [new float[n]].  The elements are indeterminate until written; they are
    represented by zero bits. *)
Definition new_float_array (n : Z) : M addr :=
  fun w =>
    if n <? 0 then Crash BadArrayLength w
    else
      let a := fresh (dom (heap w)) in
      Ok a (set_heap (<[a := replicate (Z.to_nat n) 0]> (heap w)) w).

(** [delete[] p]: nothing on null, release of a live block otherwise. *)
Definition delete_array (p : option addr) : M unit :=
  fun w =>
    match p with
    | None => Ok tt w
    | Some a =>
        match heap w !! a with
        | Some _ => Ok tt (set_heap (delete a (heap w)) w)
        | None => Crash InvalidFree w
        end
    end.

(** [memcpy(dst, src, nbytes)] from an array outside the heap (a dataset's
    buffer, the caller's array) into a block of the heap. *)
Definition memcpy (dst : option addr) (src : list float) (nbytes : Z) : M unit :=
  fun w =>
    match dst with
    | None => Crash NullDereference w
    | Some a =>
        match heap w !! a with
        | None => Crash OutOfBounds w
        | Some blk =>
            let n := Z.to_nat (nbytes / sizeof_float) in
            if (nbytes <=? sizeof_float * Z.of_nat (length src))
               && (nbytes <=? sizeof_float * Z.of_nat (length blk))
            then Ok tt (set_heap (<[a := take n src ++ drop n blk]> (heap w)) w)
            else Crash OutOfBounds w
        end
    end.

(** The product of two [int]s. *)
Definition int_mul (x y : Z) : M Z :=
  ret (wrap_int (x * y)).

Definition markNodeParsed (name : string) : M unit :=
  fun w => Ok tt (set_marks (marks w ++ [NodeParsed name]) w).

Definition markOptionParsed (name : string) : M unit :=
  fun w => Ok tt (set_marks (marks w ++ [OptionParsed name]) w).

(** A function that returns a value and log records, run in [M]. *)
Definition logging {A : Type} (r : A * list LogEntry) : M A :=
  fun w => Ok (fst r) (set_log (log w ++ snd r) w).

(** ** Construction, destruction, clear *)

(** The constructor.  [storage] is the object before construction: the
    members the constructor does not assign keep what the storage held. *)
Definition constructor (storage : CCudaFilteredBackProjectionAlgorithm) : CCudaFilteredBackProjectionAlgorithm :=
  let i := set_base (set_m_bIsInitialized false (base storage)) storage in
  let i := set_base (CCudaReconstructionAlgorithm2D_clear (base i)) i in
  let i := set_m_pfFilter None i in
  let i := set_m_fFilterParameter float_minus_one i in
  set_m_fFilterD float_one i.

(** The destructor. *)
Definition destructor : M unit :=
  i <- get_this ;;
  delete_array (m_pfFilter i) ;;
  update_this (set_m_pfFilter None).

(** Modelled from the spec: [clear()], which both [initialize] overloads
    call and which is not defined in the source file.  A full clear releases
    the owned buffer, releases the engine handle, resets the scalars to their
    defaults and leaves the instance unconfigured. *)
Definition clear : M unit :=
  i <- get_this ;;
  delete_array (m_pfFilter i) ;;
  update_this (set_m_pfFilter None) ;;
  update_base (fun b =>
    set_m_bIsInitialized false
      (set_m_bAlgoInit false
        (set_m_pAlgo None (CCudaReconstructionAlgorithm2D_clear b)))) ;;
  update_this (set_m_fFilterParameter float_minus_one) ;;
  update_this (set_m_fFilterD float_one) ;;
  update_this (set_m_bShortScan false).

(** ** check *)

Definition check : M bool :=
  i <- get_this ;;
  (* check pointers *)
  ASTRA_CONFIG_CHECK (non_null (m_pSinogram (base i))) "FBP_CUDA" "Invalid Projection Data Object." (
  ASTRA_CONFIG_CHECK (non_null (m_pReconstruction (base i))) "FBP_CUDA" "Invalid Reconstruction Data Object." (
  let rest :=
    (* check initializations *)
    pSinogram <- deref (m_pSinogram (base i)) ;;
    ASTRA_CONFIG_CHECK (proj_isInitialized pSinogram) "FBP_CUDA" "Projection Data Object Not Initialized." (
    pReconstruction <- deref (m_pReconstruction (base i)) ;;
    ASTRA_CONFIG_CHECK (vol_isInitialized pReconstruction) "FBP_CUDA" "Reconstruction Data Object Not Initialized." (
    (* check gpu index *)
    ASTRA_CONFIG_CHECK (-1 <=? m_iGPUIndex (base i)) "FBP_CUDA" "GPUIndex must be a non-negative integer or -1." (
    (* check pixel supersampling *)
    ASTRA_CONFIG_CHECK (0 <=? m_iPixelSuperSampling (base i)) "FBP_CUDA" "PixelSuperSampling must be a non-negative integer." (
    (* success *)
    update_base (set_m_bIsInitialized true) ;;
    ret true)))) in
  if E_FBPFILTER_eqb (m_eFilter i) FILTER_PROJECTION
     || E_FBPFILTER_eqb (m_eFilter i) FILTER_SINOGRAM
     || E_FBPFILTER_eqb (m_eFilter i) FILTER_RPROJECTION
     || E_FBPFILTER_eqb (m_eFilter i) FILTER_RSINOGRAM
  then ASTRA_CONFIG_CHECK (non_null (m_pfFilter i)) "FBP_CUDA" "Invalid filter pointer." rest
  else rest)).

(** ** Declarative initialization: [initialize(const Config&)]

    [mgr] is the state of the singleton [CData2DManager].  A [Config] always
    has its node, so the assertion on [_cfg.self] at the head of the function
    holds; [ConfigStackCheck] appears through what it is told to mark. *)
Definition initialize_cfg (mgr : gmap Z CFloat32Data2D) (_cfg : Config) : M bool :=
  (* if already initialized, clear first *)
  i <- get_this ;;
  (if m_bIsInitialized (base i) then clear else ret tt) ;;
  i <- get_this ;;
  let r := CCudaReconstructionAlgorithm2D_initialize _cfg (base i) in
  update_this (set_base (set_m_bIsInitialized (fst r) (snd r))) ;;
  if negb (fst r) then ret false
  else
    (* filter type *)
    (match FilterType _cfg with
     | Some content =>
         f <- logging (_convertStringToFilter content) ;;
         update_this (set_m_eFilter f)
     | None => update_this (set_m_eFilter FILTER_RAMLAK)
     end) ;;
    markNodeParsed "FilterType" ;;
    (* filter *)
    (match FilterSinogramId _cfg with
     | Some id =>
         let pFilterData := dynamic_cast_ProjectionData (CData2DManager_get mgr id) in
         d <- deref pFilterData ;;
         g <- deref (getGeometry d) ;;
         update_this (set_m_iFilterWidth (getDetectorCount g)) ;;
         let iFilterProjectionCount := getProjectionAngleCount g in
         i <- get_this ;;
         n <- int_mul (m_iFilterWidth i) iFilterProjectionCount ;;
         a <- new_float_array n ;;
         update_this (set_m_pfFilter (Some a)) ;;
         i <- get_this ;;
         memcpy (m_pfFilter i) (getDataConst d)
           (size_t_mul (size_t_mul sizeof_float (to_size_t (m_iFilterWidth i)))
                       (to_size_t iFilterProjectionCount))
     | None =>
         update_this (set_m_iFilterWidth 0) ;;
         update_this (set_m_pfFilter None)
     end) ;;
    markNodeParsed "FilterSinogramId" ;;
    (* filter parameter *)
    (match FilterParameter _cfg with
     | Some fParameter => update_this (set_m_fFilterParameter fParameter)
     | None => update_this (set_m_fFilterParameter float_minus_one)
     end) ;;
    markNodeParsed "FilterParameter" ;;
    (* D value *)
    (match FilterD _cfg with
     | Some fD => update_this (set_m_fFilterD fD)
     | None => update_this (set_m_fFilterD float_one)
     end) ;;
    markNodeParsed "FilterD" ;;
    (* Fan beam short scan mode *)
    i <- get_this ;;
    (match m_pSinogram (base i) with
     | Some pSinogram =>
         match dynamic_cast_FanFlat (getGeometry pSinogram) with
         | Some _ =>
             update_this (set_m_bShortScan (getOptionBool (ShortScan _cfg) false)) ;;
             markOptionParsed "ShortScan"
         | None => ret tt
         end
     | None => ret tt
     end) ;;
    update_base initializeFromProjector ;;
    update_base (set_m_pAlgo (Some FBP_new)) ;;
    update_base (set_m_bAlgoInit false) ;;
    check.

(** ** Programmatic initialization: [initialize(sinogram, reconstruction,
    filter, coefficients, width, GPU index, parameter)] *)

Definition initialize_args
    (_pSinogram : option CFloat32ProjectionData2D)
    (_pReconstruction : option CFloat32VolumeData2D)
    (_eFilter : E_FBPFILTER)
    (_pfFilter : option (list float))
    (_iFilterWidth : Z) (_iGPUIndex : Z) (_fFilterParameter : float) : M bool :=
  (* if already initialized, clear first *)
  i <- get_this ;;
  (if m_bIsInitialized (base i) then clear else ret tt) ;;
  (* required classes *)
  update_base (set_m_pSinogram _pSinogram) ;;
  update_base (set_m_pReconstruction _pReconstruction) ;;
  update_base (set_m_iGPUIndex _iGPUIndex) ;;
  update_this (set_m_eFilter _eFilter) ;;
  update_this (set_m_iFilterWidth _iFilterWidth) ;;
  update_this (set_m_bShortScan false) ;;
  (* success *)
  update_base (set_m_bIsInitialized true) ;;
  update_base (set_m_pAlgo (Some FBP_new)) ;;
  update_base (set_m_bAlgoInit false) ;;
  (match _pfFilter with
   | Some coefficients =>
       iFilterElementCount <-
         (if negb (E_FBPFILTER_eqb _eFilter FILTER_SINOGRAM)
             && negb (E_FBPFILTER_eqb _eFilter FILTER_RSINOGRAM)
          then ret _iFilterWidth
          else
            i <- get_this ;;
            pSinogram <- deref (m_pSinogram (base i)) ;;
            ret (getAngleCount pSinogram)) ;;
       a <- new_float_array iFilterElementCount ;;
       update_this (set_m_pfFilter (Some a)) ;;
       i <- get_this ;;
       memcpy (m_pfFilter i) coefficients
         (size_t_mul (to_size_t iFilterElementCount) sizeof_float)
   | None => update_this (set_m_pfFilter None)
   end) ;;
  update_this (set_m_fFilterParameter _fFilterParameter) ;;
  check.

(** ** Lazy engine binding: [initCUDAAlgorithm] *)

(** What the engine is handed as coefficients: the contents of the owned
    block, or null. *)
Definition filter_contents (w : World) : option (list float) :=
  match m_pfFilter (this w) with
  | Some a => heap w !! a
  | None => None
  end.

Definition initCUDAAlgorithm : M unit :=
  update_base CCudaReconstructionAlgorithm2D_initCUDAAlgorithm ;;
  i <- get_this ;;
  pFBP <- deref (m_pAlgo (base i)) ;;
  coefficients <- (fun w => Ok (filter_contents w) w) ;;
  let r := FBP_setFilter pFBP (m_eFilter i) coefficients (m_iFilterWidth i)
             (m_fFilterD i) (m_fFilterParameter i) in
  update_base (set_m_pAlgo (Some (snd r))) ;;
  let ok := fst r in
  (if negb ok
   then
     ASTRA_ERROR "CCudaFilteredBackProjectionAlgorithm: Failed to set filter" ;;
     ASTRA_ASSERT ok
   else ret tt) ;;
  let r' := FBP_setShortScan (snd r) (m_bShortScan i) in
  update_base (set_m_pAlgo (Some (snd r'))) ;;
  let ok := ok && fst r' in
  if negb ok
  then ASTRA_ERROR "CCudaFilteredBackProjectionAlgorithm: Failed to set short-scan mode"
  else ret tt.

(** ** Sequences of initialization calls *)

(** One call of either entry point. *)
Inductive InitCall : Type :=
| CallConfig (mgr : gmap Z CFloat32Data2D) (_cfg : Config)
| CallArgs (_pSinogram : option CFloat32ProjectionData2D)
           (_pReconstruction : option CFloat32VolumeData2D)
           (_eFilter : E_FBPFILTER) (_pfFilter : option (list float))
           (_iFilterWidth _iGPUIndex : Z) (_fFilterParameter : float).

Definition run_call (c : InitCall) : M bool :=
  match c with
  | CallConfig mgr cfg => initialize_cfg mgr cfg
  | CallArgs s r f p wd g prm => initialize_args s r f p wd g prm
  end.

(** The calls in order; the results are collected. *)
Fixpoint run_calls (cs : list InitCall) : M (list bool) :=
  match cs with
  | [] => ret []
  | c :: cs' =>
      b <- run_call c ;;
      bs <- run_calls cs' ;;
      ret (b :: bs)
  end.

(** The number of live blocks of [new float[]]. *)
Definition outstanding (w : World) : nat := size (dom (heap w)).

End Algorithm.

(** A string with no NUL character: the contents of a C string. *)
Fixpoint no_nul (s : string) : bool :=
  match s with
  | EmptyString => true
  | String c s' => negb (char_code c =? 0) && no_nul s'
  end.

(** [m returns a from w]: the call returns normally, with value [a]. *)
Definition returns {T : ExternalTypes} {A : Type} (m : M A) (w : World) (a : A) : Prop :=
  exists w', m w = Ok a w'.

(** The world an outcome leaves. *)
Definition world_of {T : ExternalTypes} {A : Type} (r : Result A) : World :=
  match r with
  | Ok _ w => w
  | Crash _ w => w
  end.

(** The five preconditions of the validator, as the design states them. *)
Definition check_preconditions {T : ExternalTypes} (i : CCudaFilteredBackProjectionAlgorithm) : Prop :=
  (exists s, m_pSinogram (base i) = Some s /\ proj_isInitialized s = true) /\
  (exists r, m_pReconstruction (base i) = Some r /\ vol_isInitialized r = true) /\
  (custom_data_kind (m_eFilter i) -> m_pfFilter i <> None) /\
  -1 <= m_iGPUIndex (base i) /\
  0 <= m_iPixelSuperSampling (base i).

(** The same world with another device index, or another filter kind and
    buffer pointer. *)
Definition with_GPUIndex {T : ExternalTypes} (g : Z) (w : World) : World :=
  set_this (set_base (set_m_iGPUIndex g (base (this w))) (this w)) w.

Definition with_filter {T : ExternalTypes} (f : E_FBPFILTER) (p : option addr) (w : World) : World :=
  set_this (set_m_pfFilter p (set_m_eFilter f (this w))) w.

(** The world a successful [clear] leaves. *)
Definition cleared {T : ExternalTypes} {C : Collaborators} (w : World) : World :=
  {| this :=
       set_m_bShortScan false
         (set_m_fFilterD float_one
           (set_m_fFilterParameter float_minus_one
             (set_base
               (set_m_bIsInitialized false
                 (set_m_bAlgoInit false
                   (set_m_pAlgo None (CCudaReconstructionAlgorithm2D_clear (base (this w))))))
               (set_m_pfFilter None (this w)))));
     heap := match m_pfFilter (this w) with
             | Some a => delete a (heap w)
             | None => heap w
             end;
     log := log w;
     marks := marks w |}.

(** No dangling reference: the buffer pointer, when not null, is the
    address of a live block. *)
Definition buffer_live {T : ExternalTypes} (w : World) : Prop :=
  forall a, m_pfFilter (this w) = Some a -> is_Some (heap w !! a).

(** Exclusive ownership: the live blocks are exactly the one the buffer
    pointer refers to, if any. *)
Definition owned {T : ExternalTypes} (w : World) : Prop :=
  match m_pfFilter (this w) with
  | Some a => dom (heap w) = {[a]}
  | None => dom (heap w) = ∅
  end.

(** An instance that is not marked initialized holds no buffer. *)
Definition unconfigured_has_no_buffer {T : ExternalTypes} (w : World) : Prop :=
  m_bIsInitialized (base (this w)) = false -> m_pfFilter (this w) = None.

(** The world in which the programmatic entry point calls [check]: the
    members it has assigned, over the heap [h] with buffer pointer [ptr]. *)
Definition args_world {T : ExternalTypes} {C : Collaborators} (w : World)
    (_pSinogram : option CFloat32ProjectionData2D)
    (_pReconstruction : option CFloat32VolumeData2D)
    (_eFilter : E_FBPFILTER) (ptr : option addr)
    (_iFilterWidth _iGPUIndex : Z) (_fFilterParameter : float)
    (h : gmap addr (list float)) : World :=
  {| this :=
       {| base :=
            set_m_bAlgoInit false
              (set_m_pAlgo (Some FBP_new)
                (set_m_bIsInitialized true
                  (set_m_iGPUIndex _iGPUIndex
                    (set_m_pReconstruction _pReconstruction
                      (set_m_pSinogram _pSinogram (base (this w)))))));
          m_eFilter := _eFilter;
          m_pfFilter := ptr;
          m_iFilterWidth := _iFilterWidth;
          m_fFilterParameter := _fFilterParameter;
          m_fFilterD := m_fFilterD (this w);
          m_bShortScan := false |};
     heap := h; log := log w; marks := marks w |}.

(** The number of coefficients the programmatic entry point copies. *)
Definition filter_element_count (_eFilter : E_FBPFILTER) (_iFilterWidth : Z)
    (_pSinogram : option CFloat32ProjectionData2D) : option Z :=
  if negb (E_FBPFILTER_eqb _eFilter FILTER_SINOGRAM)
     && negb (E_FBPFILTER_eqb _eFilter FILTER_RSINOGRAM)
  then Some _iFilterWidth
  else option_map getAngleCount _pSinogram.

(** The world at the entry of the body of an initialization call. *)
Definition entry_world {T : ExternalTypes} {C : Collaborators} (w : World) : World :=
  if m_bIsInitialized (base (this w)) then cleared w else w.

(** *** The declarative entry point, cut at its comment lines

    The following names stand for consecutive parts of [initialize_cfg]; the
    function itself is the single definition above. *)

(** The world after the call of the base-class [initialize]. *)
Definition base_initialized {T : ExternalTypes} {C : Collaborators} (cfg : Config) (w : World) : World :=
  let r := CCudaReconstructionAlgorithm2D_initialize cfg (base (this w)) in
  set_this (set_base (set_m_bIsInitialized (fst r) (snd r)) (this w)) w.

(** The world after the part headed "filter type". *)
Definition after_filter_type {T : ExternalTypes} (cfg : Config) (w : World) : World :=
  match FilterType cfg with
  | Some content =>
      set_marks (marks w ++ [NodeParsed "FilterType"])
        (set_this (set_m_eFilter (fst (_convertStringToFilter content)) (this w))
           (set_log (log w ++ snd (_convertStringToFilter content)) w))
  | None =>
      set_marks (marks w ++ [NodeParsed "FilterType"])
        (set_this (set_m_eFilter FILTER_RAMLAK (this w)) w)
  end.

(** The part headed "filter", up to its [markNodeParsed]. *)
Definition cfg_filter_data {T : ExternalTypes} (mgr : gmap Z CFloat32Data2D) (_cfg : Config) : M unit :=
  match FilterSinogramId _cfg with
  | Some id =>
      let pFilterData := dynamic_cast_ProjectionData (CData2DManager_get mgr id) in
      d <- deref pFilterData ;;
      g <- deref (getGeometry d) ;;
      update_this (set_m_iFilterWidth (getDetectorCount g)) ;;
      let iFilterProjectionCount := getProjectionAngleCount g in
      i <- get_this ;;
      n <- int_mul (m_iFilterWidth i) iFilterProjectionCount ;;
      a <- new_float_array n ;;
      update_this (set_m_pfFilter (Some a)) ;;
      i <- get_this ;;
      memcpy (m_pfFilter i) (getDataConst d)
        (size_t_mul (size_t_mul sizeof_float (to_size_t (m_iFilterWidth i)))
                    (to_size_t iFilterProjectionCount))
  | None =>
      update_this (set_m_iFilterWidth 0) ;;
      update_this (set_m_pfFilter None)
  end.

(** Everything from "filter parameter" to the final [check]. *)
Definition cfg_tail {T : ExternalTypes} {C : Collaborators} (_cfg : Config) : M bool :=
  (match FilterParameter _cfg with
   | Some fParameter => update_this (set_m_fFilterParameter fParameter)
   | None => update_this (set_m_fFilterParameter float_minus_one)
   end) ;;
  markNodeParsed "FilterParameter" ;;
  (match FilterD _cfg with
   | Some fD => update_this (set_m_fFilterD fD)
   | None => update_this (set_m_fFilterD float_one)
   end) ;;
  markNodeParsed "FilterD" ;;
  i <- get_this ;;
  (match m_pSinogram (base i) with
   | Some pSinogram =>
       match dynamic_cast_FanFlat (getGeometry pSinogram) with
       | Some _ =>
           update_this (set_m_bShortScan (getOptionBool (ShortScan _cfg) false)) ;;
           markOptionParsed "ShortScan"
       | None => ret tt
       end
   | None => ret tt
   end) ;;
  update_base initializeFromProjector ;;
  update_base (set_m_pAlgo (Some FBP_new)) ;;
  update_base (set_m_bAlgoInit false) ;;
  check.

(** Whether the projection dataset an instance is bound to has a fan-beam
    flat-detector geometry. *)
Definition fan_flat_bound {T : ExternalTypes} (i : CCudaFilteredBackProjectionAlgorithm) : bool :=
  match m_pSinogram (base i) with
  | Some pSinogram => non_null (dynamic_cast_FanFlat (getGeometry pSinogram))
  | None => false
  end.

(** Whether a call supplies filter coefficients: a dataset id in the
    configuration, or a non-null array. *)
Definition call_has_filter (c : InitCall) : Prop :=
  match c with
  | CallConfig _ cfg => FilterSinogramId cfg <> None
  | CallArgs _ _ _ p _ _ _ => p <> None
  end.

(** The number of blocks an exclusive owner accounts for. *)
Definition held {T : ExternalTypes} (w : World) : nat :=
  match m_pfFilter (this w) with
  | Some _ => 1%nat
  | None => 0%nat
  end.

(** ** Concrete collaborators and inputs *)

(** An engine with no state whose two calls answer as told, and a base
    lifecycle that binds the given datasets and answers as told. *)
Definition toy_types : ExternalTypes := {| FBP := unit; BaseMembers := unit |}.

Definition toy_base : @CCudaReconstructionAlgorithm2D toy_types :=
  {| m_bIsInitialized := false; m_pSinogram := None; m_pReconstruction := None;
     m_iGPUIndex := -1; m_iPixelSuperSampling := 1; m_pAlgo := None;
     m_bAlgoInit := false; base_members := (tt : @BaseMembers toy_types) |}.

Definition toy_collaborators
    (sino : option CFloat32ProjectionData2D) (recon : option CFloat32VolumeData2D)
    (base_ok filter_ok shortscan_ok : bool) : @Collaborators toy_types :=
  {| FBP_new := (tt : @FBP toy_types);
     FBP_setFilter := fun e _ _ _ _ _ => (filter_ok, e);
     FBP_setShortScan := fun e _ => (shortscan_ok, e);
     CCudaReconstructionAlgorithm2D_initialize := fun _ b =>
       (base_ok, set_m_pSinogram sino (set_m_pReconstruction recon b));
     initializeFromProjector := fun b => b;
     CCudaReconstructionAlgorithm2D_clear := fun _ => toy_base;
     CCudaReconstructionAlgorithm2D_initCUDAAlgorithm := fun b => b |}.

Definition parallel_3x2 : CProjectionGeometry2D :=
  {| geometry_class := ParallelProjectionGeometry2D;
     getDetectorCount := 3; getProjectionAngleCount := 2 |}.

Definition fanflat_3x2 : CProjectionGeometry2D :=
  {| geometry_class := FanFlatProjectionGeometry2D;
     getDetectorCount := 3; getProjectionAngleCount := 2 |}.

Definition sinogram_3x2 : CFloat32ProjectionData2D :=
  {| proj_isInitialized := true; getGeometry := Some parallel_3x2;
     getAngleCount := 2; getDataConst := [11; 12; 13; 21; 22; 23] |}.

Definition fan_sinogram_3x2 : CFloat32ProjectionData2D :=
  {| proj_isInitialized := true; getGeometry := Some fanflat_3x2;
     getAngleCount := 2; getDataConst := [11; 12; 13; 21; 22; 23] |}.

Definition volume_2x2 : CFloat32VolumeData2D :=
  {| vol_isInitialized := true; vol_data := [0; 0; 0; 0] |}.

(** The storage of an object before its constructor runs. *)
Definition toy_storage : @CCudaFilteredBackProjectionAlgorithm toy_types :=
  {| base := toy_base; m_eFilter := FILTER_NONE; m_pfFilter := None;
     m_iFilterWidth := 0; m_fFilterParameter := 0; m_fFilterD := 0;
     m_bShortScan := false |}.

(** A freshly constructed instance on an empty heap. *)
Definition fresh_world {T : ExternalTypes} {C : Collaborators}
    (storage : CCudaFilteredBackProjectionAlgorithm) : World :=
  {| this := constructor storage; heap := ∅; log := []; marks := [] |}.

(** A validated instance: both datasets bound, Ram-Lak, no buffer. *)
Definition toy_valid : @CCudaFilteredBackProjectionAlgorithm toy_types :=
  {| base := set_m_pSinogram (Some sinogram_3x2)
               (set_m_pReconstruction (Some volume_2x2) toy_base);
     m_eFilter := FILTER_RAMLAK; m_pfFilter := None;
     m_iFilterWidth := 0; m_fFilterParameter := float_minus_one;
     m_fFilterD := float_one; m_bShortScan := false |}.

Definition toy_valid_world : @World toy_types :=
  {| this := toy_valid; heap := ∅; log := []; marks := [] |}.

Definition toy_config : Config :=
  {| FilterType := None; FilterSinogramId := None; FilterParameter := None;
     FilterD := None; ShortScan := None; other_fields := [] |}.

Definition toy_C : @Collaborators toy_types :=
  toy_collaborators (Some sinogram_3x2) (Some volume_2x2) true true true.

Definition toy_fresh : @World toy_types := @fresh_world toy_types toy_C toy_storage.

(** A configuration that asks for a custom-data kind and names no filter
    dataset. *)
Definition toy_config_projection_no_data : Config :=
  {| FilterType := Some "projection"; FilterSinogramId := None;
     FilterParameter := None; FilterD := None; ShortScan := None;
     other_fields := [] |}.

(** A manager holding a projection dataset under id 7 and a volume under
    id 8, and configurations that name them as the filter dataset. *)
Definition toy_mgr : gmap Z CFloat32Data2D :=
  <[7 := ProjectionData sinogram_3x2]> (<[8 := VolumeData volume_2x2]> ∅).

Definition toy_config_filter (id : Z) : Config :=
  {| FilterType := Some "Projection"; FilterSinogramId := Some id;
     FilterParameter := None; FilterD := None; ShortScan := Some true;
     other_fields := [] |}.

(** Three programmatic calls in a row, each with a coefficient array. *)
Definition toy_three_calls : list InitCall :=
  [ CallArgs (Some sinogram_3x2) (Some volume_2x2) FILTER_PROJECTION (Some [1; 2; 3]) 3 (-1) float_minus_one;
    CallArgs (Some sinogram_3x2) (Some volume_2x2) FILTER_SINOGRAM (Some [4; 5]) 0 (-1) float_minus_one;
    CallArgs (Some sinogram_3x2) (Some volume_2x2) FILTER_RPROJECTION (Some [6; 7; 8]) 2 (-1) float_minus_one ].

(** An engine that refuses the filter, and one that accepts the filter and
    refuses short-scan. *)
Definition toy_C_filter_fails : @Collaborators toy_types :=
  toy_collaborators (Some sinogram_3x2) (Some volume_2x2) true false true.

Definition toy_C_shortscan_fails : @Collaborators toy_types :=
  toy_collaborators (Some sinogram_3x2) (Some volume_2x2) true true false.

(** A validated instance with its engine handle created. *)
Definition toy_ready_world : @World toy_types :=
  set_this (set_base (set_m_pAlgo (Some (tt : @FBP toy_types)) (base toy_valid)) toy_valid)
    toy_valid_world.

(** A base lifecycle that binds a fan-beam flat-detector dataset, and a
    configuration that switches short-scan on. *)
Definition toy_C_fan : @Collaborators toy_types :=
  toy_collaborators (Some fan_sinogram_3x2) (Some volume_2x2) true true true.

Definition toy_fresh_fan : @World toy_types := @fresh_world toy_types toy_C_fan toy_storage.

Definition toy_config_shortscan : Config := with_ShortScan (Some true) toy_config.

(** The contents of a C string as [strcasecmp] sees them: the characters
    before the first NUL, lowered. *)
Fixpoint c_lower (s : string) : list Z :=
  match s with
  | EmptyString => []
  | String c s' =>
      if char_code c =? 0 then [] else tolower (char_code c) :: c_lower s'
  end.

(** An instance with a buffer of two coefficients, alone on the heap. *)
Definition toy_holding_world : @World toy_types :=
  {| this := set_m_pfFilter (Some 1%positive) (set_m_eFilter FILTER_PROJECTION toy_valid);
     heap := {[ 1%positive := [5; 6] ]}; log := []; marks := [] |}.

(** An instance to which no projection dataset is bound. *)
Definition toy_unbound_world : @World toy_types :=
  {| this := set_base (set_m_pSinogram None (base toy_valid)) toy_valid;
     heap := ∅; log := []; marks := [] |}.

(** The value of an optional numeric field, or its default. *)
Definition field_or (o : option float) (dflt : float) : float :=
  match o with
  | Some x => x
  | None => dflt
  end.

(** The kind the declarative entry point resolves from [FilterType]. *)
Definition configured_kind (cfg : Config) : E_FBPFILTER :=
  match FilterType cfg with
  | Some content => fst (_convertStringToFilter content)
  | None => FILTER_RAMLAK
  end.

(** A base lifecycle whose setup fails. *)
Definition toy_C_base_fails : @Collaborators toy_types :=
  toy_collaborators (Some sinogram_3x2) (Some volume_2x2) false true true.

(** A dataset whose geometry has 65536 detectors and 32768 angles, under
    id 5. *)
Definition huge_geometry : CProjectionGeometry2D :=
  {| geometry_class := ParallelProjectionGeometry2D;
     getDetectorCount := 65536; getProjectionAngleCount := 32768 |}.

Definition huge_sinogram : CFloat32ProjectionData2D :=
  {| proj_isInitialized := true; getGeometry := Some huge_geometry;
     getAngleCount := 32768; getDataConst := [] |}.

Definition huge_mgr : gmap Z CFloat32Data2D :=
  <[5 := ProjectionData huge_sinogram]> ∅.

(** A configuration with every numeric field present, and one that names a
    dataset for an analytic kind. *)
Definition toy_config_full : Config :=
  {| FilterType := Some "Kaiser"; FilterSinogramId := None;
     FilterParameter := Some 7; FilterD := Some 9; ShortScan := None;
     other_fields := [] |}.

Definition toy_config_hann_with_data : Config :=
  {| FilterType := Some "hann"; FilterSinogramId := Some 7;
     FilterParameter := None; FilterD := None; ShortScan := None;
     other_fields := [] |}.

(** The storage of an object whose short-scan byte happens to be set
    before its constructor runs, and the instance constructed over it. *)
Definition toy_storage_flagged : @CCudaFilteredBackProjectionAlgorithm toy_types :=
  set_m_bShortScan true toy_storage.

Definition toy_fresh_flagged : @World toy_types :=
  @fresh_world toy_types toy_C toy_storage_flagged.

(** A dataset whose geometry has 65536 detectors and 65537 angles, under
    id 6. *)
Definition wrapping_geometry : CProjectionGeometry2D :=
  {| geometry_class := ParallelProjectionGeometry2D;
     getDetectorCount := 65536; getProjectionAngleCount := 65537 |}.

Definition wrapping_sinogram : CFloat32ProjectionData2D :=
  {| proj_isInitialized := true; getGeometry := Some wrapping_geometry;
     getAngleCount := 65537; getDataConst := [] |}.

Definition wrapping_mgr : gmap Z CFloat32Data2D :=
  <[6 := ProjectionData wrapping_sinogram]> ∅.

(** * Properties *)

(** ** The filter catalog *)

Lemma E_FBPFILTER_eqb_eq (a b : E_FBPFILTER) :
  E_FBPFILTER_eqb a b = true <-> a = b.
Proof. split; [destruct a, b; simpl; congruence | intros ->; destruct b; reflexivity]. Qed.

Lemma char_code_range (c : ascii) : 0 <= char_code c < 256.
Proof.
  unfold char_code. pose proof (N_ascii_bounded c). lia.
Qed.

Lemma char_code_inj (c d : ascii) : char_code c = char_code d -> c = d.
Proof.
  unfold char_code. intros H. apply N2Z.inj in H.
  rewrite <- (ascii_N_embedding c), <- (ascii_N_embedding d). now rewrite H.
Qed.

Lemma char_code_of_Z (n : Z) :
  0 <= n < 256 -> char_code (ascii_of_N (Z.to_N n)) = n.
Proof.
  intros H. unfold char_code. rewrite N_ascii_embedding by lia. lia.
Qed.

Lemma same_letter_tolower (c d : ascii) :
  same_letter c d = true <-> tolower (char_code c) = tolower (char_code d).
Proof.
  pose proof (char_code_range c) as Hc. pose proof (char_code_range d) as Hd.
  unfold same_letter. rewrite orb_true_iff, !Ascii.eqb_eq.
  assert (Hs : char_code (swapcase d) =
               if (65 <=? char_code d) && (char_code d <=? 90) then char_code d + 32
               else if (97 <=? char_code d) && (char_code d <=? 122) then char_code d - 32
               else char_code d).
  { unfold swapcase.
    destruct ((65 <=? char_code d) && (char_code d <=? 90)) eqn:E1;
      [apply char_code_of_Z; lia|].
    destruct ((97 <=? char_code d) && (char_code d <=? 122)) eqn:E2;
      [apply char_code_of_Z; lia | reflexivity]. }
  split.
  - intros [-> | ->]; [reflexivity|]. rewrite Hs. unfold tolower.
    repeat match goal with
           | |- context [if ?b then _ else _] => destruct b eqn:?
           end; lia.
  - intros H.
    destruct (Z.eq_dec (char_code c) (char_code d)) as [E|E];
      [left; now apply char_code_inj|].
    right. apply char_code_inj. rewrite Hs. revert H. unfold tolower.
    repeat match goal with
           | |- context [if ?b then _ else _] => destruct b eqn:?
           end; lia.
Qed.

Lemma tolower_zero (c : ascii) : tolower (char_code c) = 0 <-> char_code c = 0.
Proof.
  unfold tolower. destruct ((65 <=? char_code c) && (char_code c <=? 90)) eqn:E; lia.
Qed.

(** Case variants compare alike against every string. *)
Lemma strcasecmp_case_variant (s name : string) :
  case_variant s name = true ->
  forall lit, strcasecmp s lit = strcasecmp name lit.
Proof.
  revert name. induction s as [|c s IH]; intros [|d name] H lit;
    simpl in H; try discriminate; [reflexivity|].
  apply andb_true_iff in H as [Hcd Hrest].
  apply same_letter_tolower in Hcd.
  destruct lit as [|e lit]; simpl; rewrite Hcd; [reflexivity|].
  now rewrite (IH name Hrest lit).
Qed.

Lemma stringCompareLowerCase_case_variant (s name : string) :
  case_variant s name = true ->
  forall lit, stringCompareLowerCase s lit = stringCompareLowerCase name lit.
Proof.
  intros H lit. unfold stringCompareLowerCase.
  now rewrite (strcasecmp_case_variant s name H lit).
Qed.

(** On C strings, comparing equal is being a case variant. *)
Lemma stringCompareLowerCase_iff (s lit : string) :
  no_nul s = true -> no_nul lit = true ->
  stringCompareLowerCase s lit = case_variant s lit.
Proof.
  unfold stringCompareLowerCase.
  revert lit. induction s as [|c s IH]; intros [|d lit] Hs Hl; simpl in *.
  - reflexivity.
  - apply andb_true_iff in Hl as [Hd _]. apply negb_true_iff, Z.eqb_neq in Hd.
    apply Z.eqb_neq. rewrite <- tolower_zero in Hd. lia.
  - apply andb_true_iff in Hs as [Hc _]. apply negb_true_iff, Z.eqb_neq in Hc.
    apply Z.eqb_neq. rewrite <- tolower_zero in Hc. lia.
  - apply andb_true_iff in Hs as [Hc Hs]. apply andb_true_iff in Hl as [Hd Hl].
    apply negb_true_iff, Z.eqb_neq in Hc. rewrite <- tolower_zero in Hc.
    destruct (tolower (char_code c) =? tolower (char_code d)) eqn:E.
    + apply Z.eqb_eq in E.
      apply Z.eqb_neq in Hc. rewrite Hc.
      apply same_letter_tolower in E. rewrite E. simpl. now apply IH.
    + apply Z.eqb_neq in E.
      destruct (same_letter c d) eqn:F;
        [apply same_letter_tolower in F; contradiction|].
      simpl. apply Z.eqb_neq. lia.
Qed.

(** Every case variant of a literal of the source resolves to the kind the
    source pairs it with, and nothing is logged. *)
Lemma convert_source_literal (name : string) (k : E_FBPFILTER) (s : string) :
  In (name, k) source_literals ->
  case_variant s name = true ->
  _convertStringToFilter s = (k, []).
Proof.
  intros Hin Hcv.
  pose proof (stringCompareLowerCase_case_variant s name Hcv) as H.
  unfold source_literals in Hin. simpl in Hin.
  repeat (destruct Hin as [Hin|Hin];
          [injection Hin as <- <-; unfold _convertStringToFilter;
           rewrite !H; reflexivity|]).
  contradiction.
Qed.

(** Every published name except the misspelt one resolves, in every case
    variant, to its kind. *)
Lemma convert_published_except_bartlett_hann (name : string) (k : E_FBPFILTER) (s : string) :
  In (name, k) published_catalog ->
  name <> "bartlett-hann" ->
  case_variant s name = true ->
  _convertStringToFilter s = (k, []).
Proof.
  intros Hin Hne Hcv. apply (convert_source_literal name k s); [|exact Hcv].
  unfold published_catalog in Hin. simpl in Hin. unfold source_literals. simpl.
  repeat (destruct Hin as [Hin|Hin];
          [injection Hin as <- <-; try (exfalso; apply Hne; reflexivity); tauto|]).
  contradiction.
Qed.

(** A C string that is a case variant of no literal of the source falls
    through every comparison: the result is [FILTER_NONE] and one error is
    logged. *)
Lemma convert_unmatched (s : string) :
  no_nul s = true ->
  matches_catalog source_literals s = false ->
  _convertStringToFilter s = (FILTER_NONE, [convert_failure s]).
Proof.
  intros Hs Hm. unfold matches_catalog, source_literals in Hm. simpl in Hm.
  repeat (apply orb_false_iff in Hm as [?E Hm]).
  unfold _convertStringToFilter.
  repeat match goal with
         | E : case_variant s ?lit = false |- _ =>
             rewrite (stringCompareLowerCase_iff s lit Hs eq_refl), E; clear E
         end.
  reflexivity.
Qed.

(** C3 (the code departs from the claim).  The published catalog pairs
    the name [bartlett-hann] with the Bartlett-Hann kind, but the source
    compares against the literal [barlett-hann]: the published name falls
    through every comparison, the result is [FILTER_NONE] and an error is
    logged. *)
Theorem C3_bartlett_hann_not_resolved :
  In ("bartlett-hann", FILTER_BARTLETTHANN) published_catalog /\
  _convertStringToFilter "bartlett-hann"
    = (FILTER_NONE, [convert_failure "bartlett-hann"]) /\
  _convertStringToFilter "RAM-LAK" = (FILTER_RAMLAK, []).
Proof.
  split; [unfold published_catalog; simpl; tauto|].
  split; reflexivity.
Qed.

(** C9 (the code departs from the claim).  The string [barlett-hann] is a
    case variant of no published catalog name, yet the source resolves it to
    the Bartlett-Hann kind and logs nothing. *)
Theorem C9_barlett_hann_resolved :
  no_nul "barlett-hann" = true /\
  matches_catalog published_catalog "barlett-hann" = false /\
  _convertStringToFilter "barlett-hann" = (FILTER_BARTLETTHANN, []).
Proof. repeat split; reflexivity. Qed.

(** ** The validator *)

Lemma custom_test_iff (f : E_FBPFILTER) :
  E_FBPFILTER_eqb f FILTER_PROJECTION || E_FBPFILTER_eqb f FILTER_SINOGRAM
  || E_FBPFILTER_eqb f FILTER_RPROJECTION || E_FBPFILTER_eqb f FILTER_RSINOGRAM = true
  <-> custom_data_kind f.
Proof.
  split.
  - destruct f; simpl; intros H; try discriminate; constructor.
  - intros []; reflexivity.
Qed.

(** [check] always returns.  Either the preconditions hold, it returns true
    and the only change is that the instance is marked initialized; or one
    of them fails, it returns false and the only change is one
    configuration error in the log. *)
Lemma check_cases {T : ExternalTypes} (w : World) :
  (check_preconditions (this w) /\
   check w = Ok true (set_this (set_base (set_m_bIsInitialized true (base (this w))) (this w)) w))
  \/
  (~ check_preconditions (this w) /\
   exists msg, check w = Ok false (set_log (log w ++ [config_error "FBP_CUDA" msg]) w)).
Proof.
  pose proof (custom_test_iff (m_eFilter (this w))) as Hct.
  unfold check_preconditions, check, bind, get_this, ASTRA_CONFIG_CHECK.
  destruct (m_pSinogram (base (this w))) as [s|] eqn:Es;
  destruct (m_pReconstruction (base (this w))) as [r|] eqn:Er;
  destruct (E_FBPFILTER_eqb (m_eFilter (this w)) FILTER_PROJECTION
            || E_FBPFILTER_eqb (m_eFilter (this w)) FILTER_SINOGRAM
            || E_FBPFILTER_eqb (m_eFilter (this w)) FILTER_RPROJECTION
            || E_FBPFILTER_eqb (m_eFilter (this w)) FILTER_RSINOGRAM) eqn:Ec;
  destruct (m_pfFilter (this w)) as [a|] eqn:Ep;
  simpl;
  try (right; split;
       [ intros ([s' [Hs' _]] & [r' [Hr' _]] & Hc & _);
         first [ discriminate | apply Hc; [now apply Hct | reflexivity] ]
       | eexists; reflexivity ]);
  destruct (proj_isInitialized s) eqn:Ei;
  destruct (vol_isInitialized r) eqn:Ej;
  destruct (Z.leb_spec (-1) (m_iGPUIndex (base (this w))));
  destruct (Z.leb_spec 0 (m_iPixelSuperSampling (base (this w))));
  simpl;
  try (right; split;
       [ intros ([s' [Hs' Hi]] & [r' [Hr' Hj]] & _ & Hg & Hp);
         injection Hs' as <-; injection Hr' as <-;
         first [ congruence | lia ]
       | eexists; reflexivity ]);
  (left; split; [| reflexivity];
   split; [eauto|]; split; [eauto|]; split; [| lia];
   intros Hc; first [ discriminate | apply Hct in Hc; discriminate ]).
Qed.

(** C1.  [check] always returns, and it returns true exactly when the
    five preconditions hold: projection dataset present and initialized,
    reconstruction dataset present and initialized, buffer non-null for a
    custom-data kind, device index at least -1, supersampling at least 0.
    In particular, on an instance where all of them hold: with device index
    -2 it returns false, with any device index from -1 upwards it returns
    true, with any analytic kind and a null buffer it returns true, and with
    any custom-data kind and a null buffer it returns false. *)
Theorem C1_check_true_iff_preconditions {T : ExternalTypes} (w : World) :
  (exists b w', check w = Ok b w' /\ (b = true <-> check_preconditions (this w))) /\
  (check_preconditions (this w) ->
   returns check (with_GPUIndex (-2) w) false /\
   (forall g, -1 <= g -> returns check (with_GPUIndex g w) true) /\
   (forall f, analytic_kind f -> returns check (with_filter f None w) true) /\
   (forall f, custom_data_kind f -> returns check (with_filter f None w) false)).
Proof.
  split.
  - destruct (check_cases w) as [[H E]|[H [msg E]]]; rewrite E.
    + eexists _, _. split; [reflexivity|]. tauto.
    + eexists _, _. split; [reflexivity|]. split; [discriminate | contradiction].
  - intros (Hs & Hr & Hc & Hg & Hp). unfold returns.
    split; [|split; [|split]].
    + destruct (check_cases (with_GPUIndex (-2) w)) as [[H E]|[H [msg E]]];
        [| rewrite E; eauto].
      destruct H as (_ & _ & _ & Hg' & _). simpl in Hg'. lia.
    + intros g Hg2.
      destruct (check_cases (with_GPUIndex g w)) as [[H E]|[H [msg E]]];
        [rewrite E; eauto|].
      exfalso. apply H. unfold check_preconditions. simpl. tauto.
    + intros f Hf.
      destruct (check_cases (with_filter f None w)) as [[H E]|[H [msg E]]];
        [rewrite E; eauto|].
      exfalso. apply H. unfold check_preconditions. simpl.
      split; [exact Hs|]. split; [exact Hr|]. split; [|tauto].
      intros Hcf. contradiction.
    + intros f Hf.
      destruct (check_cases (with_filter f None w)) as [[H E]|[H [msg E]]];
        [| rewrite E; eauto].
      destruct H as (_ & _ & Hc' & _). simpl in Hc'. now apply Hc' in Hf.
Qed.

Lemma toy_valid_preconditions : check_preconditions (this toy_valid_world).
Proof.
  unfold check_preconditions. simpl.
  split; [exists sinogram_3x2; split; reflexivity|].
  split; [exists volume_2x2; split; reflexivity|].
  split; [intros H; inversion H|].
  split; [apply Z.le_refl | apply Z.lt_le_incl; reflexivity].
Defined.

(** C1 at a validated instance: there [check] returns true, and with
    device index -2 it returns false. *)
Lemma C1_check_witness :
  check_preconditions (this toy_valid_world) /\
  returns check toy_valid_world true /\
  returns check (with_GPUIndex (-2) toy_valid_world) false.
Proof.
  split; [exact toy_valid_preconditions|]. split.
  - apply (proj1 (proj2 (proj2 (C1_check_true_iff_preconditions toy_valid_world)
                           toy_valid_preconditions)) (-1)).
    apply Z.le_refl.
  - exact (proj1 (proj2 (C1_check_true_iff_preconditions toy_valid_world)
                    toy_valid_preconditions)).
Defined.

(** ** Symbolic execution *)

Ltac exec_in H :=
  unfold deref, logging, ASTRA_ERROR, ASTRA_ASSERT, markNodeParsed, markOptionParsed,
    update_base, update_this, get_this, bind, ret, crash in H;
  cbn [this heap log marks set_this set_heap set_log set_marks
       base m_eFilter m_pfFilter m_iFilterWidth m_fFilterParameter m_fFilterD m_bShortScan
       set_base set_m_eFilter set_m_pfFilter set_m_iFilterWidth
       set_m_fFilterParameter set_m_fFilterD set_m_bShortScan
       m_bIsInitialized m_pSinogram m_pReconstruction m_iGPUIndex
       m_iPixelSuperSampling m_pAlgo m_bAlgoInit base_members
       set_m_bIsInitialized set_m_pSinogram set_m_pReconstruction set_m_iGPUIndex
       set_m_iPixelSuperSampling set_m_pAlgo set_m_bAlgoInit
       fst snd negb andb orb non_null] in H.

Ltac exec :=
  unfold deref, logging, ASTRA_ERROR, ASTRA_ASSERT, markNodeParsed, markOptionParsed,
    update_base, update_this, get_this, bind, ret, crash;
  cbn [this heap log marks set_this set_heap set_log set_marks
       base m_eFilter m_pfFilter m_iFilterWidth m_fFilterParameter m_fFilterD m_bShortScan
       set_base set_m_eFilter set_m_pfFilter set_m_iFilterWidth
       set_m_fFilterParameter set_m_fFilterD set_m_bShortScan
       m_bIsInitialized m_pSinogram m_pReconstruction m_iGPUIndex
       m_iPixelSuperSampling m_pAlgo m_bAlgoInit base_members
       set_m_bIsInitialized set_m_pSinogram set_m_pReconstruction set_m_iGPUIndex
       set_m_iPixelSuperSampling set_m_pAlgo set_m_bAlgoInit
       fst snd negb andb orb non_null].

(** ** Clear *)

Lemma clear_ok {T : ExternalTypes} {C : Collaborators} (w : World) :
  buffer_live w -> clear w = Ok tt (cleared w).
Proof.
  intros Hlive. unfold clear, cleared, delete_array. exec.
  destruct (m_pfFilter (this w)) as [a|] eqn:E; [|reflexivity].
  destruct (Hlive a E) as [blk Hblk]. rewrite Hblk. reflexivity.
Qed.

Lemma owned_live {T : ExternalTypes} (w : World) : owned w -> buffer_live w.
Proof.
  unfold owned, buffer_live. intros H a Ha. rewrite Ha in H.
  apply elem_of_dom. rewrite H. set_solver.
Qed.

Lemma cleared_blank {T : ExternalTypes} {C : Collaborators} (w : World) :
  owned w ->
  dom (heap (cleared w)) = ∅ /\
  m_pfFilter (this (cleared w)) = None /\
  m_bIsInitialized (base (this (cleared w))) = false /\
  m_pAlgo (base (this (cleared w))) = None /\
  m_fFilterParameter (this (cleared w)) = float_minus_one /\
  m_fFilterD (this (cleared w)) = float_one /\
  m_bShortScan (this (cleared w)) = false.
Proof.
  unfold owned, cleared. intros H. cbn.
  split; [|repeat split].
  destruct (m_pfFilter (this w)) as [a|]; [|exact H].
  rewrite dom_delete_L, H. apply difference_diag_L.
Qed.

(** ** Heap primitives *)

Lemma new_float_array_ok {T : ExternalTypes} (w : World) (n : Z) :
  0 <= n ->
  new_float_array n w
  = Ok (fresh (dom (heap w)))
       (set_heap (<[fresh (dom (heap w)) := replicate (Z.to_nat n) 0]> (heap w)) w).
Proof.
  intros Hn. unfold new_float_array.
  destruct (Z.ltb_spec n 0); [lia | reflexivity].
Qed.

Lemma memcpy_fresh {T : ExternalTypes} (w : World) (a : addr) (n nbytes : Z) (src : list float) :
  heap w !! a = Some (replicate (Z.to_nat n) 0) ->
  nbytes = sizeof_float * n ->
  0 <= n <= Z.of_nat (length src) ->
  memcpy (Some a) src nbytes w
  = Ok tt (set_heap (<[a := take (Z.to_nat n) src]> (heap w)) w).
Proof.
  intros Hblk -> Hn. unfold memcpy, sizeof_float in *. rewrite Hblk.
  rewrite length_replicate.
  assert (Ediv : (4 * n) `div` 4 = n) by (rewrite Z.mul_comm; apply Z.div_mul; lia).
  rewrite Ediv.
  destruct (Z.leb_spec (4 * n) (4 * Z.of_nat (length src))); [|lia].
  destruct (Z.leb_spec (4 * n) (4 * Z.of_nat (Z.to_nat n))); [|lia].
  simpl. rewrite drop_ge by (rewrite length_replicate; lia).
  now rewrite app_nil_r.
Qed.

(** ** The programmatic entry point *)

(** On an instance marked initialized the entry point clears first: its
    outcome is its outcome on the cleared world. *)
Lemma clear_first {T : ExternalTypes} {C : Collaborators} {A : Type} (k : M A) (w : World) :
  buffer_live w ->
  (i <- get_this ;; (if m_bIsInitialized (base i) then clear else ret tt) ;; k) w
  = k (entry_world w).
Proof.
  intros Hlive. unfold entry_world, bind, get_this.
  destruct (m_bIsInitialized (base (this w))); [|reflexivity].
  now rewrite (clear_ok w Hlive).
Qed.

Lemma initialize_args_no_filter {T : ExternalTypes} {C : Collaborators} (w : World)
    s r f wd g prm :
  buffer_live w ->
  initialize_args s r f None wd g prm w
  = check (args_world (entry_world w) s r f None wd g prm (heap (entry_world w))).
Proof.
  intros Hlive. unfold initialize_args. rewrite (clear_first _ w Hlive).
  reflexivity.
Qed.

Lemma initialize_args_filter {T : ExternalTypes} {C : Collaborators} (w : World)
    s r f raw wd g prm n :
  buffer_live w ->
  filter_element_count f wd s = Some n ->
  0 <= n <= Z.of_nat (length raw) ->
  n <= INT_MAX ->
  initialize_args s r f (Some raw) wd g prm w
  = check (args_world (entry_world w) s r f
             (Some (fresh (dom (heap (entry_world w))))) wd g prm
             (<[fresh (dom (heap (entry_world w))) := take (Z.to_nat n) raw]>
                (heap (entry_world w)))).
Proof.
  intros Hlive Hcount Hn Hmax. unfold initialize_args.
  rewrite (clear_first _ w Hlive).
  generalize (entry_world w) as w1. intros w1.
  unfold filter_element_count in Hcount. exec.
  assert (Hcpy : forall w2 : World,
    heap w2 = heap w1 ->
    match new_float_array n w2 with
    | Ok a w' =>
        match memcpy (Some a) raw (size_t_mul (to_size_t n) sizeof_float)
                (set_this (set_m_pfFilter (Some a) (this w')) w') with
        | Ok _ w'' => Ok tt w''
        | Crash f' w'' => Crash f' w''
        end
    | Crash f' w' => Crash f' w'
    end
    = Ok tt (set_heap (<[fresh (dom (heap w1)) := take (Z.to_nat n) raw]> (heap w1))
               (set_this (set_m_pfFilter (Some (fresh (dom (heap w1)))) (this w2)) w2))).
  { intros w2 Hh. rewrite new_float_array_ok by lia. rewrite Hh.
    erewrite memcpy_fresh with (n := n);
      [ | cbn; apply lookup_insert_eq
        | unfold size_t_mul, to_size_t, sizeof_float, INT_MAX in *;
          rewrite (Z.mod_small n) by lia; rewrite Z.mod_small by lia; lia
        | lia ].
    cbn. now rewrite insert_insert_eq. }
  destruct (negb (E_FBPFILTER_eqb f FILTER_SINOGRAM)
            && negb (E_FBPFILTER_eqb f FILTER_RSINOGRAM)).
  - injection Hcount as ->.
    match goal with
    | |- context [new_float_array n ?w2] =>
        specialize (Hcpy w2 eq_refl)
    end.
    exec_in Hcpy.
    destruct (new_float_array n _) as [a w'|f' w'] eqn:En.
    + exec. exec_in Hcpy.
      destruct (memcpy _ _ _ _) as [u w''|f'' w''] eqn:Em; [|discriminate].
      injection Hcpy as ->. reflexivity.
    + discriminate.
  - destruct s as [sino|]; [|discriminate]. injection Hcount as <-. exec.
    match goal with
    | |- context [new_float_array _ ?w2] =>
        specialize (Hcpy w2 eq_refl)
    end.
    exec_in Hcpy.
    destruct (new_float_array _ _) as [a w'|f' w'] eqn:En.
    + exec. exec_in Hcpy.
      destruct (memcpy _ _ _ _) as [u w''|f'' w''] eqn:Em; [|discriminate].
      injection Hcpy as ->. reflexivity.
    + discriminate.
Qed.

(** What [check] leaves alone: the heap, the marks and every member the
    class adds; of the inherited members it can only set the initialized
    flag, and only when it returns true. *)
Lemma check_frame {T : ExternalTypes} (w : World) :
  exists b w',
    check w = Ok b w' /\
    heap w' = heap w /\ marks w' = marks w /\
    m_pfFilter (this w') = m_pfFilter (this w) /\
    m_eFilter (this w') = m_eFilter (this w) /\
    m_iFilterWidth (this w') = m_iFilterWidth (this w) /\
    m_fFilterParameter (this w') = m_fFilterParameter (this w) /\
    m_fFilterD (this w') = m_fFilterD (this w) /\
    m_bShortScan (this w') = m_bShortScan (this w) /\
    (b = true <-> check_preconditions (this w)) /\
    (b = true -> m_bIsInitialized (base (this w')) = true /\ log w' = log w) /\
    (b = false -> base (this w') = base (this w) /\
                  exists msg, log w' = log w ++ [config_error "FBP_CUDA" msg]).
Proof.
  destruct (check_cases w) as [[H E]|[H [msg E]]]; rewrite E; eexists _, _;
    (split; [reflexivity|]); cbn;
    do 8 (split; [reflexivity|]).
  - split; [tauto|]. split; [intros _; split; reflexivity | discriminate].
  - split; [split; [discriminate | contradiction]|].
    split; [discriminate | intros _; split; [reflexivity | eauto]].
Qed.

Lemma per_angle_test (f : E_FBPFILTER) :
  negb (E_FBPFILTER_eqb f FILTER_SINOGRAM) && negb (E_FBPFILTER_eqb f FILTER_RSINOGRAM) = false
  <-> per_angle_kind f.
Proof.
  unfold per_angle_kind. split.
  - destruct f; simpl; intros H; try discriminate; tauto.
  - intros [-> | ->]; reflexivity.
Qed.

Lemma filter_element_count_width (f : E_FBPFILTER) (wd : Z) s :
  ~ per_angle_kind f -> filter_element_count f wd s = Some wd.
Proof.
  intros H. unfold filter_element_count.
  destruct (negb (E_FBPFILTER_eqb f FILTER_SINOGRAM)
            && negb (E_FBPFILTER_eqb f FILTER_RSINOGRAM)) eqn:E; [reflexivity|].
  apply per_angle_test in E. contradiction.
Qed.

Lemma filter_element_count_angles (f : E_FBPFILTER) (wd : Z) sino :
  per_angle_kind f -> filter_element_count f wd (Some sino) = Some (getAngleCount sino).
Proof.
  intros H. unfold filter_element_count. apply per_angle_test in H. now rewrite H.
Qed.

(** The programmatic entry point with a coefficient array, whenever the
    count [n] it computes is a valid length within the array: it returns,
    the owned buffer is a live block and holds exactly the first [n]
    coefficients. *)
Lemma initialize_args_copies {T : ExternalTypes} {C : Collaborators} (w : World)
    s r f raw wd g prm n :
  buffer_live w ->
  filter_element_count f wd s = Some n ->
  0 <= n <= Z.of_nat (length raw) ->
  n <= INT_MAX ->
  exists b w' a,
    initialize_args s r f (Some raw) wd g prm w = Ok b w' /\
    m_pfFilter (this w') = Some a /\
    heap w' !! a = Some (take (Z.to_nat n) raw) /\
    Z.of_nat (length (take (Z.to_nat n) raw)) = n /\
    m_iFilterWidth (this w') = wd.
Proof.
  intros Hlive Hcount Hn Hmax.
  rewrite (initialize_args_filter w s r f raw wd g prm n Hlive Hcount Hn Hmax).
  match goal with
  | |- context [check ?w1] =>
      destruct (check_frame w1) as (b & w' & E & Hh & _ & Hp & _ & Hw & _)
  end.
  exists b, w', (fresh (dom (heap (entry_world w)))).
  split; [exact E|]. rewrite Hh, Hp, Hw. cbn.
  split; [reflexivity|]. split; [apply lookup_insert_eq|].
  split; [|reflexivity]. rewrite length_take. lia.
Qed.

(** C4.  In programmatic initialization with a non-null coefficient
    array, on an instance whose buffer pointer is not dangling: for a kind
    that is not per-angle-indexed (so for the custom-data kinds projection
    and rprojection) the owned buffer receives exactly the first
    [_iFilterWidth] coefficients; for the per-angle-indexed kinds (sinogram,
    rsinogram) it receives exactly as many as the projection dataset has
    angles, whatever [_iFilterWidth] is.  The count must be a length the
    array has. *)
Theorem C4_programmatic_copy_length {T : ExternalTypes} {C : Collaborators} (w : World)
    (_pSinogram : option CFloat32ProjectionData2D)
    (_pReconstruction : option CFloat32VolumeData2D)
    (_eFilter : E_FBPFILTER) (_pfFilter : list float)
    (_iFilterWidth _iGPUIndex : Z) (_fFilterParameter : float) :
  buffer_live w ->
  (~ per_angle_kind _eFilter ->
   0 <= _iFilterWidth <= Z.of_nat (length _pfFilter) ->
   _iFilterWidth <= INT_MAX ->
   exists b w' a,
     initialize_args _pSinogram _pReconstruction _eFilter (Some _pfFilter)
       _iFilterWidth _iGPUIndex _fFilterParameter w = Ok b w' /\
     m_pfFilter (this w') = Some a /\
     heap w' !! a = Some (take (Z.to_nat _iFilterWidth) _pfFilter) /\
     Z.of_nat (length (take (Z.to_nat _iFilterWidth) _pfFilter)) = _iFilterWidth) /\
  (per_angle_kind _eFilter ->
   forall sino, _pSinogram = Some sino ->
   0 <= getAngleCount sino <= Z.of_nat (length _pfFilter) ->
   getAngleCount sino <= INT_MAX ->
   exists b w' a,
     initialize_args _pSinogram _pReconstruction _eFilter (Some _pfFilter)
       _iFilterWidth _iGPUIndex _fFilterParameter w = Ok b w' /\
     m_pfFilter (this w') = Some a /\
     heap w' !! a = Some (take (Z.to_nat (getAngleCount sino)) _pfFilter) /\
     Z.of_nat (length (take (Z.to_nat (getAngleCount sino)) _pfFilter)) = getAngleCount sino).
Proof.
  intros Hlive. split.
  - intros Hk Hn Hmax.
    destruct (initialize_args_copies w _pSinogram _pReconstruction _eFilter _pfFilter
                _iFilterWidth _iGPUIndex _fFilterParameter _iFilterWidth Hlive
                (filter_element_count_width _eFilter _iFilterWidth _pSinogram Hk) Hn Hmax)
      as (b & w' & a & H1 & H2 & H3 & H4 & _).
    exists b, w', a. tauto.
  - intros Hk sino -> Hn Hmax.
    destruct (initialize_args_copies w (Some sino) _pReconstruction _eFilter _pfFilter
                _iFilterWidth _iGPUIndex _fFilterParameter (getAngleCount sino) Hlive
                (filter_element_count_angles _eFilter _iFilterWidth sino Hk) Hn Hmax)
      as (b & w' & a & H1 & H2 & H3 & H4 & _).
    exists b, w', a. tauto.
Qed.

Lemma toy_fresh_live : buffer_live toy_fresh.
Proof. intros a H. discriminate H. Defined.

(** C4 at a fresh instance: kind projection with width 3 copies three of
    four coefficients; kind sinogram with width 7 and a dataset of two
    angles copies two of three. *)
Lemma C4_programmatic_copy_length_witness :
  buffer_live toy_fresh /\
  (exists b w' a,
     initialize_args (C := toy_C) (Some sinogram_3x2) (Some volume_2x2)
       FILTER_PROJECTION (Some [1; 2; 3; 4]) 3 (-1) float_minus_one toy_fresh = Ok b w' /\
     m_pfFilter (this w') = Some a /\
     heap w' !! a = Some [1; 2; 3] /\
     Z.of_nat (length [1; 2; 3]) = 3) /\
  (exists b w' a,
     initialize_args (C := toy_C) (Some sinogram_3x2) (Some volume_2x2)
       FILTER_SINOGRAM (Some [1; 2; 3]) 7 (-1) float_minus_one toy_fresh = Ok b w' /\
     m_pfFilter (this w') = Some a /\
     heap w' !! a = Some [1; 2] /\
     Z.of_nat (length [1; 2]) = 2).
Proof.
  split; [exact toy_fresh_live|]. split.
  - apply (proj1 (C4_programmatic_copy_length (C := toy_C) toy_fresh
                    (Some sinogram_3x2) (Some volume_2x2) FILTER_PROJECTION
                    [1; 2; 3; 4] 3 (-1) float_minus_one toy_fresh_live)).
    + intros [H|H]; discriminate H.
    + simpl. lia.
    + unfold INT_MAX. lia.
  - apply (proj2 (C4_programmatic_copy_length (C := toy_C) toy_fresh
                    (Some sinogram_3x2) (Some volume_2x2) FILTER_SINOGRAM
                    [1; 2; 3] 7 (-1) float_minus_one toy_fresh_live)
             (or_introl eq_refl) sinogram_3x2 eq_refl).
    + simpl. lia.
    + unfold INT_MAX. simpl. lia.
Defined.

(** ** A failed validation *)

(** C8 (the code departs from the claim).  Programmatic initialization
    of a fresh instance with device index -2: [check] reports the
    configuration error on the device index and the call returns false, yet
    the instance is left marked initialized, because the entry point has set
    the flag before it calls [check].  The declarative entry point does the
    same: with both datasets bound by a successful base-class setup, a
    custom-data filter type and no filter dataset, [check] reports the
    missing filter pointer, the call returns false and the flag stays set. *)
Theorem C8_failed_check_leaves_flag_set :
  (exists w',
     initialize_args (C := toy_C) (Some sinogram_3x2) (Some volume_2x2)
       FILTER_RAMLAK None 0 (-2) float_minus_one toy_fresh = Ok false w' /\
     log w' = [config_error "FBP_CUDA" "GPUIndex must be a non-negative integer or -1."] /\
     m_bIsInitialized (base (this w')) = true) /\
  (exists w',
     initialize_cfg (C := toy_C) toy_mgr toy_config_projection_no_data toy_fresh
     = Ok false w' /\
     log w' = [config_error "FBP_CUDA" "Invalid filter pointer."] /\
     m_bIsInitialized (base (this w')) = true).
Proof.
  split.
  - exists (world_of (initialize_args (C := toy_C) (Some sinogram_3x2) (Some volume_2x2)
                        FILTER_RAMLAK None 0 (-2) float_minus_one toy_fresh)).
    split; [|split]; vm_compute; reflexivity.
  - exists (world_of (initialize_cfg (C := toy_C) toy_mgr toy_config_projection_no_data
                        toy_fresh)).
    split; [|split]; vm_compute; reflexivity.
Qed.

(** ** The declarative entry point *)

Lemma initialize_cfg_base_fails {T : ExternalTypes} {C : Collaborators}
    (mgr : gmap Z CFloat32Data2D) (cfg : Config) (w : World) :
  buffer_live w ->
  fst (CCudaReconstructionAlgorithm2D_initialize cfg (base (this (entry_world w)))) = false ->
  initialize_cfg mgr cfg w = Ok false (base_initialized cfg (entry_world w)).
Proof.
  intros Hlive Hb. unfold initialize_cfg. rewrite (clear_first _ w Hlive).
  unfold base_initialized. exec. rewrite Hb. reflexivity.
Qed.

Lemma initialize_cfg_steps {T : ExternalTypes} {C : Collaborators}
    (mgr : gmap Z CFloat32Data2D) (cfg : Config) (w : World) :
  buffer_live w ->
  fst (CCudaReconstructionAlgorithm2D_initialize cfg (base (this (entry_world w)))) = true ->
  initialize_cfg mgr cfg w
  = (cfg_filter_data mgr cfg ;; markNodeParsed "FilterSinogramId" ;; cfg_tail cfg)
      (after_filter_type cfg (base_initialized cfg (entry_world w))).
Proof.
  intros Hlive Hb. unfold initialize_cfg. rewrite (clear_first _ w Hlive).
  unfold base_initialized, after_filter_type.
  revert Hb. generalize (entry_world w) as w1. intros w1 Hb.
  unfold bind at 1. unfold get_this at 1. unfold bind at 1. unfold update_this at 1.
  cbv zeta. rewrite Hb. cbn [negb].
  destruct (FilterType cfg) as [content|]; reflexivity.
Qed.

Lemma cfg_filter_data_absent {T : ExternalTypes}
    (mgr : gmap Z CFloat32Data2D) (cfg : Config) (w : World) :
  FilterSinogramId cfg = None ->
  cfg_filter_data mgr cfg w
  = Ok tt (set_this (set_m_pfFilter None (set_m_iFilterWidth 0 (this w))) w).
Proof. intros H. unfold cfg_filter_data. rewrite H. reflexivity. Qed.

Lemma cfg_filter_data_null {T : ExternalTypes}
    (mgr : gmap Z CFloat32Data2D) (cfg : Config) (w : World) (id : Z) :
  FilterSinogramId cfg = Some id ->
  dynamic_cast_ProjectionData (CData2DManager_get mgr id) = None ->
  cfg_filter_data mgr cfg w = Crash NullDereference w.
Proof. intros H Hc. unfold cfg_filter_data. rewrite H. cbv zeta. rewrite Hc. reflexivity. Qed.

Lemma wrap_int_small (z : Z) : INT_MIN <= z <= INT_MAX -> wrap_int z = z.
Proof.
  unfold wrap_int, INT_MIN, INT_MAX. intros H. rewrite Z.mod_small by lia. lia.
Qed.

Lemma size_of_product (W A : Z) :
  0 <= W <= INT_MAX -> 0 <= A <= INT_MAX -> W * A <= INT_MAX ->
  size_t_mul (size_t_mul sizeof_float (to_size_t W)) (to_size_t A)
  = sizeof_float * (W * A).
Proof.
  unfold size_t_mul, to_size_t, sizeof_float, INT_MAX. intros HW HA HWA.
  rewrite (Z.mod_small W) by lia. rewrite (Z.mod_small A) by lia.
  rewrite (Z.mod_small (4 * W)) by lia.
  rewrite <- Z.mul_assoc. apply Z.mod_small. lia.
Qed.

Lemma cfg_filter_data_copy {T : ExternalTypes}
    (mgr : gmap Z CFloat32Data2D) (cfg : Config) (w : World) (id : Z) d g :
  FilterSinogramId cfg = Some id ->
  CData2DManager_get mgr id = Some (ProjectionData d) ->
  getGeometry d = Some g ->
  0 <= getDetectorCount g <= INT_MAX ->
  0 <= getProjectionAngleCount g <= INT_MAX ->
  getDetectorCount g * getProjectionAngleCount g <= INT_MAX ->
  getDetectorCount g * getProjectionAngleCount g <= Z.of_nat (length (getDataConst d)) ->
  cfg_filter_data mgr cfg w
  = Ok tt (set_heap
             (<[fresh (dom (heap w)) :=
                  take (Z.to_nat (getDetectorCount g * getProjectionAngleCount g))
                       (getDataConst d)]> (heap w))
             (set_this (set_m_pfFilter (Some (fresh (dom (heap w))))
                          (set_m_iFilterWidth (getDetectorCount g) (this w))) w)).
Proof.
  intros Hid Hget Hgeo HW HA HWA Hlen. unfold cfg_filter_data.
  rewrite Hid. cbv zeta. rewrite Hget. cbn [dynamic_cast_ProjectionData].
  exec. rewrite Hgeo. unfold int_mul. exec.
  rewrite wrap_int_small by (unfold INT_MIN; lia).
  rewrite new_float_array_ok by lia. exec.
  rewrite size_of_product by assumption.
  erewrite memcpy_fresh with (n := getDetectorCount g * getProjectionAngleCount g);
    [ | cbn; apply lookup_insert_eq | reflexivity | lia ].
  cbn. now rewrite insert_insert_eq.
Qed.

(** What the "filter" part can change when it returns: the width, the
    buffer pointer, and at most one new block at a fresh address. *)
Lemma cfg_filter_data_frame {T : ExternalTypes}
    (mgr : gmap Z CFloat32Data2D) (cfg : Config) (w w' : World) (u : unit) :
  cfg_filter_data mgr cfg w = Ok u w' ->
  base (this w') = base (this w) /\
  m_eFilter (this w') = m_eFilter (this w) /\
  m_fFilterParameter (this w') = m_fFilterParameter (this w) /\
  m_fFilterD (this w') = m_fFilterD (this w) /\
  m_bShortScan (this w') = m_bShortScan (this w) /\
  log w' = log w /\ marks w' = marks w /\
  ((FilterSinogramId cfg = None /\ m_pfFilter (this w') = None /\ heap w' = heap w) \/
   (exists blk, FilterSinogramId cfg <> None /\
      m_pfFilter (this w') = Some (fresh (dom (heap w))) /\
      heap w' = <[fresh (dom (heap w)) := blk]> (heap w))).
Proof.
  unfold cfg_filter_data. destruct (FilterSinogramId cfg) as [id|].
  - cbv zeta.
    destruct (dynamic_cast_ProjectionData (CData2DManager_get mgr id)) as [d|];
      [|discriminate].
    exec. destruct (getGeometry d) as [g|]; [|discriminate].
    unfold int_mul. exec.
    unfold new_float_array. destruct (_ <? 0); [discriminate|]. exec.
    unfold memcpy. exec. rewrite lookup_insert_eq.
    destruct (_ && _); [|discriminate].
    intros [= <- <-]. cbn.
    do 7 (split; [reflexivity|]). right. eexists. split; [discriminate|].
    split; [reflexivity|]. now rewrite insert_insert_eq.
  - exec. intros [= <- <-]. cbn.
    do 7 (split; [reflexivity|]). left. repeat split.
Qed.

(** The tail never faults.  It leaves the heap, the buffer pointer, the
    width and the kind alone; it assigns the short-scan flag exactly when the
    bound geometry is fan-beam flat-detector, and marks the option as
    consumed exactly then. *)
Lemma cfg_tail_spec {T : ExternalTypes} {C : Collaborators} (cfg : Config) (w : World) :
  exists b w',
    cfg_tail cfg w = Ok b w' /\
    heap w' = heap w /\
    m_pfFilter (this w') = m_pfFilter (this w) /\
    m_iFilterWidth (this w') = m_iFilterWidth (this w) /\
    m_eFilter (this w') = m_eFilter (this w) /\
    m_bShortScan (this w')
      = (if fan_flat_bound (this w) then getOptionBool (ShortScan cfg) false
         else m_bShortScan (this w)) /\
    marks w'
      = marks w ++ [NodeParsed "FilterParameter"; NodeParsed "FilterD"]
          ++ (if fan_flat_bound (this w) then [OptionParsed "ShortScan"] else []) /\
    (b = true -> m_bIsInitialized (base (this w')) = true) /\
    (b = false ->
       m_bIsInitialized (base (this w'))
       = m_bIsInitialized (initializeFromProjector (base (this w)))).
Proof.
  unfold cfg_tail, fan_flat_bound.
  destruct (FilterParameter cfg), (FilterD cfg);
    exec;
    (destruct (m_pSinogram (base (this w))) as [sino|];
     [destruct (dynamic_cast_FanFlat (getGeometry sino)) | ]);
    exec;
    match goal with
    | |- context [check ?w1] =>
        destruct (check_frame w1)
          as (b & w' & E & Hh & Hm & Hp & Hf & Hw & _ & _ & Hs & _ & Ht & Hfl)
    end;
    exists b, w'; rewrite E, Hh, Hm, Hp, Hf, Hw, Hs; cbn;
    (split; [reflexivity|]); do 5 (split; [reflexivity|]);
    (split; [now rewrite <- ?app_assoc|]);
    (split; [intros Hb; exact (proj1 (Ht Hb))
            | intros Hb; destruct (Hfl Hb) as [-> _]; reflexivity]).
Qed.

(** On a geometry that is not fan-beam flat-detector the tail does not
    depend on the [ShortScan] option. *)
Lemma cfg_tail_ShortScan_irrelevant {T : ExternalTypes} {C : Collaborators}
    (cfg : Config) (v : option bool) (w : World) :
  fan_flat_bound (this w) = false ->
  cfg_tail (with_ShortScan v cfg) w = cfg_tail cfg w.
Proof.
  unfold cfg_tail, fan_flat_bound. intros H. exec.
  cbn [with_ShortScan FilterParameter FilterD ShortScan].
  destruct (FilterParameter cfg), (FilterD cfg); exec;
    (destruct (m_pSinogram (base (this w))) as [sino|]; [|reflexivity];
     destruct (dynamic_cast_FanFlat (getGeometry sino)); [discriminate | reflexivity]).
Qed.

Lemma entry_world_marks_log {T : ExternalTypes} {C : Collaborators} (w : World) :
  marks (entry_world w) = marks w /\ log (entry_world w) = log w.
Proof. unfold entry_world. destruct (m_bIsInitialized _); split; reflexivity. Qed.

(** C6.  Declarative initialization on an instance whose buffer pointer
    is not dangling, when the shared 2-D setup of the base class succeeds.
    If [FilterSinogramId] is present and names a projection dataset whose
    geometry has [W] detectors and [A] angles and whose buffer holds [W * A]
    elements (a product within the range of [int]), the call returns, the
    owned buffer is a block at an address that was not live before, it holds
    exactly the [W * A] elements of the dataset, byte for byte, and the
    filter width is [W].  If [FilterSinogramId] is absent the call returns
    with a null buffer and filter width 0. *)
Theorem C6_declarative_filter_buffer {T : ExternalTypes} {C : Collaborators}
    (mgr : gmap Z CFloat32Data2D) (cfg : Config) (w : World) :
  buffer_live w ->
  fst (CCudaReconstructionAlgorithm2D_initialize cfg (base (this (entry_world w)))) = true ->
  (forall id d g,
     FilterSinogramId cfg = Some id ->
     CData2DManager_get mgr id = Some (ProjectionData d) ->
     getGeometry d = Some g ->
     0 <= getDetectorCount g <= INT_MAX ->
     0 <= getProjectionAngleCount g <= INT_MAX ->
     getDetectorCount g * getProjectionAngleCount g <= INT_MAX ->
     Z.of_nat (length (getDataConst d)) = getDetectorCount g * getProjectionAngleCount g ->
     exists b w' a buf,
       initialize_cfg mgr cfg w = Ok b w' /\
       m_pfFilter (this w') = Some a /\
       heap (entry_world w) !! a = None /\
       heap w' !! a = Some buf /\
       Z.of_nat (length buf) = getDetectorCount g * getProjectionAngleCount g /\
       buf = getDataConst d /\
       buffer_bytes buf = buffer_bytes (getDataConst d) /\
       m_iFilterWidth (this w') = getDetectorCount g) /\
  (FilterSinogramId cfg = None ->
   exists b w',
     initialize_cfg mgr cfg w = Ok b w' /\
     m_pfFilter (this w') = None /\
     m_iFilterWidth (this w') = 0).
Proof.
  intros Hlive Hbase. rewrite (initialize_cfg_steps mgr cfg w Hlive Hbase).
  set (w2 := after_filter_type cfg (base_initialized cfg (entry_world w))).
  assert (Hheap : heap w2 = heap (entry_world w)).
  { unfold w2, after_filter_type, base_initialized.
    destruct (FilterType cfg); reflexivity. }
  split.
  - intros id d g Hid Hget Hgeo HW HA HWA Hlen.
    unfold bind at 1.
    rewrite (cfg_filter_data_copy mgr cfg w2 id d g Hid Hget Hgeo HW HA HWA)
      by lia.
    unfold bind at 1. unfold markNodeParsed at 1.
    match goal with
    | |- context [cfg_tail cfg ?w3] =>
        destruct (cfg_tail_spec cfg w3) as (b & w' & E & Hh & Hp & Hw & _)
    end.
    exists b, w', (fresh (dom (heap w2))), (getDataConst d).
    split; [exact E|]. rewrite Hh, Hp, Hw. cbn.
    split; [reflexivity|].
    split; [rewrite <- Hheap; apply not_elem_of_dom, is_fresh|].
    split; [rewrite lookup_insert_eq; f_equal; apply take_ge; lia|].
    split; [exact Hlen|]. repeat split.
  - intros Hid. unfold bind at 1.
    rewrite (cfg_filter_data_absent mgr cfg w2 Hid).
    unfold bind at 1. unfold markNodeParsed at 1.
    match goal with
    | |- context [cfg_tail cfg ?w3] =>
        destruct (cfg_tail_spec cfg w3) as (b & w' & E & Hh & Hp & Hw & _)
    end.
    exists b, w'. split; [exact E|]. rewrite Hp, Hw. split; reflexivity.
Qed.

Lemma convert_logs_no_config_error (content type msg : string) :
  ~ In (config_error type msg) (snd (_convertStringToFilter content)).
Proof.
  unfold _convertStringToFilter.
  repeat match goal with
         | |- context [if stringCompareLowerCase content ?lit then _ else _] =>
             destruct (stringCompareLowerCase content lit); [intros []|]
         end.
  intros [H|[]]. discriminate H.
Qed.

(** C10.  Declarative initialization on an instance whose buffer pointer
    is not dangling, when the shared 2-D setup succeeds and
    [FilterSinogramId] is present: if the id is unknown to the manager, or
    names an object that is not a projection dataset, the call does not
    return; it stops with a null dereference, right after the filter type
    has been read, and no configuration error has been reported. *)
Theorem C10_filter_dataset_lookup_unchecked {T : ExternalTypes} {C : Collaborators}
    (mgr : gmap Z CFloat32Data2D) (cfg : Config) (w : World) (id : Z) :
  buffer_live w ->
  fst (CCudaReconstructionAlgorithm2D_initialize cfg (base (this (entry_world w)))) = true ->
  FilterSinogramId cfg = Some id ->
  (CData2DManager_get mgr id = None \/
   exists v, CData2DManager_get mgr id = Some (VolumeData v)) ->
  exists w' added,
    initialize_cfg mgr cfg w = Crash NullDereference w' /\
    log w' = log w ++ added /\
    forall type msg, ~ In (config_error type msg) added.
Proof.
  intros Hlive Hbase Hid Hget.
  rewrite (initialize_cfg_steps mgr cfg w Hlive Hbase).
  unfold bind at 1. rewrite (cfg_filter_data_null mgr cfg _ id Hid).
  - eexists. exists (match FilterType cfg with
                     | Some content => snd (_convertStringToFilter content)
                     | None => []
                     end).
    split; [reflexivity|].
    unfold after_filter_type, base_initialized.
    destruct (FilterType cfg) as [content|]; cbn;
      rewrite (proj2 (entry_world_marks_log w)).
    + split; [reflexivity|]. intros type msg. apply convert_logs_no_config_error.
    + split; [now rewrite app_nil_r|]. intros type msg [].
  - destruct Hget as [-> | [v ->]]; reflexivity.
Qed.

(** C6 at a fresh instance and the dataset of 3 detectors and 2 angles
    registered under id 7: the buffer holds its six elements and the width
    is 3. *)
Lemma C6_declarative_filter_buffer_witness :
  buffer_live toy_fresh /\
  fst (CCudaReconstructionAlgorithm2D_initialize (Collaborators := toy_C)
         (toy_config_filter 7) (base (this (entry_world (C := toy_C) toy_fresh)))) = true /\
  exists b w' a buf,
    initialize_cfg (C := toy_C) toy_mgr (toy_config_filter 7) toy_fresh = Ok b w' /\
    m_pfFilter (this w') = Some a /\
    heap (entry_world (C := toy_C) toy_fresh) !! a = None /\
    heap w' !! a = Some buf /\
    Z.of_nat (length buf) = 3 * 2 /\
    buf = [11; 12; 13; 21; 22; 23] /\
    buffer_bytes buf = buffer_bytes [11; 12; 13; 21; 22; 23] /\
    m_iFilterWidth (this w') = 3.
Proof.
  split; [exact toy_fresh_live|]. split; [reflexivity|].
  apply (proj1 (C6_declarative_filter_buffer (C := toy_C) toy_mgr (toy_config_filter 7)
                  toy_fresh toy_fresh_live eq_refl) 7 sinogram_3x2 parallel_3x2).
  - reflexivity.
  - vm_compute. reflexivity.
  - reflexivity.
  - unfold INT_MAX. simpl. lia.
  - unfold INT_MAX. simpl. lia.
  - unfold INT_MAX. simpl. lia.
  - reflexivity.
Defined.

(** C10 at a fresh instance: id 9 is unknown to the manager. *)
Lemma C10_filter_dataset_lookup_unchecked_witness :
  buffer_live toy_fresh /\
  CData2DManager_get toy_mgr 9 = None /\
  exists w' added,
    initialize_cfg (C := toy_C) toy_mgr (toy_config_filter 9) toy_fresh
    = Crash NullDereference w' /\
    log w' = log toy_fresh ++ added /\
    forall type msg, ~ In (config_error type msg) added.
Proof.
  split; [exact toy_fresh_live|]. split; [vm_compute; reflexivity|].
  apply (C10_filter_dataset_lookup_unchecked (C := toy_C) toy_mgr (toy_config_filter 9)
           toy_fresh 9 toy_fresh_live eq_refl eq_refl).
  left. vm_compute. reflexivity.
Defined.

(** Whenever the programmatic entry point returns, the instance is marked
    initialized, short-scan is off, and the heap has changed by at most the
    release of the old block and one new block at a fresh address. *)
Lemma initialize_args_frame {T : ExternalTypes} {C : Collaborators} (w w' : World)
    s r f p wd g prm (b : bool) :
  buffer_live w ->
  initialize_args s r f p wd g prm w = Ok b w' ->
  m_bShortScan (this w') = false /\
  m_bIsInitialized (base (this w')) = true /\
  ((p = None /\ m_pfFilter (this w') = None /\ heap w' = heap (entry_world w)) \/
   (exists blk, p <> None /\
      m_pfFilter (this w') = Some (fresh (dom (heap (entry_world w)))) /\
      heap w' = <[fresh (dom (heap (entry_world w))) := blk]> (heap (entry_world w)))).
Proof.
  intros Hlive. unfold initialize_args. rewrite (clear_first _ w Hlive).
  generalize (entry_world w) as w1. intros w1.
  assert (Hfin : forall w2 : World,
            m_bShortScan (this w2) = false ->
            m_bIsInitialized (base (this w2)) = true ->
            check w2 = Ok b w' ->
            m_bShortScan (this w') = false /\
            m_bIsInitialized (base (this w')) = true /\
            m_pfFilter (this w') = m_pfFilter (this w2) /\ heap w' = heap w2).
  { intros w2 Hs Hi Hc.
    destruct (check_frame w2)
      as (b' & w'' & E & Hh & _ & Hp & _ & _ & _ & _ & Hss & _ & Ht & Hf).
    rewrite E in Hc. injection Hc as -> ->.
    rewrite Hss, Hp, Hh. split; [exact Hs|]. split; [|split; reflexivity].
    destruct b; [exact (proj1 (Ht eq_refl))|].
    destruct (Hf eq_refl) as [-> _]. exact Hi. }
  destruct p as [raw|]; exec.
  - assert (Hcopy : forall (n : Z) (w2 : World),
              heap w2 = heap w1 ->
              m_bShortScan (this w2) = false ->
              m_bIsInitialized (base (this w2)) = true ->
              match
                match new_float_array n w2 with
                | Ok a w3 =>
                    memcpy (Some a) raw (size_t_mul (to_size_t n) sizeof_float)
                      (set_this (set_m_pfFilter (Some a) (this w3)) w3)
                | Crash f' w3 => Crash f' w3
                end
              with
              | Ok _ w5 => check (set_this (set_m_fFilterParameter prm (this w5)) w5)
              | Crash f' w5 => Crash f' w5
              end = Ok b w' ->
              m_bShortScan (this w') = false /\
              m_bIsInitialized (base (this w')) = true /\
              (exists blk,
                 m_pfFilter (this w') = Some (fresh (dom (heap w1))) /\
                 heap w' = <[fresh (dom (heap w1)) := blk]> (heap w1))).
    { intros n w2 Hh Hs Hi. unfold new_float_array.
      destruct (n <? 0); [discriminate|]. exec.
      unfold memcpy. exec. rewrite lookup_insert_eq.
      destruct (_ && _); [|discriminate]. exec. intros Hc.
      apply Hfin in Hc; [|exact Hs|exact Hi].
      destruct Hc as (H1 & H2 & H3 & H4). cbn in H3, H4.
      rewrite Hh in H3, H4. rewrite insert_insert_eq in H4. eauto. }
    destruct (negb (E_FBPFILTER_eqb f FILTER_SINOGRAM)
              && negb (E_FBPFILTER_eqb f FILTER_RSINOGRAM)).
    + intros Hc. apply Hcopy in Hc; try reflexivity.
      destruct Hc as (H1 & H2 & blk & H3 & H4).
      split; [exact H1|]. split; [exact H2|]. right. exists blk.
      split; [discriminate|]. split; assumption.
    + destruct s as [sino|]; exec; [|discriminate].
      intros Hc. apply Hcopy in Hc; try reflexivity.
      destruct Hc as (H1 & H2 & blk & H3 & H4).
      split; [exact H1|]. split; [exact H2|]. right. exists blk.
      split; [discriminate|]. split; assumption.
  - intros Hc. apply Hfin in Hc; try reflexivity.
    destruct Hc as (H1 & H2 & H3 & H4). cbn in H3, H4. tauto.
Qed.

Lemma fan_flat_bound_base {T : ExternalTypes} (i j : CCudaFilteredBackProjectionAlgorithm) :
  base i = base j -> fan_flat_bound i = fan_flat_bound j.
Proof. unfold fan_flat_bound. now intros ->. Qed.

Lemma after_filter_type_frame {T : ExternalTypes} (cfg : Config) (w : World) :
  base (this (after_filter_type cfg w)) = base (this w) /\
  m_bShortScan (this (after_filter_type cfg w)) = m_bShortScan (this w) /\
  m_pfFilter (this (after_filter_type cfg w)) = m_pfFilter (this w) /\
  heap (after_filter_type cfg w) = heap w /\
  marks (after_filter_type cfg w) = marks w ++ [NodeParsed "FilterType"].
Proof. unfold after_filter_type. destruct (FilterType cfg); repeat split. Qed.

(** Whenever the declarative entry point returns: either the base-class
    setup failed and nothing else happened, or every part ran; then the
    short-scan flag was assigned exactly when the bound geometry is fan-beam
    flat-detector, and the heap has changed by at most the release of the
    old block and one new block at a fresh address. *)
Lemma initialize_cfg_frame {T : ExternalTypes} {C : Collaborators}
    (mgr : gmap Z CFloat32Data2D) (cfg : Config) (w w' : World) (b : bool) :
  buffer_live w ->
  initialize_cfg mgr cfg w = Ok b w' ->
  (fst (CCudaReconstructionAlgorithm2D_initialize cfg (base (this (entry_world w)))) = false /\
   b = false /\ w' = base_initialized cfg (entry_world w))
  \/
  (fst (CCudaReconstructionAlgorithm2D_initialize cfg (base (this (entry_world w)))) = true /\
   m_bShortScan (this w')
     = (if fan_flat_bound (this (base_initialized cfg (entry_world w)))
        then getOptionBool (ShortScan cfg) false
        else m_bShortScan (this (entry_world w))) /\
   marks w'
     = marks w ++ [NodeParsed "FilterType"; NodeParsed "FilterSinogramId";
                   NodeParsed "FilterParameter"; NodeParsed "FilterD"]
         ++ (if fan_flat_bound (this (base_initialized cfg (entry_world w)))
             then [OptionParsed "ShortScan"] else []) /\
   ((FilterSinogramId cfg = None /\ m_pfFilter (this w') = None /\
     heap w' = heap (entry_world w)) \/
    (exists blk, FilterSinogramId cfg <> None /\
       m_pfFilter (this w') = Some (fresh (dom (heap (entry_world w)))) /\
       heap w' = <[fresh (dom (heap (entry_world w))) := blk]> (heap (entry_world w)))) /\
   ((forall b0, m_bIsInitialized (initializeFromProjector b0) = m_bIsInitialized b0) ->
    m_bIsInitialized (base (this w')) = true)).
Proof.
  intros Hlive Hrun.
  destruct (fst (CCudaReconstructionAlgorithm2D_initialize cfg (base (this (entry_world w)))))
    eqn:Hb.
  - right. split; [reflexivity|].
    rewrite (initialize_cfg_steps mgr cfg w Hlive Hb) in Hrun.
    pose proof (after_filter_type_frame cfg (base_initialized cfg (entry_world w)))
      as (Fb & Fs & Fp & Fh & Fm).
    unfold bind at 1 in Hrun.
    destruct (cfg_filter_data mgr cfg _) as [u w3|? ?] eqn:Ed; [|discriminate].
    apply cfg_filter_data_frame in Ed.
    destruct Ed as (Db & _ & _ & _ & Ds & _ & Dm & Dh).
    unfold bind at 1 in Hrun. unfold markNodeParsed at 1 in Hrun.
    match type of Hrun with
    | cfg_tail cfg ?w4 = _ =>
        destruct (cfg_tail_spec cfg w4)
          as (b' & w'' & E & Th & Tp & _ & _ & Ts & Tm & Tt & Tf);
        rewrite E in Hrun; injection Hrun as -> ->;
        assert (Hfan : fan_flat_bound (this w4)
                       = fan_flat_bound (this (base_initialized cfg (entry_world w))))
          by (apply fan_flat_bound_base; cbn; rewrite Db; exact Fb);
        assert (Hflag : m_bIsInitialized (base (this w4)) = true)
          by (cbn; rewrite Db, Fb; unfold base_initialized; cbn; exact Hb)
    end.
    rewrite Hfan in Ts, Tm. cbn in Th, Tp, Ts, Tm, Tf.
    split; [rewrite Ts, Ds, Fs; reflexivity|].
    split.
    { rewrite Tm, Dm, Fm. unfold base_initialized. cbn.
      rewrite (proj1 (entry_world_marks_log w)). now rewrite <- !app_assoc. }
    split.
    { rewrite Tp, Th.
      assert (Hh0 : heap (base_initialized cfg (entry_world w)) = heap (entry_world w))
        by reflexivity.
      rewrite Fh, Hh0 in Dh.
      destruct Dh as [(Hid & Hp & Hh)|(blk & Hid & Hp & Hh)].
      - left. rewrite Hp, Hh. tauto.
      - right. exists blk. rewrite Hp, Hh. tauto. }
    intros Hproj. destruct b; [exact (Tt eq_refl)|].
    rewrite (Tf eq_refl), Hproj. cbn in Hflag. rewrite Db in *. exact Hflag.
  - left. rewrite (initialize_cfg_base_fails mgr cfg w Hlive Hb) in Hrun.
    injection Hrun as <- <-. tauto.
Qed.

(** On a geometry that is not fan-beam flat-detector, and with a base-class
    setup that does not read the option, the declarative entry point does
    not depend on [ShortScan]. *)
Lemma initialize_cfg_ShortScan_irrelevant {T : ExternalTypes} {C : Collaborators}
    (mgr : gmap Z CFloat32Data2D) (cfg : Config) (w : World) (v : option bool) :
  buffer_live w ->
  (forall v' b0, CCudaReconstructionAlgorithm2D_initialize (with_ShortScan v' cfg) b0
                 = CCudaReconstructionAlgorithm2D_initialize cfg b0) ->
  fan_flat_bound (this (base_initialized cfg (entry_world w))) = false ->
  initialize_cfg mgr (with_ShortScan v cfg) w = initialize_cfg mgr cfg w.
Proof.
  intros Hlive Hbase Hfan.
  assert (Hbi : base_initialized (with_ShortScan v cfg) (entry_world w)
                = base_initialized cfg (entry_world w))
    by (unfold base_initialized; now rewrite Hbase).
  destruct (fst (CCudaReconstructionAlgorithm2D_initialize cfg (base (this (entry_world w)))))
    eqn:Hb.
  - rewrite (initialize_cfg_steps mgr cfg w Hlive Hb).
    rewrite (initialize_cfg_steps mgr (with_ShortScan v cfg) w Hlive)
      by (now rewrite Hbase).
    rewrite Hbi.
    change (after_filter_type (with_ShortScan v cfg)) with (after_filter_type cfg).
    change (cfg_filter_data mgr (with_ShortScan v cfg)) with (cfg_filter_data mgr cfg).
    pose proof (after_filter_type_frame cfg (base_initialized cfg (entry_world w)))
      as (Fb & _).
    unfold bind at 1 3.
    destruct (cfg_filter_data mgr cfg _) as [u w3|? ?] eqn:Ed; [|reflexivity].
    apply cfg_filter_data_frame in Ed. destruct Ed as (Db & _).
    unfold bind, markNodeParsed.
    apply cfg_tail_ShortScan_irrelevant.
    rewrite <- Hfan. apply fan_flat_bound_base. cbn. now rewrite Db.
  - rewrite (initialize_cfg_base_fails mgr cfg w Hlive Hb).
    rewrite (initialize_cfg_base_fails mgr (with_ShortScan v cfg) w Hlive)
      by (now rewrite Hbase).
    now rewrite Hbi.
Qed.

(** The [ShortScan] field and the short-scan flag on any instance whose
    buffer pointer is not dangling, with a base-class setup that does not
    itself read the option:
    - when the geometry bound by the setup is not fan-beam flat-detector,
      the outcome of declarative initialization is the same whatever the
      [ShortScan] field holds and whether or not it is present; the field is
      not marked as consumed and the short-scan flag is left as it was at
      the entry of the body, so it remains false when it was false;
    - when the geometry is fan-beam flat-detector and the call returns after
      a successful setup, the flag is the field's value, false by default;
    - whenever programmatic initialization returns, the flag is false. *)
Theorem ShortScan_only_for_fan_flat {T : ExternalTypes} {C : Collaborators}
    (mgr : gmap Z CFloat32Data2D) (cfg : Config) (w : World) :
  buffer_live w ->
  (forall v b0, CCudaReconstructionAlgorithm2D_initialize (with_ShortScan v cfg) b0
                = CCudaReconstructionAlgorithm2D_initialize cfg b0) ->
  (fan_flat_bound (this (base_initialized cfg (entry_world w))) = false ->
   forall v,
     initialize_cfg mgr (with_ShortScan v cfg) w = initialize_cfg mgr cfg w /\
     forall b w',
       initialize_cfg mgr (with_ShortScan v cfg) w = Ok b w' ->
       (exists added,
          marks w' = marks w ++ added /\ ~ In (OptionParsed "ShortScan") added) /\
       (m_bShortScan (this w) = false -> m_bShortScan (this w') = false)) /\
  (fan_flat_bound (this (base_initialized cfg (entry_world w))) = true ->
   fst (CCudaReconstructionAlgorithm2D_initialize cfg (base (this (entry_world w)))) = true ->
   forall b w',
     initialize_cfg mgr cfg w = Ok b w' ->
     m_bShortScan (this w') = getOptionBool (ShortScan cfg) false) /\
  (forall s r f p wd g prm b w',
     initialize_args s r f p wd g prm w = Ok b w' ->
     m_bShortScan (this w') = false).
Proof.
  intros Hlive Hbase.
  assert (Hentry : m_bShortScan (this w) = false ->
                   m_bShortScan (this (entry_world w)) = false).
  { unfold entry_world. destruct (m_bIsInitialized (base (this w))); [|tauto].
    reflexivity. }
  split; [|split].
  - intros Hfan v.
    pose proof (initialize_cfg_ShortScan_irrelevant mgr cfg w v Hlive Hbase Hfan) as Heq.
    split; [exact Heq|]. rewrite Heq. intros b w' Hrun.
    destruct (initialize_cfg_frame mgr cfg w w' b Hlive Hrun)
      as [(_ & _ & ->)|(_ & Hs & Hm & _)].
    + split.
      * exists []. rewrite app_nil_r. unfold base_initialized. cbn.
        split; [apply (proj1 (entry_world_marks_log w)) | intros []].
      * exact Hentry.
    + rewrite Hfan in Hs, Hm. split.
      * eexists. split; [exact Hm|]. rewrite app_nil_r.
        intros [H|[H|[H|[H|[]]]]]; discriminate H.
      * intros H0. rewrite Hs. exact (Hentry H0).
  - intros Hfan Hb b w' Hrun.
    destruct (initialize_cfg_frame mgr cfg w w' b Hlive Hrun)
      as [(Hb' & _)|(_ & Hs & _)]; [congruence|].
    now rewrite Hfan in Hs.
  - intros s r f p wd g prm b w' Hrun.
    exact (proj1 (initialize_args_frame w w' s r f p wd g prm b Hlive Hrun)).
Qed.

Lemma toy_fresh_fan_live : buffer_live toy_fresh_fan.
Proof. intros a H. discriminate H. Defined.

(** At a fresh instance over storage with the flag clear.  Bound to a
    parallel-beam dataset, the outcome with [ShortScan] set is the outcome
    without the field and the flag stays false; bound to a fan-beam flat-detector dataset, the flag
    takes the value of the field. *)
Lemma ShortScan_only_for_fan_flat_at_fresh :
  buffer_live toy_fresh /\
  fan_flat_bound (this (base_initialized (C := toy_C) toy_config
                          (entry_world (C := toy_C) toy_fresh))) = false /\
  initialize_cfg (C := toy_C) toy_mgr (with_ShortScan (Some true) toy_config) toy_fresh
  = initialize_cfg (C := toy_C) toy_mgr toy_config toy_fresh /\
  m_bShortScan (this (world_of (initialize_cfg (C := toy_C) toy_mgr
                                  (with_ShortScan (Some true) toy_config) toy_fresh))) = false /\
  m_bShortScan (this (world_of (initialize_cfg (C := toy_C_fan) toy_mgr
                                  toy_config_shortscan toy_fresh_fan))) = true.
Proof.
  split; [exact toy_fresh_live|]. split; [reflexivity|].
  assert (E : initialize_cfg (C := toy_C) toy_mgr (with_ShortScan (Some true) toy_config) toy_fresh
              = Ok true (world_of (initialize_cfg (C := toy_C) toy_mgr
                                     (with_ShortScan (Some true) toy_config) toy_fresh)))
    by (vm_compute; reflexivity).
  assert (F : initialize_cfg (C := toy_C_fan) toy_mgr toy_config_shortscan toy_fresh_fan
              = Ok true (world_of (initialize_cfg (C := toy_C_fan) toy_mgr
                                     toy_config_shortscan toy_fresh_fan)))
    by (vm_compute; reflexivity).
  split; [|split].
  - exact (proj1 (proj1 (ShortScan_only_for_fan_flat (C := toy_C) toy_mgr toy_config
                           toy_fresh toy_fresh_live (fun _ _ => eq_refl))
                    eq_refl (Some true))).
  - exact (proj2 (proj2 (proj1 (ShortScan_only_for_fan_flat (C := toy_C) toy_mgr toy_config
                                  toy_fresh toy_fresh_live (fun _ _ => eq_refl))
                           eq_refl (Some true)) _ _ E) eq_refl).
  - exact (proj1 (proj2 (ShortScan_only_for_fan_flat (C := toy_C_fan) toy_mgr
                           toy_config_shortscan toy_fresh_fan
                           toy_fresh_fan_live
                           (fun _ _ => eq_refl)))
             eq_refl eq_refl _ _ F).
Defined.

(** C5 (the code departs from the claim).  A freshly constructed
    instance over storage whose short-scan byte is set, initialized
    declaratively on a parallel-beam dataset by a configuration without a
    [ShortScan] field: the constructor has not assigned the flag, the call
    does not consult the field (the option is not marked as consumed) and
    returns true, and the flag is still set, because this path assigns it
    only for a fan-beam flat-detector geometry.  The programmatic entry point
    on the same instance assigns it and leaves it false. *)
Theorem C5_short_scan_flag_left_unassigned :
  m_bShortScan (constructor (C := toy_C) toy_storage_flagged) = true /\
  ShortScan toy_config = None /\
  fan_flat_bound (this (base_initialized (C := toy_C) toy_config
                          (entry_world (C := toy_C) toy_fresh_flagged))) = false /\
  (exists w',
     initialize_cfg (C := toy_C) toy_mgr toy_config toy_fresh_flagged = Ok true w' /\
     marks w' = [NodeParsed "FilterType"; NodeParsed "FilterSinogramId";
                 NodeParsed "FilterParameter"; NodeParsed "FilterD"] /\
     m_bShortScan (this w') = true) /\
  (exists w',
     initialize_args (C := toy_C) (Some sinogram_3x2) (Some volume_2x2)
       FILTER_RAMLAK None 0 (-1) float_minus_one toy_fresh_flagged = Ok true w' /\
     m_bShortScan (this w') = false).
Proof.
  split; [reflexivity|]. split; [reflexivity|]. split; [reflexivity|]. split.
  - exists (world_of (initialize_cfg (C := toy_C) toy_mgr toy_config toy_fresh_flagged)).
    split; [|split]; vm_compute; reflexivity.
  - exists (world_of (initialize_args (C := toy_C) (Some sinogram_3x2) (Some volume_2x2)
                        FILTER_RAMLAK None 0 (-1) float_minus_one toy_fresh_flagged)).
    split; vm_compute; reflexivity.
Qed.

(** ** Re-initialization *)

Lemma entry_world_blank {T : ExternalTypes} {C : Collaborators} (w : World) :
  owned w -> unconfigured_has_no_buffer w ->
  dom (heap (entry_world w)) = ∅ /\
  m_pfFilter (this (entry_world w)) = None /\
  m_bIsInitialized (base (this (entry_world w))) = false.
Proof.
  intros Ho Hu. unfold entry_world.
  destruct (m_bIsInitialized (base (this w))) eqn:E.
  - destruct (cleared_blank w Ho) as (H1 & H2 & H3 & _). tauto.
  - specialize (Hu E). unfold owned in Ho. rewrite Hu in Ho. tauto.
Qed.

Lemma owned_outstanding {T : ExternalTypes} (w : World) :
  owned w -> outstanding w = held w.
Proof.
  unfold owned, outstanding, held.
  destruct (m_pfFilter (this w)) as [a|]; intros ->;
    [apply size_singleton | apply size_empty].
Qed.

(** Each call that returns re-establishes exclusive ownership. *)
Lemma run_call_owned {T : ExternalTypes} {C : Collaborators} (c : InitCall)
    (w w' : World) (b : bool) :
  (forall b0, m_bIsInitialized (initializeFromProjector b0) = m_bIsInitialized b0) ->
  owned w -> unconfigured_has_no_buffer w ->
  run_call c w = Ok b w' ->
  owned w' /\ unconfigured_has_no_buffer w' /\
  (b = true -> call_has_filter c -> m_pfFilter (this w') <> None).
Proof.
  intros Hproj Ho Hu Hrun.
  pose proof (owned_live w Ho) as Hlive.
  destruct (entry_world_blank w Ho Hu) as (Hd & Hp & Hf).
  unfold owned, unconfigured_has_no_buffer.
  destruct c as [mgr cfg | s r f p wd g prm]; cbn [run_call call_has_filter] in *.
  - destruct (initialize_cfg_frame mgr cfg w w' b Hlive Hrun)
      as [(Hb & -> & ->)|(Hb & _ & _ & Hh & Hflag)].
    + unfold base_initialized. cbn. rewrite Hp, Hd.
      split; [reflexivity|]. split; [reflexivity | discriminate].
    + specialize (Hflag Hproj).
      destruct Hh as [(Hid & Hp' & Hh)|(blk & Hid & Hp' & Hh)]; rewrite Hp', Hh.
      * split; [exact Hd|]. split; [reflexivity | intros _ H; contradiction].
      * split; [rewrite dom_insert_L, Hd; set_solver|].
        split; [congruence | intros _ _; discriminate].
  - destruct (initialize_args_frame w w' s r f p wd g prm b Hlive Hrun)
      as (_ & Hflag & [(Hid & Hp' & Hh)|(blk & Hid & Hp' & Hh)]); rewrite Hp', Hh.
    + split; [exact Hd|]. split; [reflexivity | intros _ H; contradiction].
    + split; [rewrite dom_insert_L, Hd; set_solver|].
      split; [congruence | intros _ _; discriminate].
Qed.

Lemma run_calls_owned {T : ExternalTypes} {C : Collaborators} (cs : list InitCall) :
  (forall b0, m_bIsInitialized (initializeFromProjector b0) = m_bIsInitialized b0) ->
  forall (w w' : World) (bs : list bool),
    owned w -> unconfigured_has_no_buffer w ->
    run_calls cs w = Ok bs w' ->
    owned w' /\ unconfigured_has_no_buffer w'.
Proof.
  intros Hproj. induction cs as [|c cs IH]; intros w w' bs Ho Hu Hrun.
  - injection Hrun as <- <-. tauto.
  - cbn [run_calls] in Hrun. unfold bind at 1 in Hrun.
    destruct (run_call c w) as [b w1|? ?] eqn:Ec; [|discriminate].
    destruct (run_call_owned c w w1 b Hproj Ho Hu Ec) as (Ho1 & Hu1 & _).
    unfold bind at 1 in Hrun.
    destruct (run_calls cs w1) as [bs1 w2|? ?] eqn:Ecs; [|discriminate].
    injection Hrun as <- <-. exact (IH w1 w2 bs1 Ho1 Hu1 Ecs).
Qed.

Lemma run_calls_snoc {T : ExternalTypes} {C : Collaborators} (cs : list InitCall) (c : InitCall) :
  forall (w w' : World) (bs : list bool),
    run_calls (cs ++ [c]) w = Ok bs w' ->
    exists bs1 w1 b,
      run_calls cs w = Ok bs1 w1 /\ run_call c w1 = Ok b w' /\ bs = bs1 ++ [b].
Proof.
  induction cs as [|c0 cs IH]; intros w w' bs Hrun.
  - cbn [app run_calls] in Hrun. unfold bind at 1 in Hrun.
    destruct (run_call c w) as [b w1|? ?] eqn:Ec; [|discriminate].
    injection Hrun as <- <-. exists [], w, b. repeat split. exact Ec.
  - cbn [app run_calls] in Hrun. unfold bind at 1 in Hrun. cbn [run_calls].
    unfold bind at 1.
    destruct (run_call c0 w) as [b0 w0|? ?] eqn:Ec0; [|discriminate].
    unfold bind at 1 in Hrun. unfold bind at 1.
    destruct (run_calls (cs ++ [c]) w0) as [bs0 w2|? ?] eqn:Ecs; [|discriminate].
    injection Hrun as <- <-.
    destruct (IH w0 w2 bs0 Ecs) as (bs1 & w1 & b & E1 & E2 & ->).
    rewrite E1. exists (b0 :: bs1), w1, b. repeat split. exact E2.
Qed.

(** A freshly constructed instance on an empty heap owns nothing, and its
    buffer pointer is null. *)
Lemma fresh_world_owned {T : ExternalTypes} {C : Collaborators}
    (storage : CCudaFilteredBackProjectionAlgorithm) :
  owned (fresh_world storage) /\ unconfigured_has_no_buffer (fresh_world storage).
Proof.
  unfold owned, unconfigured_has_no_buffer, fresh_world, constructor. cbn.
  split; [apply dom_empty_L | reflexivity].
Qed.

(** The constructor assigns the buffer pointer, the filter parameter and D;
    the short-scan flag keeps whatever the storage held. *)
Lemma constructor_members {T : ExternalTypes} {C : Collaborators}
    (storage : CCudaFilteredBackProjectionAlgorithm) :
  m_pfFilter (constructor storage) = None /\
  m_fFilterParameter (constructor storage) = float_minus_one /\
  m_fFilterD (constructor storage) = float_one /\
  m_bShortScan (constructor storage) = m_bShortScan storage.
Proof. repeat split. Qed.

Lemma run_call_cleared {T : ExternalTypes} {C : Collaborators} (c : InitCall) (w : World) :
  buffer_live w ->
  m_bIsInitialized (base (this w)) = true ->
  run_call c w = run_call c (cleared w).
Proof.
  intros Hlive Hflag.
  assert (Hlive' : buffer_live (cleared w)) by (intros a Ha; discriminate Ha).
  assert (He : entry_world w = cleared w) by (unfold entry_world; now rewrite Hflag).
  assert (He' : entry_world (cleared w) = cleared w) by reflexivity.
  destruct c as [mgr cfg | s r f p wd g prm]; cbn [run_call].
  - unfold initialize_cfg.
    rewrite (clear_first _ w Hlive), (clear_first _ (cleared w) Hlive').
    now rewrite He, He'.
  - unfold initialize_args.
    rewrite (clear_first _ w Hlive), (clear_first _ (cleared w) Hlive').
    now rewrite He, He'.
Qed.

(** C2.  For a base class whose [initializeFromProjector] leaves the
    initialized flag alone, and an instance that exclusively owns its buffer
    and holds none while unconfigured:
    - if the instance is marked initialized, [clear] returns; after it the
      block the buffer pointer referred to is no longer live, no block is
      outstanding, the pointer is null, the filter parameter is -1, D is 1,
      short-scan is off and the instance is unconfigured; and the outcome of
      either entry point is its outcome on that cleared instance, so the
      release precedes any new allocation;
    - after any number of calls of the two entry points that return, the
      instance again exclusively owns its buffer, the pointer is not
      dangling, and the number of outstanding blocks is one if it holds a
      buffer and zero otherwise;
    - if the last of these calls succeeded and supplied coefficients,
      exactly one block is outstanding. *)
Theorem C2_reinitialization_clears_first {T : ExternalTypes} {C : Collaborators} (w : World) :
  (forall b0, m_bIsInitialized (initializeFromProjector b0) = m_bIsInitialized b0) ->
  owned w -> unconfigured_has_no_buffer w ->
  (m_bIsInitialized (base (this w)) = true ->
   clear w = Ok tt (cleared w) /\
   (forall a, m_pfFilter (this w) = Some a -> heap (cleared w) !! a = None) /\
   outstanding (cleared w) = 0%nat /\
   m_pfFilter (this (cleared w)) = None /\
   m_fFilterParameter (this (cleared w)) = float_minus_one /\
   m_fFilterD (this (cleared w)) = float_one /\
   m_bShortScan (this (cleared w)) = false /\
   m_bIsInitialized (base (this (cleared w))) = false /\
   forall c, run_call c w = run_call c (cleared w)) /\
  (forall cs bs w',
     run_calls cs w = Ok bs w' ->
     owned w' /\ buffer_live w' /\ outstanding w' = held w') /\
  (forall cs c bs b w',
     run_calls (cs ++ [c]) w = Ok (bs ++ [b]) w' ->
     b = true -> call_has_filter c ->
     outstanding w' = 1%nat).
Proof.
  intros Hproj Ho Hu. pose proof (owned_live w Ho) as Hlive.
  split; [|split].
  - intros Hflag.
    destruct (cleared_blank w Ho) as (Hd & Hp & Hf & _ & Hprm & HD & Hss).
    split; [exact (clear_ok w Hlive)|].
    split; [intros a Ha; apply not_elem_of_dom; rewrite Hd; set_solver|].
    split; [unfold outstanding; rewrite Hd; apply size_empty|].
    do 5 (split; [assumption|]).
    intros c. exact (run_call_cleared c w Hlive Hflag).
  - intros cs bs w' Hrun.
    destruct (run_calls_owned cs Hproj w w' bs Ho Hu Hrun) as (Ho' & _).
    split; [exact Ho'|]. split; [exact (owned_live w' Ho') | exact (owned_outstanding w' Ho')].
  - intros cs c bs b w' Hrun Hb Hc.
    destruct (run_calls_snoc cs c w w' _ Hrun) as (bs1 & w1 & b1 & E1 & E2 & Ebs).
    apply app_inj_tail in Ebs as [_ <-].
    destruct (run_calls_owned cs Hproj w w1 bs1 Ho Hu E1) as (Ho1 & Hu1).
    destruct (run_call_owned c w1 w' b Hproj Ho1 Hu1 E2) as (Ho' & _ & Hne).
    rewrite (owned_outstanding w' Ho'). unfold held.
    destruct (m_pfFilter (this w')); [reflexivity|]. now specialize (Hne Hb Hc).
Qed.

Lemma toy_fresh_owned : owned toy_fresh.
Proof. unfold owned. simpl. apply dom_empty_L. Defined.

Lemma toy_fresh_unconfigured : unconfigured_has_no_buffer toy_fresh.
Proof. intros _. reflexivity. Defined.

(** C2 at a fresh instance initialized three times in a row with
    coefficients: the calls return true and one block is outstanding. *)
Lemma C2_reinitialization_witness :
  owned toy_fresh /\ unconfigured_has_no_buffer toy_fresh /\
  run_calls (C := toy_C) toy_three_calls toy_fresh
  = Ok [true; true; true] (world_of (run_calls (C := toy_C) toy_three_calls toy_fresh)) /\
  outstanding (world_of (run_calls (C := toy_C) toy_three_calls toy_fresh)) = 1%nat.
Proof.
  split; [exact toy_fresh_owned|]. split; [exact toy_fresh_unconfigured|].
  assert (E : run_calls (C := toy_C) toy_three_calls toy_fresh
              = Ok [true; true; true]
                  (world_of (run_calls (C := toy_C) toy_three_calls toy_fresh)))
    by (vm_compute; reflexivity).
  split; [exact E|].
  refine (proj2 (proj2 (C2_reinitialization_clears_first (C := toy_C) toy_fresh
                          (fun _ => eq_refl) toy_fresh_owned toy_fresh_unconfigured))
            [CallArgs (Some sinogram_3x2) (Some volume_2x2) FILTER_PROJECTION
               (Some [1; 2; 3]) 3 (-1) float_minus_one;
             CallArgs (Some sinogram_3x2) (Some volume_2x2) FILTER_SINOGRAM
               (Some [4; 5]) 0 (-1) float_minus_one]
            (CallArgs (Some sinogram_3x2) (Some volume_2x2) FILTER_RPROJECTION
               (Some [6; 7; 8]) 2 (-1) float_minus_one)
            [true; true] true _ E eq_refl _).
  discriminate.
Defined.

(** ** Lazy engine binding *)

(** C7.  Lazy engine binding on an instance whose engine handle is not
    null after the base-class step.  If the engine's [setFilter] fails, the
    error "Failed to set filter" is logged and the call stops on the
    assertion: it does not return.  If [setFilter] succeeds and
    [setShortScan] fails, the error "Failed to set short-scan mode" is
    logged and the call returns.  If both succeed the call returns and
    nothing is logged. *)
Theorem C7_engine_binding_failures {T : ExternalTypes} {C : Collaborators}
    (w : World) (pFBP : FBP) :
  m_pAlgo (CCudaReconstructionAlgorithm2D_initCUDAAlgorithm (base (this w))) = Some pFBP ->
  (fst (FBP_setFilter pFBP (m_eFilter (this w)) (filter_contents w)
          (m_iFilterWidth (this w)) (m_fFilterD (this w)) (m_fFilterParameter (this w))) = false ->
   exists w',
     initCUDAAlgorithm w = Crash AssertionFailure w' /\
     log w' = log w ++ [(LOG_ERROR, "CCudaFilteredBackProjectionAlgorithm: Failed to set filter")]) /\
  (fst (FBP_setFilter pFBP (m_eFilter (this w)) (filter_contents w)
          (m_iFilterWidth (this w)) (m_fFilterD (this w)) (m_fFilterParameter (this w))) = true ->
   (fst (FBP_setShortScan
           (snd (FBP_setFilter pFBP (m_eFilter (this w)) (filter_contents w)
                   (m_iFilterWidth (this w)) (m_fFilterD (this w)) (m_fFilterParameter (this w))))
           (m_bShortScan (this w))) = false ->
    exists w',
      initCUDAAlgorithm w = Ok tt w' /\
      log w' = log w ++ [(LOG_ERROR, "CCudaFilteredBackProjectionAlgorithm: Failed to set short-scan mode")]) /\
   (fst (FBP_setShortScan
           (snd (FBP_setFilter pFBP (m_eFilter (this w)) (filter_contents w)
                   (m_iFilterWidth (this w)) (m_fFilterD (this w)) (m_fFilterParameter (this w))))
           (m_bShortScan (this w))) = true ->
    exists w', initCUDAAlgorithm w = Ok tt w' /\ log w' = log w)).
Proof.
  intros Halgo. unfold initCUDAAlgorithm. exec. rewrite Halgo. exec.
  change (filter_contents _) with (filter_contents w).
  split.
  - intros ->. exec. eexists. split; reflexivity.
  - intros ->. exec. split; intros ->; exec; eexists; split; reflexivity.
Qed.

(** C7 at a validated instance: with an engine that refuses the filter
    the call stops on the assertion; with one that refuses only short-scan
    it returns. *)
Lemma C7_engine_binding_failures_witness :
  (exists w',
     initCUDAAlgorithm (C := toy_C_filter_fails) toy_ready_world = Crash AssertionFailure w' /\
     log w' = log toy_ready_world
              ++ [(LOG_ERROR, "CCudaFilteredBackProjectionAlgorithm: Failed to set filter")]) /\
  (exists w',
     initCUDAAlgorithm (C := toy_C_shortscan_fails) toy_ready_world = Ok tt w' /\
     log w' = log toy_ready_world
              ++ [(LOG_ERROR, "CCudaFilteredBackProjectionAlgorithm: Failed to set short-scan mode")]).
Proof.
  split.
  - exact (proj1 (C7_engine_binding_failures (C := toy_C_filter_fails) toy_ready_world tt
                    eq_refl) eq_refl).
  - exact (proj1 (proj2 (C7_engine_binding_failures (C := toy_C_shortscan_fails)
                           toy_ready_world tt eq_refl) eq_refl) eq_refl).
Defined.

(** * Further properties of the source file *)

(** ** The filter catalog *)

(** X1.  Every case variant of a literal that [_convertStringToFilter]
    compares against resolves to the kind the source pairs with that
    literal, and nothing is logged; this includes the literal
    [barlett-hann] as the source spells it. *)
Theorem X1_literals_resolve_in_every_case (name : string) (k : E_FBPFILTER) (s : string) :
  In (name, k) source_literals ->
  case_variant s name = true ->
  _convertStringToFilter s = (k, []).
Proof. exact (convert_source_literal name k s). Qed.

Lemma X1_literals_resolve_witness :
  In ("shepp-logan", FILTER_SHEPPLOGAN) source_literals /\
  case_variant "Shepp-LOGAN" "shepp-logan" = true /\
  _convertStringToFilter "Shepp-LOGAN" = (FILTER_SHEPPLOGAN, []).
Proof.
  assert (Hin : In ("shepp-logan", FILTER_SHEPPLOGAN) source_literals)
    by (right; left; reflexivity).
  split; [exact Hin|]. split; [reflexivity|].
  exact (X1_literals_resolve_in_every_case "shepp-logan" FILTER_SHEPPLOGAN "Shepp-LOGAN"
           Hin eq_refl).
Defined.

(** X2.  A C string that is a case variant of none of the source's
    literals (the empty string, a misspelling, a literal with a trailing
    blank) resolves to [FILTER_NONE], and exactly one error naming the
    string is logged. *)
Theorem X2_unmatched_string_falls_back (s : string) :
  no_nul s = true ->
  matches_catalog source_literals s = false ->
  _convertStringToFilter s = (FILTER_NONE, [convert_failure s]).
Proof. exact (convert_unmatched s). Qed.

Lemma X2_unmatched_string_witness :
  no_nul "" = true /\
  matches_catalog source_literals "" = false /\
  _convertStringToFilter "" = (FILTER_NONE, [convert_failure ""]) /\
  _convertStringToFilter "hann " = (FILTER_NONE, [convert_failure "hann "]).
Proof.
  split; [reflexivity|]. split; [reflexivity|].
  split.
  - exact (X2_unmatched_string_falls_back "" eq_refl eq_refl).
  - exact (X2_unmatched_string_falls_back "hann " eq_refl eq_refl).
Defined.

(** X3.  The result of [_convertStringToFilter] on a C string logs
    nothing exactly when the string is a case variant of one of the
    literals; it never logs more than one record; and it is [FILTER_NONE]
    with nothing logged exactly for the case variants of [none]. *)
Theorem X3_convert_logs_iff_unmatched (s : string) :
  no_nul s = true ->
  (snd (_convertStringToFilter s) = [] <-> matches_catalog source_literals s = true) /\
  (length (snd (_convertStringToFilter s)) <= 1)%nat /\
  (_convertStringToFilter s = (FILTER_NONE, []) <-> case_variant s "none" = true).
Proof.
  intros Hs.
  destruct (matches_catalog source_literals s) eqn:Hm.
  - unfold matches_catalog in Hm. apply existsb_exists in Hm as [[name k] [Hin Hcv]].
    simpl in Hcv. rewrite (convert_source_literal name k s Hin Hcv). simpl.
    split; [tauto|]. split; [lia|].
    split.
    + intros [= ->].
      unfold source_literals in Hin. simpl in Hin.
      repeat (destruct Hin as [Hin|Hin];
              [injection Hin as <-; first [discriminate | exact Hcv]|]).
      contradiction.
    + intros Hn.
      pose proof (convert_source_literal "none" FILTER_NONE s) as H.
      rewrite (convert_source_literal name k s Hin Hcv) in H. apply H; [|exact Hn].
      unfold source_literals. simpl. tauto.
  - rewrite (convert_unmatched s Hs Hm). simpl.
    split; [split; discriminate|]. split; [lia|].
    split; [discriminate|]. intros Hn.
    unfold matches_catalog, source_literals in Hm. simpl in Hm.
    rewrite Hn in Hm. rewrite !orb_true_r in Hm. simpl in Hm.
    repeat (apply orb_false_iff in Hm as [_ Hm]). discriminate.
Qed.

Lemma X3_convert_logs_witness :
  no_nul "NoNe" = true /\
  _convertStringToFilter "NoNe" = (FILTER_NONE, []).
Proof.
  split; [reflexivity|].
  exact (proj2 (proj2 (proj2 (X3_convert_logs_iff_unmatched "NoNe" eq_refl))) eq_refl).
Defined.

(** X4.  [_convertStringToFilter] is insensitive to case as a whole: two
    strings that are case variants of each other resolve to the same kind,
    and either both log nothing or both log an error. *)
Theorem X4_convert_case_insensitive (s t : string) :
  case_variant s t = true ->
  fst (_convertStringToFilter s) = fst (_convertStringToFilter t) /\
  (snd (_convertStringToFilter s) = [] <-> snd (_convertStringToFilter t) = []).
Proof.
  intros Hcv.
  pose proof (stringCompareLowerCase_case_variant s t Hcv) as H.
  unfold _convertStringToFilter. rewrite !H.
  repeat match goal with
         | |- context [if stringCompareLowerCase t ?lit then _ else _] =>
             destruct (stringCompareLowerCase t lit); [simpl; tauto|]
         end.
  simpl. split; [reflexivity|]. split; discriminate.
Qed.

Lemma X4_convert_case_insensitive_witness :
  case_variant "Flat-Top" "fLAT-tOP" = true /\
  fst (_convertStringToFilter "Flat-Top") = fst (_convertStringToFilter "fLAT-tOP").
Proof.
  split; [reflexivity|].
  exact (proj1 (X4_convert_case_insensitive "Flat-Top" "fLAT-tOP" eq_refl)).
Defined.

Lemma strcasecmp_zero_iff (a b : string) :
  strcasecmp a b = 0 <-> c_lower a = c_lower b.
Proof.
  revert b. induction a as [|c a IH]; intros [|d b]; simpl.
  - tauto.
  - pose proof (tolower_zero d) as Hd.
    destruct (Z.eqb_spec (char_code d) 0) as [E|E].
    + split; [reflexivity|]. intros _. apply Hd in E. lia.
    + split; [|discriminate]. intros H. exfalso. apply E, Hd. lia.
  - pose proof (tolower_zero c) as Hc.
    destruct (Z.eqb_spec (char_code c) 0) as [E|E].
    + split; [reflexivity|]. intros _. now apply Hc.
    + split; [|discriminate]. intros H. exfalso. apply E, Hc. exact H.
  - pose proof (tolower_zero c) as Hc. pose proof (tolower_zero d) as Hd.
    destruct (Z.eqb_spec (tolower (char_code c)) (tolower (char_code d))) as [E|E].
    + destruct (Z.eqb_spec (tolower (char_code c)) 0) as [Z0|Z0].
      * assert (char_code c = 0) as -> by now apply Hc.
        assert (char_code d = 0) as -> by (apply Hd; congruence).
        simpl. tauto.
      * destruct (Z.eqb_spec (char_code c) 0) as [E1|E1]; [exfalso; apply Z0, Hc, E1|].
        destruct (Z.eqb_spec (char_code d) 0) as [E2|E2];
          [exfalso; apply Z0; rewrite E; apply Hd, E2|].
        rewrite IH, E. split; [now intros -> | now intros [= ->]].
    + split; [lia|]. intros H. exfalso.
      destruct (Z.eqb_spec (char_code c) 0) as [E1|E1];
        destruct (Z.eqb_spec (char_code d) 0) as [E2|E2];
        try discriminate.
      * apply E. rewrite E1, E2. reflexivity.
      * injection H as H _. contradiction.
Qed.

(** X5.  [stringCompareLowerCase] is an equivalence on strings:
    reflexive, symmetric and transitive. *)
Theorem X5_stringCompareLowerCase_equivalence :
  (forall a, stringCompareLowerCase a a = true) /\
  (forall a b, stringCompareLowerCase a b = stringCompareLowerCase b a) /\
  (forall a b c,
     stringCompareLowerCase a b = true ->
     stringCompareLowerCase b c = true ->
     stringCompareLowerCase a c = true).
Proof.
  unfold stringCompareLowerCase. split; [|split].
  - intros a. apply Z.eqb_eq, strcasecmp_zero_iff. reflexivity.
  - intros a b.
    destruct (Z.eqb_spec (strcasecmp a b) 0) as [E|E];
      destruct (Z.eqb_spec (strcasecmp b a) 0) as [F|F]; try reflexivity; exfalso.
    + apply F, strcasecmp_zero_iff. symmetry. now apply strcasecmp_zero_iff.
    + apply E, strcasecmp_zero_iff. symmetry. now apply strcasecmp_zero_iff.
  - intros a b c Hab Hbc. apply Z.eqb_eq, strcasecmp_zero_iff.
    apply Z.eqb_eq, strcasecmp_zero_iff in Hab.
    apply Z.eqb_eq, strcasecmp_zero_iff in Hbc. congruence.
Qed.

Lemma X5_stringCompareLowerCase_witness :
  stringCompareLowerCase "HANN" "Hann" = true /\
  stringCompareLowerCase "Hann" "hann" = true /\
  stringCompareLowerCase "HANN" "hann" = true.
Proof.
  split; [reflexivity|]. split; [reflexivity|].
  exact (proj2 (proj2 X5_stringCompareLowerCase_equivalence) "HANN" "Hann" "hann"
           eq_refl eq_refl).
Defined.

(** ** The validator *)

(** X6.  [check] changes nothing but the initialized flag and the log:
    whatever it returns, the heap, the consumed marks and every member this
    class adds are as before.  When it returns true, a second [check] returns
    true and changes nothing; when it returns false, the instance itself is
    unchanged. *)
Theorem X6_check_frame_and_idempotence {T : ExternalTypes} (w w' : World) (b : bool) :
  check w = Ok b w' ->
  heap w' = heap w /\ marks w' = marks w /\
  m_eFilter (this w') = m_eFilter (this w) /\
  m_pfFilter (this w') = m_pfFilter (this w) /\
  m_iFilterWidth (this w') = m_iFilterWidth (this w) /\
  m_fFilterParameter (this w') = m_fFilterParameter (this w) /\
  m_fFilterD (this w') = m_fFilterD (this w) /\
  m_bShortScan (this w') = m_bShortScan (this w) /\
  (b = true -> check w' = Ok true w') /\
  (b = false -> this w' = this w).
Proof.
  intros Hrun.
  destruct (check_cases w) as [[H E]|[H [msg E]]]; rewrite E in Hrun;
    injection Hrun as <- <-; do 8 (split; [reflexivity|]).
  - split; [|discriminate]. intros _.
    destruct (check_cases (set_this (set_base (set_m_bIsInitialized true (base (this w)))
                                       (this w)) w)) as [[H' E']|[H' _]].
    + rewrite E'. reflexivity.
    + exfalso. apply H'. exact H.
  - split; [discriminate | reflexivity].
Qed.

Lemma X6_check_witness :
  check toy_valid_world = Ok true (world_of (check toy_valid_world)) /\
  check (world_of (check toy_valid_world)) = Ok true (world_of (check toy_valid_world)).
Proof.
  assert (E : check toy_valid_world = Ok true (world_of (check toy_valid_world)))
    by (vm_compute; reflexivity).
  split; [exact E|].
  exact (proj1 (proj2 (proj2 (proj2 (proj2 (proj2 (proj2 (proj2 (proj2
           (X6_check_frame_and_idempotence toy_valid_world _ true E))))))))) eq_refl).
Defined.

(** X7.  The configuration error [check] reports is that of the first
    violated test in source order: a null projection dataset, then a null
    reconstruction dataset, then a null buffer for a custom-data kind (before
    either dataset's initialization is looked at), then the projection
    dataset not initialized, the reconstruction dataset not initialized, the
    device index, the supersampling factor. *)
Theorem X7_check_reports_first_violation {T : ExternalTypes} (w : World) :
  let failing msg := check w = Ok false (set_log (log w ++ [config_error "FBP_CUDA" msg]) w) in
  (m_pSinogram (base (this w)) = None -> failing "Invalid Projection Data Object.") /\
  (forall s,
     m_pSinogram (base (this w)) = Some s ->
     (m_pReconstruction (base (this w)) = None ->
      failing "Invalid Reconstruction Data Object.") /\
     (forall r,
        m_pReconstruction (base (this w)) = Some r ->
        (custom_data_kind (m_eFilter (this w)) -> m_pfFilter (this w) = None ->
         failing "Invalid filter pointer.") /\
        ((custom_data_kind (m_eFilter (this w)) -> m_pfFilter (this w) <> None) ->
         (proj_isInitialized s = false ->
          failing "Projection Data Object Not Initialized.") /\
         (proj_isInitialized s = true ->
          (vol_isInitialized r = false ->
           failing "Reconstruction Data Object Not Initialized.") /\
          (vol_isInitialized r = true ->
           (m_iGPUIndex (base (this w)) < -1 ->
            failing "GPUIndex must be a non-negative integer or -1.") /\
           (-1 <= m_iGPUIndex (base (this w)) ->
            m_iPixelSuperSampling (base (this w)) < 0 ->
            failing "PixelSuperSampling must be a non-negative integer.")))))).
Proof.
  pose proof (custom_test_iff (m_eFilter (this w))) as Hct.
  cbv zeta. unfold check, bind, get_this, ASTRA_CONFIG_CHECK.
  split; [intros ->; reflexivity|].
  intros s ->. split; [intros ->; reflexivity|].
  intros r ->. cbn [non_null].
  split.
  - intros Hc ->. apply Hct in Hc. rewrite Hc. reflexivity.
  - intros Hbuf.
    assert (Hskip : forall rest : M bool,
              (if E_FBPFILTER_eqb (m_eFilter (this w)) FILTER_PROJECTION
                  || E_FBPFILTER_eqb (m_eFilter (this w)) FILTER_SINOGRAM
                  || E_FBPFILTER_eqb (m_eFilter (this w)) FILTER_RPROJECTION
                  || E_FBPFILTER_eqb (m_eFilter (this w)) FILTER_RSINOGRAM
               then if non_null (m_pfFilter (this w)) then rest
                    else fun w0 : World =>
                           Ok false (set_log (log w0 ++ [config_error "FBP_CUDA" "Invalid filter pointer."]) w0)
               else rest) = rest).
    { intros rest.
      destruct (E_FBPFILTER_eqb (m_eFilter (this w)) FILTER_PROJECTION
                || E_FBPFILTER_eqb (m_eFilter (this w)) FILTER_SINOGRAM
                || E_FBPFILTER_eqb (m_eFilter (this w)) FILTER_RPROJECTION
                || E_FBPFILTER_eqb (m_eFilter (this w)) FILTER_RSINOGRAM) eqn:Ec;
        [|reflexivity].
      apply custom_test_iff in Ec. specialize (Hbuf Ec).
      destruct (m_pfFilter (this w)); [reflexivity | contradiction]. }
    rewrite Hskip. unfold deref, ret. cbn.
    split; [intros ->; reflexivity|]. intros ->.
    split; [intros ->; reflexivity|]. intros ->.
    split.
    + intros Hg. destruct (Z.leb_spec (-1) (m_iGPUIndex (base (this w)))); [lia|].
      reflexivity.
    + intros Hg Hp. destruct (Z.leb_spec (-1) (m_iGPUIndex (base (this w)))); [|lia].
      destruct (Z.leb_spec 0 (m_iPixelSuperSampling (base (this w)))); [lia|].
      reflexivity.
Qed.

Lemma X7_check_reports_witness :
  m_pSinogram (base (this toy_unbound_world)) = None /\
  check toy_unbound_world
  = Ok false (set_log (log toy_unbound_world
                       ++ [config_error "FBP_CUDA" "Invalid Projection Data Object."])
                toy_unbound_world).
Proof.
  split; [reflexivity|].
  exact (proj1 (X7_check_reports_first_violation toy_unbound_world) eq_refl).
Defined.

(** ** Destruction *)

(** X8.  On an instance that exclusively owns its buffer the destructor
    returns, leaves no block outstanding and nulls the pointer; run a second
    time it releases nothing and changes nothing, so the buffer is released
    exactly once. *)
Theorem X8_destructor_releases_once {T : ExternalTypes} (w : World) :
  owned w ->
  exists w',
    destructor w = Ok tt w' /\
    outstanding w' = 0%nat /\
    m_pfFilter (this w') = None /\
    log w' = log w /\
    destructor w' = Ok tt w'.
Proof.
  intros Ho. pose proof (owned_live w Ho) as Hlive.
  unfold owned in Ho. unfold destructor, delete_array, outstanding. exec.
  destruct (m_pfFilter (this w)) as [a|] eqn:E.
  - destruct (Hlive a E) as [blk Hblk]. rewrite Hblk. exec.
    eexists. split; [reflexivity|]. cbn.
    split; [rewrite dom_delete_L, Ho, difference_diag_L; apply size_empty|].
    repeat split.
  - exec. eexists. split; [reflexivity|]. cbn.
    split; [rewrite Ho; apply size_empty|].
    split; [reflexivity|]. split; [reflexivity|].
    destruct w as [i h l m]. destruct i. cbn in *. subst. reflexivity.
Qed.

Lemma toy_holding_owned : owned toy_holding_world.
Proof. unfold owned. simpl. apply dom_singleton_L. Defined.

Lemma X8_destructor_witness :
  owned toy_holding_world /\
  outstanding toy_holding_world = 1%nat /\
  exists w',
    destructor toy_holding_world = Ok tt w' /\
    outstanding w' = 0%nat /\
    m_pfFilter (this w') = None /\
    log w' = log toy_holding_world /\
    destructor w' = Ok tt w'.
Proof.
  split; [exact toy_holding_owned|].
  split; [unfold outstanding; simpl; rewrite dom_singleton_L; apply size_singleton|].
  exact (X8_destructor_releases_once toy_holding_world toy_holding_owned).
Defined.

(** ** The programmatic entry point *)

Lemma entry_world_unconfigured {T : ExternalTypes} {C : Collaborators} (w : World) :
  m_bIsInitialized (base (this w)) = false -> entry_world w = w.
Proof. unfold entry_world. now intros ->. Qed.

(** Whenever the programmatic entry point returns, its result is that of
    [check] on the world holding the assigned members, over a heap with at
    most one new block. *)
Lemma initialize_args_run {T : ExternalTypes} {C : Collaborators} (w w' : World)
    s r f p wd g prm (b : bool) :
  buffer_live w ->
  initialize_args s r f p wd g prm w = Ok b w' ->
  exists ptr h,
    check (args_world (entry_world w) s r f ptr wd g prm h) = Ok b w' /\
    ((p = None /\ ptr = None /\ h = heap (entry_world w)) \/
     (exists blk, p <> None /\
        ptr = Some (fresh (dom (heap (entry_world w)))) /\
        h = <[fresh (dom (heap (entry_world w))) := blk]> (heap (entry_world w)))).
Proof.
  intros Hlive. unfold initialize_args. rewrite (clear_first _ w Hlive).
  generalize (entry_world w) as w1. intros w1.
  destruct p as [raw|]; exec.
  - assert (Hcopy : forall (n : Z),
              match
                match new_float_array n
                        (set_this
                           (set_m_bShortScan false
                              (set_m_iFilterWidth wd
                                 (set_m_eFilter f
                                    (set_base
                                       (set_m_bAlgoInit false
                                          (set_m_pAlgo (Some FBP_new)
                                             (set_m_bIsInitialized true
                                                (set_m_iGPUIndex g
                                                   (set_m_pReconstruction r
                                                      (set_m_pSinogram s (base (this w1))))))))
                                       (this w1))))) w1) with
                | Ok a w3 =>
                    memcpy (Some a) raw (size_t_mul (to_size_t n) sizeof_float)
                      (set_this (set_m_pfFilter (Some a) (this w3)) w3)
                | Crash f' w3 => Crash f' w3
                end
              with
              | Ok _ w5 => check (set_this (set_m_fFilterParameter prm (this w5)) w5)
              | Crash f' w5 => Crash f' w5
              end = Ok b w' ->
              exists blk,
                check (args_world w1 s r f (Some (fresh (dom (heap w1)))) wd g prm
                         (<[fresh (dom (heap w1)) := blk]> (heap w1))) = Ok b w').
    { intros n. unfold new_float_array.
      destruct (n <? 0); [discriminate|]. exec.
      unfold memcpy. exec. rewrite lookup_insert_eq.
      destruct (_ && _); [|discriminate]. exec. rewrite insert_insert_eq.
      intros Hc. eexists. exact Hc. }
    destruct (negb (E_FBPFILTER_eqb f FILTER_SINOGRAM)
              && negb (E_FBPFILTER_eqb f FILTER_RSINOGRAM)).
    + intros Hc. apply Hcopy in Hc. destruct Hc as [blk Hc].
      eexists _, _. split; [exact Hc|]. right. exists blk.
      split; [discriminate|]. split; reflexivity.
    + destruct s as [sino|]; exec; [|discriminate].
      intros Hc. apply Hcopy in Hc. destruct Hc as [blk Hc].
      eexists _, _. split; [exact Hc|]. right. exists blk.
      split; [discriminate|]. split; reflexivity.
  - intros Hc. exists None, (heap w1). split; [exact Hc|]. left. repeat split.
Qed.

(** X9.  Programmatic initialization of an instance that is not marked
    initialized, whenever it returns: the datasets, the device index, the
    kind, the width and the filter parameter are the arguments, a new engine
    handle is held and is not yet bound; the D factor and the supersampling
    factor are never assigned on this path and keep the values they had. *)
Theorem X9_programmatic_stores_arguments {T : ExternalTypes} {C : Collaborators}
    (w w' : World) s r f p wd g prm (b : bool) :
  buffer_live w ->
  m_bIsInitialized (base (this w)) = false ->
  initialize_args s r f p wd g prm w = Ok b w' ->
  m_pSinogram (base (this w')) = s /\
  m_pReconstruction (base (this w')) = r /\
  m_iGPUIndex (base (this w')) = g /\
  m_eFilter (this w') = f /\
  m_iFilterWidth (this w') = wd /\
  m_fFilterParameter (this w') = prm /\
  m_pAlgo (base (this w')) = Some FBP_new /\
  m_bAlgoInit (base (this w')) = false /\
  m_fFilterD (this w') = m_fFilterD (this w) /\
  m_iPixelSuperSampling (base (this w')) = m_iPixelSuperSampling (base (this w)).
Proof.
  intros Hlive Hflag Hrun.
  destruct (initialize_args_run w w' s r f p wd g prm b Hlive Hrun) as (ptr & h & Hc & _).
  rewrite (entry_world_unconfigured w Hflag) in Hc.
  destruct (check_cases (args_world w s r f ptr wd g prm h)) as [[_ E]|[_ [msg E]]];
    rewrite E in Hc; injection Hc as <- <-; repeat split.
Qed.

Lemma X9_programmatic_stores_witness :
  buffer_live toy_fresh /\
  m_bIsInitialized (base (this toy_fresh)) = false /\
  m_iGPUIndex (base (this (world_of
     (initialize_args (C := toy_C) (Some sinogram_3x2) (Some volume_2x2)
        FILTER_HANN None 0 3 float_one toy_fresh)))) = 3 /\
  m_fFilterD (this (world_of
     (initialize_args (C := toy_C) (Some sinogram_3x2) (Some volume_2x2)
        FILTER_HANN None 0 3 float_one toy_fresh))) = float_one.
Proof.
  split; [exact toy_fresh_live|]. split; [reflexivity|].
  assert (E : initialize_args (C := toy_C) (Some sinogram_3x2) (Some volume_2x2)
                FILTER_HANN None 0 3 float_one toy_fresh
              = Ok true (world_of (initialize_args (C := toy_C) (Some sinogram_3x2)
                                     (Some volume_2x2) FILTER_HANN None 0 3 float_one toy_fresh)))
    by (vm_compute; reflexivity).
  pose proof (X9_programmatic_stores_arguments (C := toy_C) toy_fresh _
                (Some sinogram_3x2) (Some volume_2x2) FILTER_HANN None 0 3 float_one true
                toy_fresh_live eq_refl E) as H.
  split; [exact (proj1 (proj2 (proj2 H)))|].
  exact (proj1 (proj2 (proj2 (proj2 (proj2 (proj2 (proj2 (proj2 (proj2 H))))))))).
Defined.

(** X10.  Programmatic initialization without a coefficient array, on an
    instance that is not marked initialized, never faults, and it returns
    true exactly when both datasets are given and initialized, the kind is
    not a custom-data kind, the device index is at least -1 and the
    supersampling factor the instance already holds is at least 0.  In
    particular a custom-data kind without an array always returns false. *)
Theorem X10_programmatic_without_array {T : ExternalTypes} {C : Collaborators}
    (w : World) s r f wd g prm :
  buffer_live w ->
  m_bIsInitialized (base (this w)) = false ->
  exists b w',
    initialize_args s r f None wd g prm w = Ok b w' /\
    (b = true <->
     (exists s0, s = Some s0 /\ proj_isInitialized s0 = true) /\
     (exists r0, r = Some r0 /\ vol_isInitialized r0 = true) /\
     ~ custom_data_kind f /\
     -1 <= g /\
     0 <= m_iPixelSuperSampling (base (this w))) /\
    (custom_data_kind f -> b = false).
Proof.
  intros Hlive Hflag.
  rewrite (initialize_args_no_filter w s r f wd g prm Hlive).
  rewrite (entry_world_unconfigured w Hflag).
  assert (Hpre : check_preconditions (this (args_world w s r f None wd g prm (heap w)))
                 <-> (exists s0, s = Some s0 /\ proj_isInitialized s0 = true) /\
                     (exists r0, r = Some r0 /\ vol_isInitialized r0 = true) /\
                     ~ custom_data_kind f /\ -1 <= g /\
                     0 <= m_iPixelSuperSampling (base (this w))).
  { unfold check_preconditions. cbn. split.
    - intros (H1 & H2 & H3 & H4 & H5).
      split; [exact H1|]. split; [exact H2|]. split; [|tauto].
      intros Hc. now apply (H3 Hc).
    - intros (H1 & H2 & H3 & H4 & H5).
      split; [exact H1|]. split; [exact H2|]. split; [|tauto].
      intros Hc. contradiction. }
  destruct (check_cases (args_world w s r f None wd g prm (heap w)))
    as [[H E]|[H [msg E]]]; rewrite E; eexists _, _; (split; [reflexivity|]).
  - split; [split; [intros _; now apply Hpre | reflexivity]|].
    intros Hc. apply Hpre in H. destruct H as (_ & _ & Hn & _). contradiction.
  - split; [|reflexivity]. split; [discriminate|].
    intros Hp. exfalso. apply H, Hpre, Hp.
Qed.

Lemma X10_programmatic_without_array_witness :
  buffer_live toy_fresh /\
  m_bIsInitialized (base (this toy_fresh)) = false /\
  exists b w',
    initialize_args (C := toy_C) (Some sinogram_3x2) (Some volume_2x2)
      FILTER_RSINOGRAM None 0 (-1) float_minus_one toy_fresh = Ok b w' /\
    b = false.
Proof.
  split; [exact toy_fresh_live|]. split; [reflexivity|].
  destruct (X10_programmatic_without_array (C := toy_C) toy_fresh
              (Some sinogram_3x2) (Some volume_2x2) FILTER_RSINOGRAM 0 (-1) float_minus_one
              toy_fresh_live eq_refl) as (b & w' & E & _ & Hc).
  exists b, w'. split; [exact E|]. apply Hc. constructor.
Defined.

(** X11.  Programmatic initialization with a coefficient array faults
    before [check] can report anything in two cases: with a per-angle kind
    and a null projection dataset the dataset is dereferenced for its angle
    count; with any other kind and a negative width the allocation of the
    buffer throws, and the instance is left marked initialized.  In both
    cases nothing has been logged. *)
Theorem X11_programmatic_faults_before_check {T : ExternalTypes} {C : Collaborators}
    (w : World) r f raw wd g prm :
  buffer_live w ->
  (per_angle_kind f ->
   exists w',
     initialize_args None r f (Some raw) wd g prm w = Crash NullDereference w' /\
     log w' = log w) /\
  (forall s,
     ~ per_angle_kind f -> wd < 0 ->
     exists w',
       initialize_args s r f (Some raw) wd g prm w = Crash BadArrayLength w' /\
       log w' = log w /\ m_bIsInitialized (base (this w')) = true).
Proof.
  intros Hlive.
  pose proof (proj2 (entry_world_marks_log w)) as Hlog. revert Hlog.
  unfold initialize_args. split.
  - intros Hk. apply per_angle_test in Hk.
    rewrite (clear_first _ w Hlive). generalize dependent (entry_world w).
    intros w1 Hlog. exec. rewrite Hk. exec.
    eexists. split; [reflexivity | exact Hlog].
  - intros s Hk Hwd.
    assert (Ht : negb (E_FBPFILTER_eqb f FILTER_SINOGRAM)
                 && negb (E_FBPFILTER_eqb f FILTER_RSINOGRAM) = true).
    { destruct (negb (E_FBPFILTER_eqb f FILTER_SINOGRAM)
                && negb (E_FBPFILTER_eqb f FILTER_RSINOGRAM)) eqn:Et; [reflexivity|].
      apply per_angle_test in Et. contradiction. }
    rewrite (clear_first _ w Hlive). generalize dependent (entry_world w).
    intros w1 Hlog. exec. rewrite Ht. exec. unfold new_float_array.
    destruct (Z.ltb_spec wd 0); [|lia]. exec.
    eexists. split; [reflexivity|]. split; [exact Hlog | reflexivity].
Qed.

Lemma X11_programmatic_faults_witness :
  buffer_live toy_fresh /\
  (exists w',
     initialize_args (C := toy_C) None (Some volume_2x2) FILTER_SINOGRAM (Some [1; 2]) 2
       (-1) float_minus_one toy_fresh = Crash NullDereference w' /\
     log w' = log toy_fresh) /\
  (exists w',
     initialize_args (C := toy_C) (Some sinogram_3x2) (Some volume_2x2) FILTER_PROJECTION
       (Some [1; 2]) (-1) (-1) float_minus_one toy_fresh = Crash BadArrayLength w' /\
     log w' = log toy_fresh /\ m_bIsInitialized (base (this w')) = true).
Proof.
  split; [exact toy_fresh_live|]. split.
  - apply (proj1 (X11_programmatic_faults_before_check (C := toy_C) toy_fresh
                    (Some volume_2x2) FILTER_SINOGRAM [1; 2] 2 (-1) float_minus_one
                    toy_fresh_live)).
    left. reflexivity.
  - apply (proj2 (X11_programmatic_faults_before_check (C := toy_C) toy_fresh
                    (Some volume_2x2) FILTER_PROJECTION [1; 2] (-1) (-1) float_minus_one
                    toy_fresh_live) (Some sinogram_3x2)).
    + intros [H|H]; discriminate H.
    + lia.
Defined.

(** ** The declarative entry point *)

(** Whenever the declarative entry point returns after a successful
    base-class setup, the "filter" part has returned and the result is that
    of the tail. *)
Lemma initialize_cfg_run {T : ExternalTypes} {C : Collaborators}
    (mgr : gmap Z CFloat32Data2D) (cfg : Config) (w w' : World) (b : bool) :
  buffer_live w ->
  fst (CCudaReconstructionAlgorithm2D_initialize cfg (base (this (entry_world w)))) = true ->
  initialize_cfg mgr cfg w = Ok b w' ->
  exists w3,
    cfg_filter_data mgr cfg (after_filter_type cfg (base_initialized cfg (entry_world w)))
    = Ok tt w3 /\
    cfg_tail cfg (set_marks (marks w3 ++ [NodeParsed "FilterSinogramId"]) w3) = Ok b w'.
Proof.
  intros Hlive Hb Hrun. rewrite (initialize_cfg_steps mgr cfg w Hlive Hb) in Hrun.
  unfold bind at 1 in Hrun.
  destruct (cfg_filter_data mgr cfg _) as [[] w3|? ?] eqn:Ed; [|discriminate].
  exists w3. split; [reflexivity|]. exact Hrun.
Qed.

(** What the tail assigns: the filter parameter and D from their fields or
    defaults, and a new engine handle that is not yet bound.  It returns true
    only if a custom-data kind comes with a buffer. *)
Lemma cfg_tail_values {T : ExternalTypes} {C : Collaborators} (cfg : Config)
    (w w' : World) (b : bool) :
  cfg_tail cfg w = Ok b w' ->
  m_fFilterParameter (this w') = field_or (FilterParameter cfg) float_minus_one /\
  m_fFilterD (this w') = field_or (FilterD cfg) float_one /\
  m_pAlgo (base (this w')) = Some FBP_new /\
  m_bAlgoInit (base (this w')) = false /\
  (b = true -> custom_data_kind (m_eFilter (this w)) -> m_pfFilter (this w) <> None).
Proof.
  unfold cfg_tail, field_or.
  destruct (FilterParameter cfg), (FilterD cfg);
    exec;
    (destruct (m_pSinogram (base (this w))) as [sino|];
     [destruct (dynamic_cast_FanFlat (getGeometry sino)) | ]);
    exec;
    match goal with
    | |- check ?w1 = _ -> _ =>
        destruct (check_cases w1) as [[(_ & _ & Hc & _) E]|[_ [msg E]]];
        rewrite E; intros [= <- <-]; cbn;
        (split; [reflexivity|]); (split; [reflexivity|]);
        (split; [reflexivity|]); (split; [reflexivity|]);
        first [ intros _; exact Hc | discriminate ]
    end.
Qed.

(** X12.  Declarative initialization, whenever it returns after a
    successful base-class setup: the kind is the one resolved from
    [FilterType], Ram-Lak when the field is absent; the filter parameter is
    the field [FilterParameter], -1 when absent; D is the field [FilterD], 1
    when absent; a new engine handle is held and is not yet bound; and the
    four nodes FilterType, FilterSinogramId, FilterParameter and FilterD have
    been marked as consumed, in this order, whether or not they are
    present. *)
Theorem X12_declarative_fields_and_defaults {T : ExternalTypes} {C : Collaborators}
    (mgr : gmap Z CFloat32Data2D) (cfg : Config) (w w' : World) (b : bool) :
  buffer_live w ->
  fst (CCudaReconstructionAlgorithm2D_initialize cfg (base (this (entry_world w)))) = true ->
  initialize_cfg mgr cfg w = Ok b w' ->
  m_eFilter (this w') = configured_kind cfg /\
  m_fFilterParameter (this w') = field_or (FilterParameter cfg) float_minus_one /\
  m_fFilterD (this w') = field_or (FilterD cfg) float_one /\
  m_pAlgo (base (this w')) = Some FBP_new /\
  m_bAlgoInit (base (this w')) = false /\
  exists rest,
    marks w' = marks w ++ [NodeParsed "FilterType"; NodeParsed "FilterSinogramId";
                           NodeParsed "FilterParameter"; NodeParsed "FilterD"] ++ rest.
Proof.
  intros Hlive Hb Hrun.
  destruct (initialize_cfg_run mgr cfg w w' b Hlive Hb Hrun) as (w3 & Ed & Et).
  apply cfg_filter_data_frame in Ed. destruct Ed as (_ & De & _).
  destruct (cfg_tail_values cfg _ w' b Et) as (Hp & HD & Ha & Hi & _).
  destruct (cfg_tail_spec cfg (set_marks (marks w3 ++ [NodeParsed "FilterSinogramId"]) w3))
    as (b' & w'' & E & _ & _ & _ & Te & _).
  rewrite E in Et. injection Et as -> ->.
  split.
  { rewrite Te. cbn. rewrite De. unfold after_filter_type, configured_kind.
    destruct (FilterType cfg); reflexivity. }
  do 4 (split; [assumption|]).
  destruct (initialize_cfg_frame mgr cfg w w' b Hlive Hrun)
    as [(Hb' & _)|(_ & _ & Hm & _)]; [congruence|].
  eexists. exact Hm.
Qed.

Lemma X12_declarative_fields_witness :
  buffer_live toy_fresh /\
  m_eFilter (this (world_of (initialize_cfg (C := toy_C) toy_mgr toy_config_full toy_fresh)))
  = FILTER_KAISER /\
  m_fFilterParameter (this (world_of (initialize_cfg (C := toy_C) toy_mgr toy_config_full
                                        toy_fresh))) = 7 /\
  m_fFilterD (this (world_of (initialize_cfg (C := toy_C) toy_mgr toy_config toy_fresh)))
  = float_one.
Proof.
  split; [exact toy_fresh_live|].
  assert (E : initialize_cfg (C := toy_C) toy_mgr toy_config_full toy_fresh
              = Ok true (world_of (initialize_cfg (C := toy_C) toy_mgr toy_config_full
                                     toy_fresh))) by (vm_compute; reflexivity).
  assert (F : initialize_cfg (C := toy_C) toy_mgr toy_config toy_fresh
              = Ok true (world_of (initialize_cfg (C := toy_C) toy_mgr toy_config toy_fresh)))
    by (vm_compute; reflexivity).
  pose proof (X12_declarative_fields_and_defaults (C := toy_C) toy_mgr toy_config_full
                toy_fresh _ true toy_fresh_live eq_refl E) as H.
  pose proof (X12_declarative_fields_and_defaults (C := toy_C) toy_mgr toy_config
                toy_fresh _ true toy_fresh_live eq_refl F) as G.
  split; [exact (proj1 H)|]. split; [exact (proj1 (proj2 H))|].
  exact (proj1 (proj2 (proj2 G))).
Defined.

(** X13.  Declarative initialization of an instance that is not marked
    initialized, when the base-class setup fails: the call returns false at
    once; no field is marked as consumed, nothing is logged, nothing is
    allocated, no member this class adds is assigned, and the instance is
    not marked initialized. *)
Theorem X13_declarative_base_failure {T : ExternalTypes} {C : Collaborators}
    (mgr : gmap Z CFloat32Data2D) (cfg : Config) (w : World) :
  buffer_live w ->
  m_bIsInitialized (base (this w)) = false ->
  fst (CCudaReconstructionAlgorithm2D_initialize cfg (base (this w))) = false ->
  exists w',
    initialize_cfg mgr cfg w = Ok false w' /\
    marks w' = marks w /\ log w' = log w /\ heap w' = heap w /\
    m_eFilter (this w') = m_eFilter (this w) /\
    m_pfFilter (this w') = m_pfFilter (this w) /\
    m_iFilterWidth (this w') = m_iFilterWidth (this w) /\
    m_fFilterParameter (this w') = m_fFilterParameter (this w) /\
    m_fFilterD (this w') = m_fFilterD (this w) /\
    m_bShortScan (this w') = m_bShortScan (this w) /\
    m_bIsInitialized (base (this w')) = false.
Proof.
  intros Hlive Hflag Hb.
  pose proof (entry_world_unconfigured w Hflag) as He.
  rewrite (initialize_cfg_base_fails mgr cfg w Hlive) by (now rewrite He).
  rewrite He. eexists. split; [reflexivity|].
  unfold base_initialized. cbn. rewrite Hb. repeat split.
Qed.

Lemma X13_declarative_base_failure_witness :
  buffer_live toy_fresh /\
  exists w',
    initialize_cfg (C := toy_C_base_fails) toy_mgr (toy_config_filter 7) toy_fresh
    = Ok false w' /\
    marks w' = marks toy_fresh /\ heap w' = heap toy_fresh /\
    m_pfFilter (this w') = None.
Proof.
  split; [exact toy_fresh_live|].
  destruct (X13_declarative_base_failure (C := toy_C_base_fails) toy_mgr
              (toy_config_filter 7) toy_fresh toy_fresh_live eq_refl eq_refl)
    as (w' & E & Hm & _ & Hh & _ & Hp & _).
  exists w'. split; [exact E|]. split; [exact Hm|]. split; [exact Hh | exact Hp].
Defined.

(** X14.  Declarative initialization with a [FilterType] that resolves
    to a custom-data kind and without [FilterSinogramId] never succeeds: it
    does not fault, and it returns false. *)
Theorem X14_declarative_custom_kind_needs_dataset {T : ExternalTypes} {C : Collaborators}
    (mgr : gmap Z CFloat32Data2D) (cfg : Config) (w : World) :
  buffer_live w ->
  custom_data_kind (configured_kind cfg) ->
  FilterSinogramId cfg = None ->
  exists w', initialize_cfg mgr cfg w = Ok false w'.
Proof.
  intros Hlive Hk Hid.
  destruct (fst (CCudaReconstructionAlgorithm2D_initialize cfg (base (this (entry_world w)))))
    eqn:Hb.
  - rewrite (initialize_cfg_steps mgr cfg w Hlive Hb).
    unfold bind at 1. rewrite (cfg_filter_data_absent mgr cfg _ Hid).
    unfold bind at 1. unfold markNodeParsed at 1.
    match goal with
    | |- context [cfg_tail cfg ?w4] =>
        destruct (cfg_tail_spec cfg w4) as (b & w' & E & _);
        pose proof (cfg_tail_values cfg w4 w' b E) as (_ & _ & _ & _ & Hc)
    end.
    rewrite E. exists w'. destruct b; [|reflexivity].
    exfalso. apply (Hc eq_refl); [|reflexivity].
    cbn. unfold after_filter_type, configured_kind in *.
    destruct (FilterType cfg); exact Hk.
  - rewrite (initialize_cfg_base_fails mgr cfg w Hlive Hb). eauto.
Qed.

Lemma X14_declarative_custom_kind_witness :
  buffer_live toy_fresh /\
  custom_data_kind (configured_kind toy_config_projection_no_data) /\
  FilterSinogramId toy_config_projection_no_data = None /\
  exists w',
    initialize_cfg (C := toy_C) toy_mgr toy_config_projection_no_data toy_fresh = Ok false w'.
Proof.
  assert (Hk : custom_data_kind (configured_kind toy_config_projection_no_data))
    by (vm_compute; constructor).
  split; [exact toy_fresh_live|]. split; [exact Hk|]. split; [reflexivity|].
  exact (X14_declarative_custom_kind_needs_dataset (C := toy_C) toy_mgr
           toy_config_projection_no_data toy_fresh toy_fresh_live Hk eq_refl).
Defined.

(** X15.  Whether an instance holds a buffer after initialization is
    decided by the input alone, never by the kind.  After a declarative call
    that returns from a successful base-class setup the buffer pointer is
    non-null exactly when [FilterSinogramId] is present; after a programmatic
    call that returns it is non-null exactly when a coefficient array was
    passed.  So an analytic kind that comes with coefficients holds a copy of
    them. *)
Theorem X15_buffer_presence_follows_input {T : ExternalTypes} {C : Collaborators}
    (w : World) :
  buffer_live w ->
  (forall mgr cfg b w',
     fst (CCudaReconstructionAlgorithm2D_initialize cfg (base (this (entry_world w)))) = true ->
     initialize_cfg mgr cfg w = Ok b w' ->
     (m_pfFilter (this w') <> None <-> FilterSinogramId cfg <> None)) /\
  (forall s r f p wd g prm b w',
     initialize_args s r f p wd g prm w = Ok b w' ->
     (m_pfFilter (this w') <> None <-> p <> None)).
Proof.
  intros Hlive. split.
  - intros mgr cfg b w' Hb Hrun.
    destruct (initialize_cfg_frame mgr cfg w w' b Hlive Hrun)
      as [(Hb' & _)|(_ & _ & _ & [(Hid & Hp & _)|(blk & Hid & Hp & _)] & _)];
      [congruence| |]; rewrite Hp; [rewrite Hid; tauto|].
    split; [intros _; exact Hid | discriminate].
  - intros s r f p wd g prm b w' Hrun.
    destruct (initialize_args_frame w w' s r f p wd g prm b Hlive Hrun)
      as (_ & _ & [(Hid & Hp & _)|(blk & Hid & Hp & _)]); rewrite Hp;
      [rewrite Hid; tauto|].
    split; [intros _; exact Hid | discriminate].
Qed.

Lemma X15_buffer_presence_witness :
  buffer_live toy_fresh /\
  configured_kind toy_config_hann_with_data = FILTER_HANN /\
  m_pfFilter (this (world_of (initialize_cfg (C := toy_C) toy_mgr toy_config_hann_with_data
                                toy_fresh))) <> None.
Proof.
  split; [exact toy_fresh_live|]. split; [reflexivity|].
  assert (E : initialize_cfg (C := toy_C) toy_mgr toy_config_hann_with_data toy_fresh
              = Ok true (world_of (initialize_cfg (C := toy_C) toy_mgr
                                     toy_config_hann_with_data toy_fresh)))
    by (vm_compute; reflexivity).
  apply (proj1 (X15_buffer_presence_follows_input (C := toy_C) toy_fresh toy_fresh_live)
           toy_mgr toy_config_hann_with_data true _ eq_refl E).
  discriminate.
Defined.

Lemma size_of_int_product (W A : Z) :
  0 <= W <= INT_MAX -> 0 <= A <= INT_MAX ->
  size_t_mul (size_t_mul sizeof_float (to_size_t W)) (to_size_t A)
  = sizeof_float * (W * A).
Proof.
  unfold size_t_mul, to_size_t, sizeof_float, INT_MAX. intros HW HA.
  assert (HWA : W * A <= 2147483647 * 2147483647)
    by (apply Z.mul_le_mono_nonneg; lia).
  assert (HWA0 : 0 <= W * A) by (apply Z.mul_nonneg_nonneg; lia).
  rewrite (Z.mod_small W) by lia. rewrite (Z.mod_small A) by lia.
  rewrite (Z.mod_small (4 * W)) by lia.
  rewrite <- Z.mul_assoc. apply Z.mod_small. lia.
Qed.

(** X16.  Declarative initialization with a filter dataset whose
    detector count times angle count does not fit an [int], after a
    successful base-class setup.  The length of the buffer is the wrapped
    [int] product, while [memcpy] is given the byte count computed in
    [size_t].  When the product wraps to a negative value (65536 by 32768),
    [new float[]] throws and nothing has been allocated.  When it wraps to a
    smaller non-negative value (65536 by 65537 wraps to 65536), a block of
    only that many elements is allocated and the copy runs past its end. *)
Theorem X16_declarative_length_overflow {T : ExternalTypes} {C : Collaborators}
    (mgr : gmap Z CFloat32Data2D) (cfg : Config) (w : World) (id : Z) d g :
  buffer_live w ->
  fst (CCudaReconstructionAlgorithm2D_initialize cfg (base (this (entry_world w)))) = true ->
  FilterSinogramId cfg = Some id ->
  CData2DManager_get mgr id = Some (ProjectionData d) ->
  getGeometry d = Some g ->
  (wrap_int (getDetectorCount g * getProjectionAngleCount g) < 0 ->
   exists w',
     initialize_cfg mgr cfg w = Crash BadArrayLength w' /\
     heap w' = heap (entry_world w) /\
     m_pfFilter (this w') = m_pfFilter (this (entry_world w))) /\
  (0 <= getDetectorCount g <= INT_MAX ->
   0 <= getProjectionAngleCount g <= INT_MAX ->
   0 <= wrap_int (getDetectorCount g * getProjectionAngleCount g)
     < getDetectorCount g * getProjectionAngleCount g ->
   exists w' a blk,
     initialize_cfg mgr cfg w = Crash OutOfBounds w' /\
     m_pfFilter (this w') = Some a /\
     heap (entry_world w) !! a = None /\
     heap w' !! a = Some blk /\
     Z.of_nat (length blk) = wrap_int (getDetectorCount g * getProjectionAngleCount g)).
Proof.
  intros Hlive Hb Hid Hget Hgeo.
  rewrite (initialize_cfg_steps mgr cfg w Hlive Hb).
  pose proof (after_filter_type_frame cfg (base_initialized cfg (entry_world w)))
    as (_ & _ & Fp & Fh & _).
  assert (Hh0 : heap (base_initialized cfg (entry_world w)) = heap (entry_world w))
    by reflexivity.
  assert (Hp0 : m_pfFilter (this (base_initialized cfg (entry_world w)))
                = m_pfFilter (this (entry_world w))) by reflexivity.
  rewrite Hh0 in Fh. rewrite Hp0 in Fp.
  revert Fp Fh.
  generalize (after_filter_type cfg (base_initialized cfg (entry_world w))) as w2.
  intros w2 Fp Fh.
  unfold bind at 1. unfold cfg_filter_data. rewrite Hid. cbv zeta. rewrite Hget.
  cbn [dynamic_cast_ProjectionData]. exec. rewrite Hgeo.
  unfold int_mul. exec. split.
  - intros Hneg. unfold new_float_array.
    destruct (Z.ltb_spec (wrap_int (getDetectorCount g * getProjectionAngleCount g)) 0);
      [|lia].
    eexists. split; [reflexivity|]. cbn. split; [exact Fh | exact Fp].
  - intros HW HA Hwrap.
    rewrite new_float_array_ok by lia. exec.
    rewrite size_of_int_product by assumption.
    unfold memcpy. exec. rewrite lookup_insert_eq. rewrite length_replicate.
    assert (Hsmall : (sizeof_float * (getDetectorCount g * getProjectionAngleCount g)
                      <=? sizeof_float
                          * Z.of_nat (Z.to_nat (wrap_int (getDetectorCount g
                                                          * getProjectionAngleCount g))))
                     = false)
      by (apply Z.leb_gt; unfold sizeof_float; lia).
    rewrite Hsmall, andb_false_r.
    eexists _, (fresh (dom (heap w2))), _. split; [reflexivity|]. cbn.
    split; [reflexivity|].
    split; [rewrite <- Fh; apply not_elem_of_dom, is_fresh|].
    split; [apply lookup_insert_eq|]. rewrite length_replicate. lia.
Qed.

Lemma X16_declarative_length_overflow_witness :
  buffer_live toy_fresh /\
  wrap_int (getDetectorCount huge_geometry * getProjectionAngleCount huge_geometry) < 0 /\
  (exists w',
     initialize_cfg (C := toy_C) huge_mgr (toy_config_filter 5) toy_fresh
     = Crash BadArrayLength w' /\
     heap w' = heap (entry_world (C := toy_C) toy_fresh) /\
     m_pfFilter (this w') = m_pfFilter (this (entry_world (C := toy_C) toy_fresh))) /\
  wrap_int (getDetectorCount wrapping_geometry * getProjectionAngleCount wrapping_geometry)
  = 65536 /\
  (exists w' a blk,
     initialize_cfg (C := toy_C) wrapping_mgr (toy_config_filter 6) toy_fresh
     = Crash OutOfBounds w' /\
     m_pfFilter (this w') = Some a /\
     heap (entry_world (C := toy_C) toy_fresh) !! a = None /\
     heap w' !! a = Some blk /\
     Z.of_nat (length blk)
     = wrap_int (getDetectorCount wrapping_geometry
                 * getProjectionAngleCount wrapping_geometry)).
Proof.
  assert (Hneg : wrap_int (getDetectorCount huge_geometry
                           * getProjectionAngleCount huge_geometry) < 0)
    by (vm_compute; reflexivity).
  assert (Hwrap : wrap_int (getDetectorCount wrapping_geometry
                            * getProjectionAngleCount wrapping_geometry) = 65536)
    by (vm_compute; reflexivity).
  split; [exact toy_fresh_live|]. split; [exact Hneg|]. split; [|split; [exact Hwrap|]].
  - apply (proj1 (X16_declarative_length_overflow (C := toy_C) huge_mgr (toy_config_filter 5)
                    toy_fresh 5 huge_sinogram huge_geometry toy_fresh_live eq_refl eq_refl
                    ltac:(vm_compute; reflexivity) eq_refl)).
    exact Hneg.
  - apply (proj2 (X16_declarative_length_overflow (C := toy_C) wrapping_mgr
                    (toy_config_filter 6) toy_fresh 6 wrapping_sinogram wrapping_geometry
                    toy_fresh_live eq_refl eq_refl ltac:(vm_compute; reflexivity) eq_refl)).
    + unfold INT_MAX. simpl. lia.
    + unfold INT_MAX. simpl. lia.
    + rewrite Hwrap. simpl. lia.
Defined.

(** ** Lazy engine binding *)

(** X17.  [initCUDAAlgorithm] uses the engine handle without a null
    test: if the handle is null after the base-class step, the call faults
    on the first engine call; nothing is logged and the heap is untouched. *)
Theorem X17_engine_binding_null_handle {T : ExternalTypes} {C : Collaborators} (w : World) :
  m_pAlgo (CCudaReconstructionAlgorithm2D_initCUDAAlgorithm (base (this w))) = None ->
  exists w',
    initCUDAAlgorithm w = Crash NullDereference w' /\
    log w' = log w /\ heap w' = heap w.
Proof.
  intros Halgo. unfold initCUDAAlgorithm. exec. rewrite Halgo.
  eexists. split; [reflexivity|]. split; reflexivity.
Qed.

Lemma X17_engine_binding_null_handle_witness :
  m_pAlgo (CCudaReconstructionAlgorithm2D_initCUDAAlgorithm (Collaborators := toy_C)
             (base (this toy_valid_world))) = None /\
  exists w',
    initCUDAAlgorithm (C := toy_C) toy_valid_world = Crash NullDereference w' /\
    log w' = log toy_valid_world /\ heap w' = heap toy_valid_world.
Proof.
  split; [reflexivity|].
  exact (X17_engine_binding_null_handle (C := toy_C) toy_valid_world eq_refl).
Defined.

(** X18.  Whatever [initCUDAAlgorithm] does, return or stop, it leaves
    the heap, the consumed marks and every member this class adds as they
    were: engine binding reads the filter configuration and never changes
    it. *)
Theorem X18_engine_binding_frame {T : ExternalTypes} {C : Collaborators} (w : World) :
  heap (world_of (initCUDAAlgorithm w)) = heap w /\
  marks (world_of (initCUDAAlgorithm w)) = marks w /\
  m_eFilter (this (world_of (initCUDAAlgorithm w))) = m_eFilter (this w) /\
  m_pfFilter (this (world_of (initCUDAAlgorithm w))) = m_pfFilter (this w) /\
  m_iFilterWidth (this (world_of (initCUDAAlgorithm w))) = m_iFilterWidth (this w) /\
  m_fFilterParameter (this (world_of (initCUDAAlgorithm w))) = m_fFilterParameter (this w) /\
  m_fFilterD (this (world_of (initCUDAAlgorithm w))) = m_fFilterD (this w) /\
  m_bShortScan (this (world_of (initCUDAAlgorithm w))) = m_bShortScan (this w).
Proof.
  unfold initCUDAAlgorithm. exec.
  destruct (m_pAlgo (CCudaReconstructionAlgorithm2D_initCUDAAlgorithm (base (this w))))
    as [pFBP|]; exec; [|repeat split].
  match goal with
  | |- context [FBP_setFilter ?a ?b ?c ?d ?e ?f] =>
      destruct (FBP_setFilter a b c d e f) as [ok1 e1]
  end.
  exec. destruct ok1; exec; [|repeat split].
  match goal with
  | |- context [FBP_setShortScan ?a ?b] =>
      destruct (FBP_setShortScan a b) as [ok2 e2]
  end.
  exec. destruct ok2; exec; repeat split.
Qed.
